(** * perceptive-crm: a shallow embedding of [app.py]

    The development follows the layout of the application:

    - [Py]: the Python built-ins the handlers rely on ([str.strip],
      [str.lower], [int], truthiness of strings);
    - the four persisted entities and the database with its declared
      constraints;
    - the notification senders [send_email] and [send_sms];
    - the deferred-send scheduler ([schedule_email_job] and its timer
      callback);
    - the access-control decorators and the route handlers;
    - the start-up bootstrap of [create_app].

    Conventions.  A Python [str] is a [string] whose characters are code
    points below 256.  A naive [datetime] is an integer number of
    microseconds on the UTC time line (the range limit of [datetime] is not
    modelled), so that [timedelta(days=1)] is [86400000000].  A handler is a
    function from the world before the request to a response and the world
    after it; an uncaught exception is the response [Raise].

    What lies outside the process is a parameter: the environment
    variables, the standard output ([print] raises when it cannot write a
    line), the SMTP server, the Twilio service and the longest delay a
    timer thread can wait for.

    The database is SQLite, the default of the application: an [INTEGER]
    is a signed 64-bit integer, a NaN is stored as NULL, and foreign keys
    are not enforced.

    A ScheduledEmail is followed as the object its timer callback is
    closed over.  The application never queries that table, so that the
    attributes of this object are all its code reads; the component
    [scheduled_emails] holds these objects, and an assignment to an
    attribute is a write to that component. *)

From Stdlib Require Import ZArith List String Ascii Bool Lia.
Import ListNotations.
Local Open Scope string_scope.
Local Open Scope Z_scope.

(** ** Python built-ins *)

Module Py.

(** [c.isspace()] for a single character. *)
Definition isspace (c : ascii) : bool :=
  let n := N_of_ascii c in
  (((9 <=? n) && (n <=? 13)) || ((28 <=? n) && (n <=? 32))
   || (n =? 133) || (n =? 160))%N.

Fixpoint lstrip (s : string) : string :=
  match s with
  | String c r => if isspace c then lstrip r else s
  | EmptyString => EmptyString
  end.

Fixpoint rstrip (s : string) : string :=
  match s with
  | EmptyString => EmptyString
  | String c r =>
      let r' := rstrip r in
      if (r' =? "")%string && isspace c then EmptyString else String c r'
  end.

(** [s.strip()] *)
Definition strip (s : string) : string := rstrip (lstrip s).

Definition lower_char (c : ascii) : ascii :=
  let n := N_of_ascii c in
  if (((65 <=? n) && (n <=? 90))
      || ((192 <=? n) && (n <=? 222) && negb (n =? 215)))%N
  then ascii_of_N (n + 32) else c.

(** [s.lower()] *)
Fixpoint lower (s : string) : string :=
  match s with
  | EmptyString => EmptyString
  | String c r => String (lower_char c) (lower r)
  end.

(** Truth value of a string: only the empty string is false. *)
Definition truthy (s : string) : bool := negb (s =? "")%string.

(** Truth value of an optional string ([None] is false). *)
Definition truthy_opt (o : option string) : bool :=
  match o with
  | Some s => truthy s
  | None => false
  end.

(** [x in xs] for strings. *)
Definition mem (x : string) (xs : list string) : bool :=
  existsb (String.eqb x) xs.

Definition digit (c : ascii) : option Z :=
  let n := N_of_ascii c in
  if ((48 <=? n) && (n <=? 57))%N then Some (Z.of_N n - 48) else None.

(** Decimal digits with single underscores between digits.  [seen] tells
    whether the previous character was a digit. *)
Fixpoint digits (acc : Z) (seen : bool) (s : string) : option Z :=
  match s with
  | EmptyString => if seen then Some acc else None
  | String c r =>
      match digit c with
      | Some d => digits (10 * acc + d) true r
      | None =>
          if (Ascii.eqb c "_"%char) && seen then digits acc false r else None
      end
  end.

(** The number of decimal digits in [s]. *)
Fixpoint count_digits (s : string) : Z :=
  match s with
  | EmptyString => 0
  | String c r =>
      match digit c with
      | Some _ => 1 + count_digits r
      | None => count_digits r
      end
  end.

(** [sys.int_info.default_max_str_digits] *)
Definition max_str_digits : Z := 4300.

(** An unsigned integer literal; CPython refuses one of more than
    [max_str_digits] digits, with [ValueError] as well. *)
Definition literal (s : string) : option Z :=
  if count_digits s <=? max_str_digits then digits 0 false s else None.

(** The blanks [int] and [float] skip around a number.  They are fewer
    than those of [str.strip]: the separators 28 to 31 are not among
    them, so that [int('\x1c7')] raises [ValueError]. *)
Definition isblank (c : ascii) : bool :=
  let n := N_of_ascii c in
  (((9 <=? n) && (n <=? 13)) || (n =? 32) || (n =? 133) || (n =? 160))%N.

Fixpoint ltrim (s : string) : string :=
  match s with
  | String c r => if isblank c then ltrim r else s
  | EmptyString => EmptyString
  end.

Fixpoint rtrim (s : string) : string :=
  match s with
  | EmptyString => EmptyString
  | String c r =>
      let r' := rtrim r in
      if (r' =? "")%string && isblank c then EmptyString else String c r'
  end.

(** [s] without the blanks a number may have around it. *)
Definition trim (s : string) : string := rtrim (ltrim s).

(** [int(s)] for a string [s]: surrounding blanks, an optional sign, then
    decimal digits.  [None] stands for [ValueError]. *)
Definition int (s : string) : option Z :=
  match trim s with
  | String "+"%char r => literal r
  | String "-"%char r => option_map Z.opp (literal r)
  | t => literal t
  end.

End Py.

(** ** Exceptions and outcomes *)

(** The exceptions that can leave the modelled functions. *)
Inductive Exn : Type :=
| ValueError
| TypeError
| OverflowError
| UnicodeEncodeError
| OSError
| IntegrityError.

(** What a call gives back: a value, or an exception that leaves it. *)
Inductive Outcome (A : Type) : Type :=
| Returned (a : A)
| Raised (e : Exn).

Arguments Returned {A} a.
Arguments Raised {A} e.

(** ** The persisted entities *)

(** [Contact]; [F] is the type of Python floats.  The four [Float]
    columns are nullable and SQLite stores NULL for a NaN, so that they
    can hold [None]; [rating] is nullable too, but the application always
    writes an integer to it. *)
Module Contact.
Record t {F : Type} : Type := mk {
  id : Z;
  first_name : string;
  last_name : string;
  email : string;
  phone : option string;
  company : option string;
  address : option string;
  notes : option string;
  created_at : Z;
  potential_spend : option F;
  accepted_spend : option F;
  billed_amount : option F;
  received_amount : option F;
  rating : Z
}.
Arguments t : clear implicits.
End Contact.

Module Message.
Record t : Type := mk {
  id : Z;
  contact_id : Z;
  channel : string;
  subject : option string;
  body : string;
  sent_at : Z
}.
End Message.

Module User.
Record t : Type := mk {
  id : Z;
  username : string;
  password_hash : string;
  role : string;
  created_at : Z
}.
End User.

Module ScheduledEmail.
Record t : Type := mk {
  id : Z;
  contact_id : Z;
  subject : string;
  body : string;
  start_at : Z;
  end_at : option Z;
  recurring : bool;
  sent_at : option Z
}.

(** [scheduled.sent_at = v] *)
Definition set_sent_at (v : option Z) (s : t) : t :=
  mk (id s) (contact_id s) (subject s) (body s) (start_at s) (end_at s)
     (recurring s) v.

(** [scheduled.start_at = v] *)
Definition set_start_at (v : Z) (s : t) : t :=
  mk (id s) (contact_id s) (subject s) (body s) v (end_at s)
     (recurring s) (sent_at s).
End ScheduledEmail.

(** The four tables, each a list of rows in insertion order. *)
Record Database {F : Type} : Type := mkDatabase {
  contacts : list (Contact.t F);
  messages : list Message.t;
  users : list User.t;
  scheduled_emails : list ScheduledEmail.t
}.
Arguments Database : clear implicits.

(** ** The process environment and the external services *)

(** One SMTP session as [send_email] drives it: the connection kind, the
    login and the message handed to [send_message]. *)
Record SmtpSession : Type := mkSmtpSession {
  smtp_ssl : bool;
  smtp_starttls : bool;
  smtp_host : string;
  smtp_port : Z;
  smtp_login_user : string;
  smtp_login_password : string;
  mail_from : string;
  mail_to : string;
  mail_subject : string;
  mail_body : string
}.

(** One [client.messages.create] call of the Twilio client. *)
Record TwilioCall : Type := mkTwilioCall {
  tw_account_sid : string;
  tw_auth_token : string;
  tw_from : string;
  tw_to : string;
  tw_body : string
}.

(** A transport answers a call with [None] when it goes through and with
    [Some e] when it raises an exception whose text is [e]. *)
Definition Transport (A : Type) : Type := A -> option string.

(** The standard output as [print] finds it: [None] when the text is
    written, [Some e] when writing it raises [e] (a [UnicodeEncodeError]
    when the encoding of the stream has no code for a character of the
    text, an [OSError] when the stream is broken). *)
Definition Stdout : Type := string -> option Exn.

(** [os.environ] *)
Definition Environ : Type := string -> option string.

(** [environ.get(k, d)] *)
Definition getenv (environ : Environ) (k d : string) : string :=
  match environ k with
  | Some v => v
  | None => d
  end.

(** What lies outside the process: its environment variables, its
    standard output, the SMTP server and the Twilio service (the answer
    may differ from one call to the next: transports are indexed by the
    number of earlier sender calls), whether the [twilio] package can be
    imported, and [threading.TIMEOUT_MAX], the longest delay a timer can
    wait for, in microseconds. *)
Record Env : Type := mkEnv {
  environ : Environ;
  stdout : Stdout;
  smtp : nat -> Transport SmtpSession;
  twilio_installed : bool;
  twilio : nat -> Transport TwilioCall;
  timeout_max : Z
}.

Definition nl : string := String (ascii_of_nat 10) EmptyString.

(** ** Notification senders *)

(** [f'To: {to_address}\nSubject: {subject}\n\n{body}'], the message
    [send_email] prints when it cannot send. *)
Definition would_be_email (to_address subject body : string) : string :=
  "To: " ++ to_address ++ nl ++ "Subject: " ++ subject ++ nl ++ nl ++ body.

(** [f'To: {to_number}\n\n{body}'], the message [send_sms] prints when it
    cannot send. *)
Definition would_be_sms (to_number body : string) : string :=
  "To: " ++ to_number ++ nl ++ nl ++ body.

(** [print(line)] followed by [rest]: when the line cannot be written the
    exception leaves the sender at once, and [rest] does not run. *)
Definition print (stdout : Stdout) (line : string)
    (rest : list string * Outcome bool) : list string * Outcome bool :=
  match stdout line with
  | Some e => ([], Raised e)
  | None => (line :: fst rest, snd rest)
  end.

(** [send_email(to_address, subject, body)]: the lines printed and the
    outcome.  [int(os.environ.get('SMTP_PORT', 587))] is evaluated before
    the configuration check and outside the [try] block; so are the two
    [print] calls of the configuration check, and the [print] of the
    [except] clause is not guarded either. *)
Definition send_email (environ : Environ) (stdout : Stdout)
    (smtp : Transport SmtpSession) (to_address subject body : string)
    : list string * Outcome bool :=
  let smtp_server := environ "SMTP_SERVER" in
  match (match environ "SMTP_PORT" with
         | Some s => Py.int s
         | None => Some 587
         end) with
  | None => ([], Raised ValueError)
  | Some smtp_port =>
      let smtp_user := environ "SMTP_USERNAME" in
      let smtp_password := environ "SMTP_PASSWORD" in
      if negb (Py.truthy_opt smtp_server) || negb (Py.truthy_opt smtp_user)
         || negb (Py.truthy_opt smtp_password)
      then
        print stdout "Email not sent: missing SMTP configuration"
          (print stdout (would_be_email to_address subject body)
             ([], Returned false))
      else
        let use_ssl_env := Py.lower (getenv environ "SMTP_USE_SSL" "") in
        let use_tls_env := Py.lower (getenv environ "SMTP_USE_TLS" "true") in
        let use_ssl :=
          Py.mem use_ssl_env ["1"; "true"; "yes"] || (smtp_port =? 465) in
        let use_tls :=
          negb (Py.mem use_tls_env ["0"; "false"; "no"]) && negb use_ssl in
        let user := getenv environ "SMTP_USERNAME" "" in
        match smtp (mkSmtpSession use_ssl use_tls
                      (getenv environ "SMTP_SERVER" "") smtp_port
                      user (getenv environ "SMTP_PASSWORD" "")
                      user to_address subject body) with
        | None => ([], Returned true)
        | Some e =>
            print stdout ("Email sending failed: " ++ e) ([], Returned false)
        end
  end.

(** [send_sms(to_number, body)]; none of its [print] calls is guarded. *)
Definition send_sms (environ : Environ) (stdout : Stdout)
    (twilio_installed : bool) (twilio : Transport TwilioCall)
    (to_number body : string) : list string * Outcome bool :=
  let account_sid := environ "TWILIO_ACCOUNT_SID" in
  let auth_token := environ "TWILIO_AUTH_TOKEN" in
  let from_number := environ "TWILIO_PHONE_NUMBER" in
  if negb (Py.truthy_opt account_sid) || negb (Py.truthy_opt auth_token)
     || negb (Py.truthy_opt from_number)
  then
    print stdout "SMS not sent: missing Twilio configuration"
      (print stdout (would_be_sms to_number body) ([], Returned false))
  else if negb twilio_installed then
    print stdout "Twilio library not installed. Install via `pip install twilio`"
      ([], Returned false)
  else
    match twilio (mkTwilioCall (getenv environ "TWILIO_ACCOUNT_SID" "")
                    (getenv environ "TWILIO_AUTH_TOKEN" "")
                    (getenv environ "TWILIO_PHONE_NUMBER" "")
                    to_number body) with
    | None => ([], Returned true)
    | Some e => print stdout ("SMS sending failed: " ++ e) ([], Returned false)
    end.

(** ** Library functions taken as an interface

    Python's [float] and its parser, [datetime.fromisoformat] and
    werkzeug's password hashing are not part of the application.  Every
    result below holds for every implementation of this interface. *)
Class Runtime : Type := {
  (** Python floats *)
  pyfloat : Type;
  (** [0.0], which is also [float(0)] *)
  float_zero : pyfloat;
  (** [float(s)] for a string [s]; [None] stands for [ValueError] *)
  float_of_str : string -> option pyfloat;
  (** [math.isnan(x)] *)
  float_is_nan : pyfloat -> bool;
  zero_is_a_number : float_is_nan float_zero = false;
  float_of_zero : float_of_str "0" = Some float_zero;
  (** [datetime.fromisoformat(s)]; [None] stands for [ValueError] *)
  fromisoformat : string -> option Z;
  generate_password_hash : string -> string;
  check_password_hash : string -> string -> bool;
  check_generated :
    forall p, check_password_hash (generate_password_hash p) p = true
}.

(** ** The world a request or a timer runs in *)

(** A started [threading.Timer] whose callback is [_send_and_reschedule]
    closed over the ScheduledEmail with id [job]; [delay] is the delay it
    was given and [due] the time at which that delay runs out. *)
Record Timer : Type := mkTimer {
  due : Z;
  job : Z;
  delay : Z
}.

(** A call of one of the two senders, with the time of the call. *)
Inductive Call : Type :=
| EmailCall (at_time : Z) (to_address subject body : string)
| SmsCall (at_time : Z) (to_number body : string).

Section App.

Context {R : Runtime}.

Record World : Type := mkWorld {
  (** the persisted tables *)
  db : Database pyfloat;
  (** the timers armed and not yet run *)
  timers : list Timer;
  (** the sender calls made so far, oldest first *)
  calls : list Call;
  (** the lines printed so far *)
  console : list string;
  (** the flashed messages, each with its category *)
  flashes : list (string * string);
  (** the summary files written: contact id and time stamp *)
  summaries : list (Z * Z);
  (** exceptions that ended a timer thread *)
  uncaught : list Exn
}.

Definition set_db (d : Database pyfloat) (w : World) : World :=
  mkWorld d (timers w) (calls w) (console w) (flashes w) (summaries w)
          (uncaught w).

Definition set_timers (ts : list Timer) (w : World) : World :=
  mkWorld (db w) ts (calls w) (console w) (flashes w) (summaries w)
          (uncaught w).

(** [threading.Timer(delay, _send_and_reschedule).start()] at time [now] *)
Definition arm (now delay sid : Z) (w : World) : World :=
  set_timers (timers w ++ [mkTimer (now + delay) sid delay]) w.

(** [flash(message, category)] *)
Definition flash (message category : string) (w : World) : World :=
  mkWorld (db w) (timers w) (calls w) (console w)
          (flashes w ++ [(message, category)]) (summaries w) (uncaught w).

Definition record_call (c : Call) (out : list string) (w : World) : World :=
  mkWorld (db w) (timers w) (calls w ++ [c]) (console w ++ out) (flashes w)
          (summaries w) (uncaught w).

Definition record_uncaught (e : Exn) (w : World) : World :=
  mkWorld (db w) (timers w) (calls w) (console w) (flashes w) (summaries w)
          (uncaught w ++ [e]).

(** [send_email] run in the world: the call is logged and its output goes
    to the console. *)
Definition call_send_email (E : Env) (now : Z) (to_address subject body : string)
    (w : World) : Outcome bool * World :=
  let '(out, r) :=
    send_email (environ E) (stdout E) (smtp E (List.length (calls w)))
               to_address subject body in
  (r, record_call (EmailCall now to_address subject body) out w).

(** [send_sms] run in the world. *)
Definition call_send_sms (E : Env) (now : Z) (to_number body : string)
    (w : World) : Outcome bool * World :=
  let '(out, r) :=
    send_sms (environ E) (stdout E) (twilio_installed E)
             (twilio E (List.length (calls w))) to_number body in
  (r, record_call (SmsCall now to_number body) out w).

(** *** Queries *)

(** [Contact.query.get(k)] *)
Definition get_contact (d : Database pyfloat) (k : Z)
    : option (Contact.t pyfloat) :=
  find (fun c => Contact.id c =? k) (contacts d).

(** [Contact.query.filter_by(email=e).first()] *)
Definition contact_by_email (d : Database pyfloat) (e : string)
    : option (Contact.t pyfloat) :=
  find (fun c => (Contact.email c =? e)%string) (contacts d).

(** The ScheduledEmail with primary key [k]: the object the timer callback
    of that entry is closed over. *)
Definition get_scheduled (d : Database pyfloat) (k : Z)
    : option ScheduledEmail.t :=
  find (fun s => ScheduledEmail.id s =? k) (scheduled_emails d).

(** The attributes of the object are now those of [s]. *)
Definition put_scheduled (s : ScheduledEmail.t) (d : Database pyfloat)
    : Database pyfloat :=
  mkDatabase pyfloat (contacts d) (messages d) (users d)
    (map (fun r => if ScheduledEmail.id r =? ScheduledEmail.id s then s else r)
         (scheduled_emails d)).

(** The primary key given to the next row of a table whose keys are [ids]. *)
Definition next_id (ids : list Z) : Z := fold_right Z.max 0 ids + 1.

(** ** Deferred-send scheduler *)

(** [timedelta(days=1)] *)
Definition one_day : Z := 86400000000.

(** Lines 193 to 201 of [_send_and_reschedule]: the rescheduling of a
    recurring entry. *)
Definition reschedule (now : Z) (scheduled : ScheduledEmail.t) (w : World)
    : World :=
  if ScheduledEmail.recurring scheduled then
    let next_time := ScheduledEmail.start_at scheduled + one_day in
    if match ScheduledEmail.end_at scheduled with
       | None => true
       | Some end_at => next_time <=? end_at
       end
    then
      let w1 :=
        set_db (put_scheduled (ScheduledEmail.set_start_at next_time scheduled)
                              (db w)) w in
      let delay := Z.max (next_time - now) 0 in
      arm now delay (ScheduledEmail.id scheduled) w1
    else w
  else w.

(** [_send_and_reschedule], the timer callback, run at time [now] for the
    ScheduledEmail with id [sid] (the callback takes no time: both of its
    readings of the clock give [now]).  An exception that leaves
    [send_email] ends the thread before [sent_at] is written and before
    the rescheduling.  The application never deletes a ScheduledEmail, so
    the row is there; without it nothing happens. *)
Definition send_and_reschedule (E : Env) (now : Z) (sid : Z) (w : World)
    : World :=
  match get_scheduled (db w) sid with
  | None => w
  | Some scheduled =>
      match get_contact (db w) (ScheduledEmail.contact_id scheduled) with
      | Some contact =>
          match call_send_email E now (Contact.email contact)
                  (ScheduledEmail.subject scheduled)
                  (ScheduledEmail.body scheduled) w with
          | (Raised e, w1) => record_uncaught e w1
          | (Returned success, w1) =>
              let scheduled1 := ScheduledEmail.set_sent_at (Some now) scheduled in
              let w2 := set_db (put_scheduled scheduled1 (db w1)) w1 in
              reschedule now scheduled1 w2
          end
      | None => reschedule now scheduled w
      end
  end.

(** [schedule_email_job(app, scheduled)] called at time [now]. *)
Definition schedule_email_job (now : Z) (scheduled : ScheduledEmail.t)
    (w : World) : World :=
  let delay := ScheduledEmail.start_at scheduled - now in
  let delay := if delay <? 0 then 0 else delay in
  arm now delay (ScheduledEmail.id scheduled) w.

(** The armed timer that runs out first (the one armed first among equals),
    and the others. *)
Fixpoint next_timer (ts : list Timer) : option (Timer * list Timer) :=
  match ts with
  | [] => None
  | t :: rest =>
      match next_timer rest with
      | Some (t', rest') =>
          if due t' <? due t then Some (t', t :: rest') else Some (t, rest)
      | None => Some (t, rest)
      end
  end.

(** The timer threads with exact timers: at most [n] times, the timer
    that runs out first is taken and its callback runs at the very time the
    timer is due.  A timer whose delay is longer than
    [threading.TIMEOUT_MAX] never runs its callback: its thread ends with
    [OverflowError] when it starts to wait.  The world stays as it is once
    no timer is left. *)
Fixpoint run_timers (E : Env) (n : nat) (w : World) : World :=
  match n with
  | O => w
  | S k =>
      match next_timer (timers w) with
      | None => w
      | Some (t, rest) =>
          if timeout_max E <? delay t then
            run_timers E k (record_uncaught OverflowError (set_timers rest w))
          else
            run_timers E k (send_and_reschedule E (due t) (job t)
                              (set_timers rest w))
      end
  end.

(** ** Writes, with the constraints the columns declare *)

(** What SQLite keeps of a float: it has no NaN and stores NULL for
    one. *)
Definition stored_float (x : option pyfloat) : option pyfloat :=
  match x with
  | Some v => if float_is_nan v then None else Some v
  | None => None
  end.

(** The row of a contact as it is read back after the commit that wrote
    it. *)
Definition stored (c : Contact.t pyfloat) : Contact.t pyfloat :=
  Contact.mk pyfloat
    (Contact.id c) (Contact.first_name c) (Contact.last_name c)
    (Contact.email c) (Contact.phone c) (Contact.company c)
    (Contact.address c) (Contact.notes c) (Contact.created_at c)
    (stored_float (Contact.potential_spend c))
    (stored_float (Contact.accepted_spend c))
    (stored_float (Contact.billed_amount c))
    (stored_float (Contact.received_amount c))
    (Contact.rating c).

(** An SQLite [INTEGER] is a signed 64-bit integer; binding a larger
    Python [int] raises [OverflowError]. *)
Definition int64 (z : Z) : bool :=
  (- 9223372036854775808 <=? z) && (z <=? 9223372036854775807).

(** [db.session.add(contact); db.session.commit()].  The values are bound
    before the statement runs: a rating that is no 64-bit integer raises
    [OverflowError].  [Contact.email] is declared [unique=True]: the insert
    is refused with [IntegrityError] when another row holds the same
    email. *)
Definition insert_contact (c : Contact.t pyfloat) (d : Database pyfloat)
    : Outcome (Database pyfloat) :=
  if negb (int64 (Contact.rating c)) then Raised OverflowError
  else if existsb (fun r => (Contact.email r =? Contact.email c)%string)
                  (contacts d)
  then Raised IntegrityError
  else Returned (mkDatabase pyfloat (contacts d ++ [stored c]) (messages d)
                            (users d) (scheduled_emails d)).

(** [db.session.commit()] after the attributes of the loaded row [old] were
    assigned, which made it [c].  Only the columns whose value changed are
    written: a new rating that is no 64-bit integer raises
    [OverflowError]; the update is refused with [IntegrityError] when a
    different row holds the email. *)
Definition update_contact (old c : Contact.t pyfloat) (d : Database pyfloat)
    : Outcome (Database pyfloat) :=
  if negb (Contact.rating c =? Contact.rating old)
     && negb (int64 (Contact.rating c))
  then Raised OverflowError
  else if existsb (fun r => negb (Contact.id r =? Contact.id c)
                            && (Contact.email r =? Contact.email c)%string)
                  (contacts d)
  then Raised IntegrityError
  else Returned (mkDatabase pyfloat
                   (map (fun r => if Contact.id r =? Contact.id c
                                  then stored c else r)
                        (contacts d))
                   (messages d) (users d) (scheduled_emails d)).

(** [User.username] is declared [unique=True] as well. *)
Definition insert_user (u : User.t) (d : Database pyfloat)
    : Outcome (Database pyfloat) :=
  if existsb (fun r => (User.username r =? User.username u)%string) (users d)
  then Raised IntegrityError
  else Returned (mkDatabase pyfloat (contacts d) (messages d) (users d ++ [u])
                            (scheduled_emails d)).

Definition insert_message (m : Message.t) (d : Database pyfloat)
    : Database pyfloat :=
  mkDatabase pyfloat (contacts d) (messages d ++ [m]) (users d)
             (scheduled_emails d).

Definition insert_scheduled (s : ScheduledEmail.t) (d : Database pyfloat)
    : Database pyfloat :=
  mkDatabase pyfloat (contacts d) (messages d) (users d)
             (scheduled_emails d ++ [s]).

(** ** Application start *)

(** Lines 50 to 57 of [create_app], run at time [now] on the database [d]
    ([db.create_all()] leaves existing rows alone). *)
Definition create_app (now : Z) (d : Database pyfloat)
    : Outcome (Database pyfloat) :=
  match users d with                      (* User.query.first() is None *)
  | [] =>
      let default_master :=
        User.mk (next_id (map User.id (users d))) "admin"
                (generate_password_hash "admin123") "master" now in
      insert_user default_master d
  | _ :: _ => Returned d
  end.

(** ** Requests and responses *)

Inductive Method : Type := GET | POST.

(** The targets of [url_for]. *)
Inductive Endpoint : Type :=
| Url_index
| Url_list_contacts
| Url_view_contact (contact_id : Z)
| Url_login
| Url_list_users.

Inductive Response : Type :=
| Redirect (target : Endpoint)
| Render (template : string) (contact : option (Contact.t pyfloat))
| Abort (status : Z)
| Raise (e : Exn).

(** [flask.request] and [flask.g] during one request, and the time at which
    it is served. *)
Record Request : Type := mkRequest {
  req_time : Z;
  method : Method;
  form : list (string * string);
  g_user : option User.t
}.

Definition View : Type := Request -> World -> Response * World.

(** [request.form.get(k)] *)
Fixpoint form_lookup (f : list (string * string)) (k : string)
    : option string :=
  match f with
  | [] => None
  | (k', v) :: rest => if (k' =? k)%string then Some v else form_lookup rest k
  end.

(** [request.form.get(k, d)] *)
Definition form_get (f : list (string * string)) (k d : string) : string :=
  match form_lookup f k with
  | Some v => v
  | None => d
  end.

(** [load_logged_in_user]: [g.user] from the user id kept in the session. *)
Definition load_logged_in_user (session_user_id : option Z)
    (d : Database pyfloat) : option User.t :=
  match session_user_id with
  | None => None
  | Some k => find (fun u => User.id u =? k) (users d)
  end.

(** Whether the four float columns of a contact hold a number: the
    summary formats each of them with [:.2f], which raises [TypeError]
    for [None]. *)
Definition has_numbers (contact : Contact.t pyfloat) : bool :=
  match Contact.potential_spend contact, Contact.accepted_spend contact,
        Contact.billed_amount contact, Contact.received_amount contact with
  | Some _, Some _, Some _, Some _ => true
  | _, _, _, _ => false
  end.

(** [generate_contact_summary(contact)]: one more file in the summaries
    directory.  The lines are composed before the file is opened, so that
    no file is written when the formatting raises. *)
Definition generate_contact_summary (now : Z) (contact : Contact.t pyfloat)
    (w : World) : Outcome World :=
  if has_numbers contact then
    Returned (mkWorld (db w) (timers w) (calls w) (console w) (flashes w)
                      (summaries w ++ [(Contact.id contact, now)]) (uncaught w))
  else Raised TypeError.

(** ** Access control *)

Definition login_required (view : View) : View :=
  fun rq w =>
    match g_user rq with
    | None => (Redirect Url_login, w)
    | Some _ => view rq w
    end.

Definition role_required (roles : list string) (view : View) : View :=
  fun rq w =>
    match g_user rq with
    | None => (Redirect Url_login, w)
    | Some user =>
        if negb (Py.mem (Py.lower (User.role user)) (map Py.lower roles))
        then (Redirect Url_index,
              flash "You do not have permission to access this page." "danger" w)
        else view rq w
    end.

(** ** Routes *)

(** [/] *)
Definition index : View :=
  fun _ w => (Redirect Url_list_contacts, w).

(** [float(request.form.get(k, '0') or 0)] with [ValueError] turned into
    [0.0]; [v] is [request.form.get(k)]. *)
Definition float_or_zero (v : option string) : pyfloat :=
  let raw := match v with Some s => s | None => "0" end in
  if Py.truthy raw then
    match float_of_str raw with
    | Some x => x
    | None => float_zero
    end
  else float_zero.

(** [int(request.form.get(k, '0') or 0)] with [ValueError] turned into 0. *)
Definition int_or_zero (v : option string) : Z :=
  let raw := match v with Some s => s | None => "0" end in
  if Py.truthy raw then
    match Py.int raw with
    | Some x => x
    | None => 0
    end
  else 0.

(** The body of [create_contact]. *)
Definition create_contact_view : View :=
  fun rq w =>
    match method rq with
    | POST =>
        let first_name := Py.strip (form_get (form rq) "first_name" "") in
        let last_name := Py.strip (form_get (form rq) "last_name" "") in
        let email := Py.strip (form_get (form rq) "email" "") in
        let phone := Py.strip (form_get (form rq) "phone" "") in
        let company := Py.strip (form_get (form rq) "company" "") in
        let address := Py.strip (form_get (form rq) "address" "") in
        let notes := Py.strip (form_get (form rq) "notes" "") in
        if negb (Py.truthy first_name) || negb (Py.truthy last_name)
           || negb (Py.truthy email)
        then
          (Render "contact_form.html" None,
           flash "First name, last name and email are required." "danger" w)
        else
          match contact_by_email (db w) email with
          | Some _ =>
              (Render "contact_form.html" None,
               flash "A contact with that email already exists." "warning" w)
          | None =>
              let contact :=
                Contact.mk pyfloat
                  (next_id (map Contact.id (contacts (db w))))
                  first_name last_name email (Some phone) (Some company)
                  (Some address) (Some notes) (req_time rq)
                  (Some (float_or_zero (form_lookup (form rq) "potential_spend")))
                  (Some (float_or_zero (form_lookup (form rq) "accepted_spend")))
                  (Some (float_or_zero (form_lookup (form rq) "billed_amount")))
                  (Some (float_or_zero (form_lookup (form rq) "received_amount")))
                  (int_or_zero (form_lookup (form rq) "rating")) in
              match insert_contact contact (db w) with
              | Raised e => (Raise e, w)
              | Returned d =>
                  (* the commit expired the object: the summary reads the
                     row back *)
                  match generate_contact_summary (req_time rq) (stored contact)
                                                 (set_db d w) with
                  | Raised e => (Raise e, set_db d w)
                  | Returned w1 =>
                      (Redirect Url_list_contacts,
                       flash "Contact created successfully!" "success" w1)
                  end
              end
          end
    | GET => (Render "contact_form.html" None, w)
    end.

(** [/contact/new] *)
Definition create_contact : View :=
  login_required (role_required ["master"; "management"] create_contact_view).

(** Sequencing of calls that may raise. *)
Definition and_then {A B : Type} (r : Outcome A) (k : A -> Outcome B)
    : Outcome B :=
  match r with
  | Returned a => k a
  | Raised e => Raised e
  end.

(** The value of the attribute after
    [try: contact.x = float(request.form.get(k, prior) or prior)] with
    [ValueError] passed over; [v] is [request.form.get(k)] and [prior] the
    value of the attribute.  A text that does not parse leaves [prior];
    without a text the argument of [float] is [prior] itself, and
    [float(None)] raises [TypeError], which nothing catches. *)
Definition float_or_prior (v : option string) (prior : option pyfloat)
    : Outcome (option pyfloat) :=
  let float_of_prior :=
    match prior with
    | Some x => Returned (Some x)
    | None => Raised TypeError
    end in
  match v with
  | Some s =>
      if Py.truthy s then
        match float_of_str s with
        | Some x => Returned (Some x)
        | None => Returned prior
        end
      else float_of_prior
  | None => float_of_prior
  end.

(** [int(request.form.get(k, prior) or prior)] with [ValueError] passed
    over. *)
Definition int_or_prior (v : option string) (prior : Z) : Z :=
  match v with
  | Some s =>
      if Py.truthy s then
        match Py.int s with
        | Some x => x
        | None => prior
        end
      else prior
  | None => prior
  end.

(** The attributes [edit_contact] assigns to the loaded row before it
    commits, in the order of the assignments. *)
Definition edited (f : list (string * string)) (contact : Contact.t pyfloat)
    : Outcome (Contact.t pyfloat) :=
  and_then (float_or_prior (form_lookup f "potential_spend")
                           (Contact.potential_spend contact))
    (fun potential_spend =>
  and_then (float_or_prior (form_lookup f "accepted_spend")
                           (Contact.accepted_spend contact))
    (fun accepted_spend =>
  and_then (float_or_prior (form_lookup f "billed_amount")
                           (Contact.billed_amount contact))
    (fun billed_amount =>
  and_then (float_or_prior (form_lookup f "received_amount")
                           (Contact.received_amount contact))
    (fun received_amount =>
  Returned
    (Contact.mk pyfloat
       (Contact.id contact)
       (Py.strip (form_get f "first_name" ""))
       (Py.strip (form_get f "last_name" ""))
       (Py.strip (form_get f "email" ""))
       (Some (Py.strip (form_get f "phone" "")))
       (Some (Py.strip (form_get f "company" "")))
       (Some (Py.strip (form_get f "address" "")))
       (Some (Py.strip (form_get f "notes" "")))
       (Contact.created_at contact)
       potential_spend accepted_spend billed_amount received_amount
       (int_or_prior (form_lookup f "rating") (Contact.rating contact))))))).

(** The body of [edit_contact].  An exception before the commit leaves
    the row as it was: the assignments made so far are dropped with the
    session. *)
Definition edit_contact_view (contact_id : Z) : View :=
  fun rq w =>
    match get_contact (db w) contact_id with
    | None => (Abort 404, w)
    | Some contact =>
        match method rq with
        | POST =>
            match edited (form rq) contact with
            | Raised e => (Raise e, w)
            | Returned contact1 =>
                match update_contact contact contact1 (db w) with
                | Raised e => (Raise e, w)
                | Returned d =>
                    match generate_contact_summary (req_time rq)
                            (stored contact1) (set_db d w) with
                    | Raised e => (Raise e, set_db d w)
                    | Returned w1 =>
                        (Redirect (Url_view_contact (Contact.id contact1)),
                         flash "Contact updated successfully!" "success" w1)
                    end
                end
            end
        | GET => (Render "contact_form.html" (Some contact), w)
        end
    end.

(** [/contact/<contact_id>/edit] *)
Definition edit_contact (contact_id : Z) : View :=
  login_required
    (role_required ["master"; "management"] (edit_contact_view contact_id)).

(** The end of a test send: a flash that depends on the outcome and a
    redirect to the contact page; an exception leaves the handler. *)
Definition finish_test (contact : Contact.t pyfloat)
    (r : Outcome bool * World) : Response * World :=
  match r with
  | (Raised e, w1) => (Raise e, w1)
  | (Returned sent, w1) =>
      (Redirect (Url_view_contact (Contact.id contact)),
       if sent then flash "Test message sent successfully!" "success" w1
       else flash "Test message could not be sent." "warning" w1)
  end.

(** The end of an immediate send: a Message is logged only when the sender
    returned [True]. *)
Definition finish_send (now : Z) (contact : Contact.t pyfloat)
    (channel subject body : string) (r : Outcome bool * World)
    : Response * World :=
  match r with
  | (Raised e, w1) => (Raise e, w1)
  | (Returned success, w1) =>
      (Redirect (Url_view_contact (Contact.id contact)),
       if success then
         let message :=
           Message.mk (next_id (map Message.id (messages (db w1))))
                      (Contact.id contact) channel
                      (if (channel =? "email")%string then Some subject else None)
                      body now in
         flash "Message sent successfully!" "success"
               (set_db (insert_message message (db w1)) w1)
       else
         flash "Message could not be sent. Check server logs for details."
               "warning" w1)
  end.

(** [contact.phone or ''] *)
Definition phone_or_empty (contact : Contact.t pyfloat) : string :=
  match Contact.phone contact with
  | Some p => p
  | None => ""
  end.

(** The body of [send_message_route]. *)
Definition send_message_view (E : Env) (contact_id : Z) : View :=
  fun rq w =>
    match get_contact (db w) contact_id with
    | None => (Abort 404, w)
    | Some contact =>
        match method rq with
        | POST =>
            let channel := form_lookup (form rq) "channel" in
            let subject := Py.strip (form_get (form rq) "subject" "") in
            let body := Py.strip (form_get (form rq) "body" "") in
            let is_test :=
              match form_lookup (form rq) "send_test" with
              | Some v => (v =? "1")%string
              | None => false
              end in
            let start_at_str := form_get (form rq) "start_at" "" in
            let end_at_str := form_get (form rq) "end_at" "" in
            let recurring := (form_get (form rq) "recurring" "" =? "on")%string in
            let again := Render "message_form.html" (Some contact) in
            match channel with
            | None =>
                (again,
                 flash "Please choose a valid channel and provide a message body."
                       "danger" w)
            | Some channel =>
                if negb (Py.mem channel ["email"; "sms"]) || negb (Py.truthy body)
                then
                  (again,
                   flash "Please choose a valid channel and provide a message body."
                         "danger" w)
                else if is_test then
                  (* test message: sent at once, nothing recorded *)
                  if (channel =? "email")%string then
                    if negb (Py.truthy subject) then
                      (again,
                       flash "A subject line is required for test emails."
                             "danger" w)
                    else
                      finish_test contact
                        (call_send_email E (req_time rq) (Contact.email contact)
                                         subject body w)
                  else
                    finish_test contact
                      (call_send_sms E (req_time rq) (phone_or_empty contact)
                                     body w)
                else if Py.truthy start_at_str && (channel =? "email")%string then
                  (* scheduling an email *)
                  match fromisoformat start_at_str with
                  | None =>
                      (again, flash "Invalid start date/time format." "danger" w)
                  | Some start_at =>
                      match (if Py.truthy end_at_str
                             then option_map Some (fromisoformat end_at_str)
                             else Some None) with
                      | None =>
                          (again,
                           flash "Invalid end date/time format." "danger" w)
                      | Some end_at =>
                          let scheduled :=
                            ScheduledEmail.mk
                              (next_id (map ScheduledEmail.id
                                            (scheduled_emails (db w))))
                              (Contact.id contact)
                              subject                   (* subject or '' *)
                              body start_at end_at recurring None in
                          let w1 := set_db (insert_scheduled scheduled (db w)) w in
                          let w2 := schedule_email_job (req_time rq) scheduled w1 in
                          (Redirect (Url_view_contact (Contact.id contact)),
                           flash "Email scheduled successfully." "success" w2)
                      end
                  end
                else
                  (* immediate send *)
                  if (channel =? "email")%string then
                    if negb (Py.truthy subject) then
                      (again,
                       flash "A subject line is required when sending an email."
                             "danger" w)
                    else
                      finish_send (req_time rq) contact channel subject body
                        (call_send_email E (req_time rq) (Contact.email contact)
                                         subject body w)
                  else
                    finish_send (req_time rq) contact channel subject body
                      (call_send_sms E (req_time rq) (phone_or_empty contact)
                                     body w)
            end
        | GET => (Render "message_form.html" (Some contact), w)
        end
    end.

(** [/message/new/<contact_id>] *)
Definition send_message_route (E : Env) (contact_id : Z) : View :=
  login_required (send_message_view E contact_id).

(** ** Drivers for the timer callback *)

(** The timer callback run once at each of the given times, in order, for
    the ScheduledEmail [sid]. *)
Definition fires (E : Env) (sid : Z) (times : list Z) (w : World) : World :=
  fold_left (fun w0 t => send_and_reschedule E t sid w0) times w.

(** The timers a recurring entry without end is expected to start when
    its callback runs at [times], the first time with [start_at = start]:
    each runs out a day (86400000000 microseconds) after the [start_at]
    the run found, or at once when that time is past. *)
Fixpoint rearmed (sid start : Z) (times : list Z) : list Timer :=
  match times with
  | [] => []
  | t :: rest =>
      mkTimer (Z.max (start + 86400000000) t) sid
              (Z.max (start + 86400000000 - t) 0)
      :: rearmed sid (start + 86400000000) rest
  end.

(** ** Users and sessions *)

(** The [user_id] kept in the session cookie, if any. *)
Definition Session : Type := option Z.

(** The request a client with the given session sends: [g.user] is loaded
    by [load_logged_in_user] before the view runs. *)
Definition request_of (session : Session) (now : Z) (m : Method)
    (f : list (string * string)) (w : World) : Request :=
  mkRequest now m f (load_logged_in_user session (db w)).

(** [User.query.filter_by(username=name).first()] *)
Definition user_by_username (d : Database pyfloat) (name : string)
    : option User.t :=
  find (fun u => (User.username u =? name)%string) (users d).

(** [user.check_password(password)] *)
Definition check_password (user : User.t) (password : string) : bool :=
  check_password_hash (User.password_hash user) password.

(** [/login]: the response, the world and the session afterwards. *)
Definition login (session : Session) (rq : Request) (w : World)
    : Response * World * Session :=
  match method rq with
  | POST =>
      let username := Py.strip (form_get (form rq) "username" "") in
      let password := Py.strip (form_get (form rq) "password" "") in
      match user_by_username (db w) username with
      | Some user =>
          if check_password user password then
            (* session.clear(); session['user_id'] = user.id *)
            (Redirect Url_index, flash "Logged in successfully." "success" w,
             Some (User.id user))
          else
            (Render "login.html" None,
             flash "Invalid username or password." "danger" w, session)
      | None =>
          (Render "login.html" None,
           flash "Invalid username or password." "danger" w, session)
      end
  | GET => (Render "login.html" None, w, session)
  end.

(** [/logout], behind [login_required]. *)
Definition logout (session : Session) (rq : Request) (w : World)
    : Response * World * Session :=
  match g_user rq with
  | None => (Redirect Url_login, w, session)
  | Some _ =>
      (Redirect Url_login, flash "You have been logged out." "success" w, None)
  end.

(** The roles [create_user] accepts. *)
Definition known_roles : list string :=
  ["master"; "management"; "engineer"; "billing"].

(** The body of [create_user]. *)
Definition create_user_view : View :=
  fun rq w =>
    match method rq with
    | POST =>
        let username := Py.strip (form_get (form rq) "username" "") in
        let password := Py.strip (form_get (form rq) "password" "") in
        let role := Py.lower (Py.strip (form_get (form rq) "role" "engineer")) in
        if negb (Py.truthy username) || negb (Py.truthy password) then
          (Render "user_form.html" None,
           flash "Username and password are required." "danger" w)
        else
          match user_by_username (db w) username with
          | Some _ =>
              (Render "user_form.html" None,
               flash "A user with that username already exists." "warning" w)
          | None =>
              if negb (Py.mem role known_roles) then
                (Render "user_form.html" None,
                 flash "Invalid role selected." "danger" w)
              else
                let new_user :=
                  User.mk (next_id (map User.id (users (db w)))) username
                          (generate_password_hash password) role (req_time rq) in
                match insert_user new_user (db w) with
                | Raised e => (Raise e, w)
                | Returned d =>
                    (Redirect Url_list_users,
                     flash "User created successfully." "success" (set_db d w))
                end
          end
    | GET => (Render "user_form.html" None, w)
    end.

(** [/users/new] *)
Definition create_user : View :=
  login_required (role_required ["master"] create_user_view).

(** ** Deleting a contact *)

(** [db.session.delete(contact); db.session.commit()].  The relationship
    [Contact.messages] carries no delete cascade, so the flush first sets
    [contact_id] of the messages of the contact to NULL; the column is
    declared [nullable=False] and the commit is refused when there is such
    a message.  [ScheduledEmail.contact_id] is a plain foreign key with no
    relationship: those rows are left alone. *)
Definition remove_contact (c : Contact.t pyfloat) (d : Database pyfloat)
    : Outcome (Database pyfloat) :=
  if existsb (fun m => Message.contact_id m =? Contact.id c) (messages d)
  then Raised IntegrityError
  else Returned (mkDatabase pyfloat
                   (filter (fun r => negb (Contact.id r =? Contact.id c))
                           (contacts d))
                   (messages d) (users d) (scheduled_emails d)).

(** The body of [delete_contact]. *)
Definition delete_contact_view (contact_id : Z) : View :=
  fun rq w =>
    match get_contact (db w) contact_id with
    | None => (Abort 404, w)
    | Some contact =>
        match remove_contact contact (db w) with
        | Raised e => (Raise e, w)
        | Returned d =>
            (Redirect Url_list_contacts,
             flash "Contact deleted." "success" (set_db d w))
        end
    end.

(** [/contact/<contact_id>/delete].  The route is registered for POST
    only: another method is answered with 405 by the routing, before the
    decorators run. *)
Definition delete_contact (contact_id : Z) : View :=
  fun rq w =>
    match method rq with
    | GET => (Abort 405, w)
    | POST =>
        login_required
          (role_required ["master"; "management"]
             (delete_contact_view contact_id)) rq w
    end.

(** ** Invariants of the tables *)

(** No two contacts hold the same email. *)
Definition unique_emails (d : Database pyfloat) : Prop :=
  NoDup (map Contact.email (contacts d)).

(** No two contacts have the same primary key. *)
Definition unique_contact_ids (d : Database pyfloat) : Prop :=
  NoDup (map Contact.id (contacts d)).

(** No two users have the same username. *)
Definition unique_usernames (d : Database pyfloat) : Prop :=
  NoDup (map User.username (users d)).

(** Every user has one of the four roles. *)
Definition roles_known (d : Database pyfloat) : Prop :=
  Forall (fun u => In (User.role u) known_roles) (users d).

(** No stored email has blanks around it. *)
Definition emails_stripped (d : Database pyfloat) : Prop :=
  Forall (fun c => Py.strip (Contact.email c) = Contact.email c) (contacts d).

(** The [n] times [t], [t + 1 day], [t + 2 days], ... *)
Fixpoint daily (n : nat) (t : Z) : list Z :=
  match n with
  | O => []
  | S m => t :: daily m (t + one_day)
  end.

End App.

(** ** A reference implementation of the library interface

    Used to run the model on concrete requests.  A float is kept as the
    decimal number its literal denotes (no rounding to binary64); date-times
    are read in the form an HTML [datetime-local] control submits,
    [YYYY-MM-DD], [YYYY-MM-DDTHH:MM] or [YYYY-MM-DDTHH:MM:SS]; password
    hashes are tagged plain text. *)

Module Reference.

Inductive decimal : Type :=
| Finite (negative : bool) (mantissa : Z) (exponent : Z)
| Infinity (negative : bool)
| NaN.

(** Splits [s] before the first character that satisfies [p]. *)
Fixpoint break (p : ascii -> bool) (s : string) : string * option string :=
  match s with
  | EmptyString => (EmptyString, None)
  | String c r =>
      if p c then (EmptyString, Some r)
      else let '(a, b) := break p r in (String c a, b)
  end.

(** An optional digit part: the empty string counts as zero digits. *)
Definition digits_opt (s : string) : option Z :=
  if (s =? "")%string then Some 0 else Py.digits 0 false s.

(** [[digitpart] "." digitpart | digitpart ["."]], then an optional
    exponent. *)
Definition number (negative : bool) (s : string) : option decimal :=
  let '(mant, expo) :=
    break (fun c => Ascii.eqb c "e"%char || Ascii.eqb c "E"%char) s in
  let '(whole, frac) := break (fun c => Ascii.eqb c "."%char) mant in
  let frac := match frac with Some f => f | None => EmptyString end in
  if (whole =? "")%string && (frac =? "")%string then None else
  match digits_opt whole, digits_opt frac with
  | Some _, Some _ =>
      match Py.digits 0 false (whole ++ frac) with
      | Some m =>
          match expo with
          | None => Some (Finite negative m (- Py.count_digits frac))
          | Some x =>
              match (match x with
                     | String "+"%char r => Py.digits 0 false r
                     | String "-"%char r =>
                         option_map Z.opp (Py.digits 0 false r)
                     | _ => Py.digits 0 false x
                     end) with
              | Some k => Some (Finite negative m (k - Py.count_digits frac))
              | None => None
              end
          end
      | None => None
      end
  | _, _ => None
  end.

Definition unsigned (negative : bool) (s : string) : option decimal :=
  let l := Py.lower s in
  if (l =? "inf")%string || (l =? "infinity")%string then
    Some (Infinity negative)
  else if (l =? "nan")%string then Some NaN
  else number negative s.

(** [float(s)] *)
Definition float_of_str (s : string) : option decimal :=
  match Py.trim s with
  | String "+"%char r => unsigned false r
  | String "-"%char r => unsigned true r
  | t => unsigned false t
  end.

(** Exactly [n] decimal digits at the front of [s], and what follows. *)
Fixpoint fixed (n : nat) (acc : Z) (s : string) : option (Z * string) :=
  match n with
  | O => Some (acc, s)
  | S k =>
      match s with
      | EmptyString => None
      | String c r =>
          match Py.digit c with
          | Some d => fixed k (10 * acc + d) r
          | None => None
          end
      end
  end.

Definition is_leap (y : Z) : bool :=
  (y mod 4 =? 0) && (negb (y mod 100 =? 0) || (y mod 400 =? 0)).

Definition days_in_month (y m : Z) : Z :=
  if m =? 2 then (if is_leap y then 29 else 28)
  else if (m =? 4) || (m =? 6) || (m =? 9) || (m =? 11) then 30
  else 31.

(** Days from 1970-01-01 to the given date of the proleptic Gregorian
    calendar. *)
Definition days_from_civil (y m d : Z) : Z :=
  let y1 := if m <=? 2 then y - 1 else y in
  let era := y1 / 400 in
  let yoe := y1 - era * 400 in
  let mp := if 2 <? m then m - 3 else m + 9 in
  let doy := (153 * mp + 2) / 5 + d - 1 in
  let doe := yoe * 365 + yoe / 4 - yoe / 100 + doy in
  era * 146097 + doe - 719468.

Definition expect (c : ascii) (s : string) : option string :=
  match s with
  | String c' r => if Ascii.eqb c c' then Some r else None
  | EmptyString => None
  end.

(** [HH:MM] or [HH:MM:SS] up to the end of the string, in seconds. *)
Definition time_of_day (s : string) : option Z :=
  match fixed 2 0 s with
  | Some (h, s1) =>
      match expect ":"%char s1 with
      | Some s2 =>
          match fixed 2 0 s2 with
          | Some (mi, s3) =>
              match s3 with
              | EmptyString =>
                  if (h <? 24) && (mi <? 60) then Some (h * 3600 + mi * 60)
                  else None
              | _ =>
                  match expect ":"%char s3 with
                  | Some s4 =>
                      match fixed 2 0 s4 with
                      | Some (sec, EmptyString) =>
                          if (h <? 24) && (mi <? 60) && (sec <? 60)
                          then Some (h * 3600 + mi * 60 + sec) else None
                      | _ => None
                      end
                  | None => None
                  end
              end
          | None => None
          end
      | None => None
      end
  | None => None
  end.

(** [datetime.fromisoformat(s)], in microseconds from 1970-01-01T00:00. *)
Definition fromisoformat (s : string) : option Z :=
  match fixed 4 0 s with
  | Some (y, s1) =>
      match expect "-"%char s1 with
      | Some s2 =>
          match fixed 2 0 s2 with
          | Some (m, s3) =>
              match expect "-"%char s3 with
              | Some s4 =>
                  match fixed 2 0 s4 with
                  | Some (d, s5) =>
                      if (1 <=? y) && (1 <=? m) && (m <=? 12) && (1 <=? d)
                         && (d <=? days_in_month y m)
                      then
                        let day := days_from_civil y m d * 86400 in
                        match s5 with
                        | EmptyString => Some (day * 1000000)
                        | _ =>
                            match expect "T"%char s5 with
                            | Some s6 =>
                                option_map (fun t => (day + t) * 1000000)
                                           (time_of_day s6)
                            | None => None
                            end
                        end
                      else None
                  | None => None
                  end
              | None => None
              end
          | None => None
          end
      | None => None
      end
  | None => None
  end.

Definition generate_password_hash (password : string) : string :=
  "plain$" ++ password.

Definition check_password_hash (pwhash password : string) : bool :=
  (pwhash =? "plain$" ++ password)%string.

Definition is_nan (x : decimal) : bool :=
  match x with
  | NaN => true
  | _ => false
  end.

Definition runtime : Runtime :=
  Build_Runtime decimal (Finite false 0 0) float_of_str is_nan eq_refl
                eq_refl fromisoformat generate_password_hash check_password_hash
                (fun p => String.eqb_refl (generate_password_hash p)).

End Reference.

(** ** Vocabulary of the properties *)

(** [print] writes every text: the standard output is open and its
    encoding has a code for every character. *)
Definition prints_all (stdout : Stdout) : Prop := forall s, stdout s = None.

(** [SMTP_PORT] is unset or holds an integer literal, so that
    [int(os.environ.get('SMTP_PORT', 587))] returns. *)
Definition port_ok (environ : Environ) : bool :=
  match environ "SMTP_PORT" with
  | Some s => match Py.int s with Some _ => true | None => false end
  | None => true
  end.

(** The three required SMTP settings are present and not empty. *)
Definition smtp_configured (environ : Environ) : bool :=
  Py.truthy_opt (environ "SMTP_SERVER")
  && Py.truthy_opt (environ "SMTP_USERNAME")
  && Py.truthy_opt (environ "SMTP_PASSWORD").

(** The three required Twilio settings are present and not empty. *)
Definition twilio_configured (environ : Environ) : bool :=
  Py.truthy_opt (environ "TWILIO_ACCOUNT_SID")
  && Py.truthy_opt (environ "TWILIO_AUTH_TOKEN")
  && Py.truthy_opt (environ "TWILIO_PHONE_NUMBER").

(** [timedelta(hours=n)] *)
Definition hours (n : Z) : Z := n * 3600000000.

Section Numbers.

Context {R : Runtime}.

(** A float column that holds a number: neither NULL nor a NaN (which
    SQLite cannot hold). *)
Definition is_number (x : option pyfloat) : bool :=
  match x with
  | Some v => negb (float_is_nan v)
  | None => false
  end.

(** Each of the four float columns of the contact holds a number. *)
Definition all_numbers (c : Contact.t pyfloat) : bool :=
  is_number (Contact.potential_spend c)
  && is_number (Contact.accepted_spend c)
  && is_number (Contact.billed_amount c)
  && is_number (Contact.received_amount c).

(** No field of the form is read by [float] as a NaN. *)
Definition no_nan (f : list (string * string)) : Prop :=
  forall k v x,
    form_lookup f k = Some v -> float_of_str v = Some x ->
    float_is_nan x = false.

(** The rating of the form, when [int] reads it, is a 64-bit integer. *)
Definition rating_fits (f : list (string * string)) : Prop :=
  forall v z,
    form_lookup f "rating" = Some v -> Py.int v = Some z -> int64 z = true.

(** The row an accepted edit writes: the text columns from the form, the
    number of the form in each float column for which [float] reads one
    and the number the column held otherwise, the rating likewise. *)
Definition edited_row (f : list (string * string)) (c : Contact.t pyfloat)
    (y1 y2 y3 y4 : pyfloat) : Contact.t pyfloat :=
  Contact.mk pyfloat
    (Contact.id c)
    (Py.strip (form_get f "first_name" ""))
    (Py.strip (form_get f "last_name" ""))
    (Py.strip (form_get f "email" ""))
    (Some (Py.strip (form_get f "phone" "")))
    (Some (Py.strip (form_get f "company" "")))
    (Some (Py.strip (form_get f "address" "")))
    (Some (Py.strip (form_get f "notes" "")))
    (Contact.created_at c)
    (Some y1) (Some y2) (Some y3) (Some y4)
    (int_or_prior (form_lookup f "rating") (Contact.rating c)).

End Numbers.

(** ** Concrete data to run the model on *)

Module Scenario.

#[local] Existing Instance Reference.runtime.

Definition zero : pyfloat := Reference.Finite false 0 0.

Definition admin : User.t :=
  User.mk 1 "admin" (Reference.generate_password_hash "admin123") "master" 0.

Definition engineer : User.t :=
  User.mk 2 "erin" (Reference.generate_password_hash "s3cret") "Engineer" 0.

Definition alice : Contact.t pyfloat :=
  Contact.mk _ 1 "Alice" "Archer" "alice@example.com" (Some "+15550001")
             (Some "Acme") (Some "") (Some "") 0
             (Some (Reference.Finite false 1250 (-2))) (Some zero) (Some zero)
             (Some zero) 7.

Definition bob : Contact.t pyfloat :=
  Contact.mk _ 2 "Bob" "Baker" "bob@example.com" (Some "+15550002")
             (Some "") (Some "") (Some "") 0 (Some zero) (Some zero)
             (Some zero) (Some zero) 0.

Definition database : Database pyfloat :=
  mkDatabase _ [alice; bob] [] [admin; engineer] [].

Definition world : World := mkWorld database [] [] [] [] [] [].

(** No variable set at all: no SMTP and no Twilio configuration. *)
Definition bare : Environ := fun _ => None.

(** SMTP configured, with the default port. *)
Definition configured : Environ :=
  fun k =>
    if (k =? "SMTP_SERVER")%string then Some "smtp.example.com"
    else if (k =? "SMTP_USERNAME")%string then Some "crm@example.com"
    else if (k =? "SMTP_PASSWORD")%string then Some "hunter2"
    else None.

(** [SMTP_PORT] set to something that is not a number. *)
Definition bad_port : Environ :=
  fun k => if (k =? "SMTP_PORT")%string then Some "abc" else configured k.

Definition refused : forall A, nat -> Transport A :=
  fun _ _ _ => Some "Connection refused".

Definition accepted : forall A, nat -> Transport A :=
  fun _ _ _ => None.

(** A standard output that writes everything, as one encoded in UTF-8
    does. *)
Definition utf8 : Stdout := fun _ => None.

(** A standard output encoded in ASCII. *)
Definition ascii_only : Stdout :=
  fun s =>
    if forallb (fun c => (N_of_ascii c <? 128)%N) (list_ascii_of_string s)
    then None else Some UnicodeEncodeError.

(** [threading.TIMEOUT_MAX] of a 64-bit POSIX build, in microseconds
    (about 292 years). *)
Definition posix_timeout_max : Z := 9223372036854775.

Definition offline : Env :=
  mkEnv configured utf8 (refused _) false (refused _) posix_timeout_max.

Definition online : Env :=
  mkEnv configured utf8 (accepted _) true (accepted _) posix_timeout_max.

(** SMTP configured, except that [SMTP_PORT] is no number. *)
Definition misconfigured : Env :=
  mkEnv bad_port utf8 (accepted _) true (accepted _) posix_timeout_max.

(** A text with an accented letter: [caf] and the code point 233. *)
Definition cafe : string := "caf" ++ String (ascii_of_nat 233) "".

(** 2030-01-01T09:00, in microseconds *)
Definition T : Z := 1893488400000000.

(** A daily reminder for Alice from [T] to [T + 36h]. *)
Definition reminder : ScheduledEmail.t :=
  ScheduledEmail.mk 1 1 "Reminder" "See you soon" T (Some (T + hours 36))
                    true None.

(** The same without an end. *)
Definition open_reminder : ScheduledEmail.t :=
  ScheduledEmail.mk 1 1 "Reminder" "See you soon" T None true None.

Definition with_scheduled (s : ScheduledEmail.t) : World :=
  set_db (insert_scheduled s database) world.

Definition post (user : User.t) (f : list (string * string)) : Request :=
  mkRequest 1000 POST f (Some user).

End Scenario.

(** More data: two more scheduled emails, two more environments and a
    few forms. *)
Module Cases.

Import Scenario.

#[local] Existing Instance Reference.runtime.

(** Sent once, at [T]. *)
Definition notice : ScheduledEmail.t :=
  ScheduledEmail.mk 1 2 "Notice" "Office closed" T None false None.

(** Daily from [T], for the last time before [T + 60h]. *)
Definition digest : ScheduledEmail.t :=
  ScheduledEmail.mk 1 1 "Digest" "News" T (Some (T + hours 60)) true None.

(** The default port, SSL asked for by [SMTP_USE_SSL]. *)
Definition over_ssl : Environ :=
  fun k => if (k =? "SMTP_USE_SSL")%string then Some "Yes" else configured k.

(** Twilio configured and reachable. *)
Definition texting : Env :=
  mkEnv (fun k =>
           if (k =? "TWILIO_ACCOUNT_SID")%string then Some "AC123"
           else if (k =? "TWILIO_AUTH_TOKEN")%string then Some "token"
           else if (k =? "TWILIO_PHONE_NUMBER")%string then Some "+15550100"
           else None)
        utf8 (accepted _) true (accepted _) posix_timeout_max.

Definition get (user : User.t) : Request :=
  mkRequest 1000 GET [] (Some user).

Definition anonymous (f : list (string * string)) : Request :=
  mkRequest 1000 POST f None.

Definition carol_form : list (string * string) :=
  [("first_name", "Carol"); ("last_name", "Cole");
   ("email", "carol@example.com"); ("potential_spend", "lots")].

Definition new_user_form : list (string * string) :=
  [("username", " dana "); ("password", "pa55word"); ("role", " Billing ")].

End Cases.

(** * Properties *)

(** ** The built-ins and the reference runtime on examples *)

Example strip_examples :
  Py.strip "  a b  " = "a b" /\ Py.strip "   " = "" /\ Py.strip "x" = "x".
Proof. repeat split; reflexivity. Qed.

Example lower_examples :
  Py.lower "MaSter" = "master" /\ Py.lower "billing" = "billing".
Proof. split; reflexivity. Qed.

Example int_examples :
  Py.int " 587 " = Some 587 /\ Py.int "-1_0" = Some (-10) /\
  Py.int "abc" = None /\ Py.int "" = None /\ Py.int "3.5" = None /\
  Py.int "1__0" = None /\ Py.int "5_" = None /\ Py.int "+" = None /\
  Py.int "+ 5" = None /\ Py.int "007" = Some 7.
Proof. repeat split; reflexivity. Qed.

(** [str.strip] removes the separators 28 to 31; [int] does not take them
    for blanks. *)
Example int_blanks :
  let fs := String (ascii_of_nat 28) "587" in
  let nbsp := String (ascii_of_nat 160) "587" in
  let tab := String (ascii_of_nat 9) "587" in
  Py.strip fs = "587" /\ Py.int fs = None /\
  Py.int nbsp = Some 587 /\ Py.int tab = Some 587.
Proof. repeat split; reflexivity. Qed.

Example reference_float_examples :
  Reference.float_of_str " 12.50 " = Some (Reference.Finite false 1250 (-2)) /\
  Reference.float_of_str "-1e3" = Some (Reference.Finite true 1 3) /\
  Reference.float_of_str ".5" = Some (Reference.Finite false 5 (-1)) /\
  Reference.float_of_str "5." = Some (Reference.Finite false 5 0) /\
  Reference.float_of_str "1_000" = Some (Reference.Finite false 1000 0) /\
  Reference.float_of_str "Infinity" = Some (Reference.Infinity false) /\
  Reference.float_of_str "abc" = None /\
  Reference.float_of_str "." = None /\
  Reference.float_of_str "1e" = None /\
  Reference.float_of_str "12,5" = None /\
  Reference.float_of_str "" = None.
Proof. repeat split; reflexivity. Qed.

Example reference_datetime_examples :
  Reference.fromisoformat "1970-01-01" = Some 0 /\
  Reference.fromisoformat "1970-01-02T00:01" = Some 86460000000 /\
  Reference.fromisoformat "2000-03-01T00:00:00" = Some 951868800000000 /\
  Reference.fromisoformat "2030-02-30T09:00" = None /\
  Reference.fromisoformat "tomorrow" = None.
Proof. repeat split; vm_compute; reflexivity. Qed.

Example scenario_time :
  Reference.fromisoformat "2030-01-01T09:00" = Some Scenario.T.
Proof. vm_compute. reflexivity. Qed.

(** ** Notification senders *)

Lemma print_written :
  forall stdout line rest,
    stdout line = None ->
    print stdout line rest = (line :: fst rest, snd rest).
Proof. intros stdout line rest H. unfold print. rewrite H. reflexivity. Qed.

Lemma print_raises :
  forall stdout line rest out e,
    print stdout line rest = (out, Raised e) ->
    stdout line = Some e \/ snd rest = Raised e.
Proof.
  intros stdout line rest out e. unfold print.
  destruct (stdout line) as [x|].
  - intro H. inversion H. auto.
  - intro H. inversion H. auto.
Qed.

Lemma send_email_returns :
  forall environ stdout smtp to_address subject body,
    port_ok environ = true ->
    prints_all stdout ->
    exists out b,
      send_email environ stdout smtp to_address subject body
      = (out, Returned b).
Proof.
  intros environ stdout smtp to_address subject body Hport Hprint.
  unfold port_ok in Hport. unfold send_email.
  destruct (environ "SMTP_PORT") as [p|].
  - destruct (Py.int p) as [n|]; [|discriminate].
    destruct (negb _ || negb _ || negb _).
    + rewrite !print_written by apply Hprint. cbn [fst snd]. eauto.
    + destruct (smtp _); [|eauto].
      rewrite !print_written by apply Hprint. cbn [fst snd]. eauto.
  - destruct (negb _ || negb _ || negb _).
    + rewrite !print_written by apply Hprint. cbn [fst snd]. eauto.
    + destruct (smtp _); [|eauto].
      rewrite !print_written by apply Hprint. cbn [fst snd]. eauto.
Qed.

Lemma send_sms_returns :
  forall environ stdout twilio_installed twilio to_number body,
    prints_all stdout ->
    exists out b,
      send_sms environ stdout twilio_installed twilio to_number body
      = (out, Returned b).
Proof.
  intros environ stdout twilio_installed twilio to_number body Hprint.
  unfold send_sms.
  destruct (negb _ || negb _ || negb _).
  - rewrite !print_written by apply Hprint. cbn [fst snd]. eauto.
  - destruct (negb twilio_installed).
    + rewrite !print_written by apply Hprint. cbn [fst snd]. eauto.
    + destruct (twilio _); [|eauto].
      rewrite !print_written by apply Hprint. cbn [fst snd]. eauto.
Qed.

(** [send_email] raises in two ways only: [ValueError] from [int] on
    [SMTP_PORT], before anything is printed, and the exception of a [print]
    that cannot write its line. *)
Lemma send_email_raises :
  forall environ stdout smtp to_address subject body out e,
    send_email environ stdout smtp to_address subject body = (out, Raised e) ->
    (port_ok environ = false /\ e = ValueError /\ out = []) \/
    (port_ok environ = true /\ exists line, stdout line = Some e).
Proof.
  intros environ stdout smtp to_address subject body out e.
  unfold port_ok, send_email.
  assert (Hprints : forall n,
    (if negb (Py.truthy_opt (environ "SMTP_SERVER"))
        || negb (Py.truthy_opt (environ "SMTP_USERNAME"))
        || negb (Py.truthy_opt (environ "SMTP_PASSWORD"))
     then
       print stdout "Email not sent: missing SMTP configuration"
         (print stdout (would_be_email to_address subject body)
            ([], Returned false))
     else
       match
         smtp
           (mkSmtpSession
              (Py.mem (Py.lower (getenv environ "SMTP_USE_SSL" ""))
                      ["1"; "true"; "yes"] || (n =? 465))
              (negb (Py.mem (Py.lower (getenv environ "SMTP_USE_TLS" "true"))
                            ["0"; "false"; "no"])
               && negb (Py.mem (Py.lower (getenv environ "SMTP_USE_SSL" ""))
                               ["1"; "true"; "yes"] || (n =? 465)))
              (getenv environ "SMTP_SERVER" "") n
              (getenv environ "SMTP_USERNAME" "")
              (getenv environ "SMTP_PASSWORD" "")
              (getenv environ "SMTP_USERNAME" "") to_address subject body)
       with
       | Some e0 =>
           print stdout ("Email sending failed: " ++ e0) ([], Returned false)
       | None => ([], Returned true)
       end) = (out, Raised e) ->
    exists line, stdout line = Some e).
  { intro n. destruct (negb _ || negb _ || negb _).
    - intro H. apply print_raises in H. destruct H as [H|H]; [eauto|].
      destruct (print stdout (would_be_email to_address subject body) _)
        as [out' r'] eqn:Hp. cbn [snd] in H. subst r'.
      apply print_raises in Hp. destruct Hp as [Hp|Hp]; [eauto|discriminate].
    - destruct (smtp _) as [e0|]; [|discriminate].
      intro H. apply print_raises in H.
      destruct H as [H|H]; [eauto|discriminate]. }
  destruct (environ "SMTP_PORT") as [p|].
  - destruct (Py.int p) as [n|].
    + intro H. right. split; [reflexivity|]. exact (Hprints n H).
    + intro H. inversion H. auto.
  - intro H. right. split; [reflexivity|]. exact (Hprints 587 H).
Qed.

Lemma negb3_configured :
  forall a b c : bool, negb a || negb b || negb c = negb (a && b && c).
Proof. intros [] [] []; reflexivity. Qed.

(** C3, as amended.  On a standard output that takes every text,
    [send_email] returns a boolean whenever [SMTP_PORT] is unset or an
    integer literal, and [send_sms] returns a boolean in every
    environment; neither raises.  With a required setting missing each
    prints a notice and the would-be message and returns [False].  When
    the transport raises, each prints the text of the exception (and not
    the would-be message) and returns [False]; [send_sms] prints an
    installation hint and returns [False] when the client library cannot be
    imported.  Each returns [True] only when the transport took the
    message. *)
Theorem senders_return_a_boolean :
  forall (environ : Environ) (stdout : Stdout) (smtp : Transport SmtpSession)
         (twilio_installed : bool) (twilio : Transport TwilioCall)
         (to_ subject body : string),
    prints_all stdout ->
    (port_ok environ = true ->
     exists out b,
        send_email environ stdout smtp to_ subject body = (out, Returned b) /\
        (smtp_configured environ = false ->
           b = false /\
           out = ["Email not sent: missing SMTP configuration";
                  would_be_email to_ subject body]) /\
        (smtp_configured environ = true ->
           exists session,
             mail_to session = to_ /\ mail_subject session = subject /\
             mail_body session = body /\
             ((smtp session = None /\ b = true /\ out = []) \/
              (exists e, smtp session = Some e /\ b = false /\
                         out = ["Email sending failed: " ++ e])))) /\
    (exists out b,
        send_sms environ stdout twilio_installed twilio to_ body
          = (out, Returned b) /\
        (twilio_configured environ = false ->
           b = false /\
           out = ["SMS not sent: missing Twilio configuration";
                  would_be_sms to_ body]) /\
        (twilio_configured environ = true -> twilio_installed = false ->
           b = false /\
           out = ["Twilio library not installed. Install via `pip install twilio`"]) /\
        (twilio_configured environ = true -> twilio_installed = true ->
           exists call,
             tw_to call = to_ /\ tw_body call = body /\
             ((twilio call = None /\ b = true /\ out = []) \/
              (exists e, twilio call = Some e /\ b = false /\
                         out = ["SMS sending failed: " ++ e])))).
Proof.
  intros environ stdout smtp twilio_installed twilio to_ subject body Hprint.
  split.
  - intro Hport.
    unfold port_ok in Hport. unfold send_email, smtp_configured.
    assert (Hp : exists n, match environ "SMTP_PORT" with
                           | Some s => Py.int s
                           | None => Some 587
                           end = Some n).
    { destruct (environ "SMTP_PORT") as [p|]; [|eauto].
      destruct (Py.int p); [eauto|discriminate]. }
    destruct Hp as [n ->].
    rewrite negb3_configured.
    destruct (Py.truthy_opt (environ "SMTP_SERVER")
              && Py.truthy_opt (environ "SMTP_USERNAME")
              && Py.truthy_opt (environ "SMTP_PASSWORD")); cbn [negb].
    + match goal with |- context [smtp ?x] => set (session := x) end.
      destruct (smtp session) as [e|] eqn:Hs.
      * rewrite print_written by apply Hprint.
        do 2 eexists. split; [reflexivity|]. split; [discriminate|].
        intros _. exists session. repeat split. right. eauto.
      * do 2 eexists. split; [reflexivity|]. split; [discriminate|].
        intros _. exists session. repeat split. left. auto.
    + rewrite !print_written by apply Hprint.
      do 2 eexists. split; [reflexivity|]. split; [auto|discriminate].
  - unfold send_sms, twilio_configured.
    rewrite negb3_configured.
    destruct (Py.truthy_opt (environ "TWILIO_ACCOUNT_SID")
              && Py.truthy_opt (environ "TWILIO_AUTH_TOKEN")
              && Py.truthy_opt (environ "TWILIO_PHONE_NUMBER")); cbn [negb].
    + destruct twilio_installed; cbn [negb].
      * match goal with |- context [twilio ?x] => set (call := x) end.
        destruct (twilio call) as [e|] eqn:Hc.
        -- rewrite print_written by apply Hprint.
           do 2 eexists. split; [reflexivity|].
           split; [discriminate|]. split; [discriminate|].
           intros _ _. exists call. repeat split. right. eauto.
        -- do 2 eexists. split; [reflexivity|].
           split; [discriminate|]. split; [discriminate|].
           intros _ _. exists call. repeat split. left. auto.
      * rewrite print_written by apply Hprint.
        do 2 eexists. split; [reflexivity|].
        split; [discriminate|]. split; [auto|discriminate].
    + rewrite !print_written by apply Hprint.
      do 2 eexists. split; [reflexivity|].
      split; [auto|]. split; discriminate.
Qed.

Section Properties.

Context {R : Runtime}.

(** ** Scheduler *)

Lemma get_scheduled_id :
  forall d k s, get_scheduled d k = Some s -> ScheduledEmail.id s = k.
Proof.
  intros d k s H. unfold get_scheduled in H.
  apply find_some in H. destruct H as [_ H]. apply Z.eqb_eq in H. exact H.
Qed.

Lemma find_put_scheduled :
  forall (l : list ScheduledEmail.t) k s s',
    find (fun r => ScheduledEmail.id r =? k) l = Some s ->
    ScheduledEmail.id s' = k ->
    find (fun r => ScheduledEmail.id r =? k)
         (map (fun r => if ScheduledEmail.id r =? ScheduledEmail.id s'
                        then s' else r) l) = Some s'.
Proof.
  intros l k s s' Hf Hid. subst k. revert s Hf.
  induction l as [|r l IH]; intros s Hf; simpl in *.
  - discriminate.
  - destruct (ScheduledEmail.id r =? ScheduledEmail.id s') eqn:Hr; simpl.
    + rewrite Z.eqb_refl. reflexivity.
    + rewrite Hr. eapply IH; eauto.
Qed.

Lemma get_scheduled_put :
  forall d k s s',
    get_scheduled d k = Some s ->
    ScheduledEmail.id s' = k ->
    get_scheduled (put_scheduled s' d) k = Some s'.
Proof.
  intros d k s s' H Hid. unfold get_scheduled, put_scheduled. simpl.
  eapply find_put_scheduled; eauto.
Qed.

Lemma reschedule_window_open :
  forall now s w,
    ScheduledEmail.recurring s = true ->
    match ScheduledEmail.end_at s with
    | None => True
    | Some e => ScheduledEmail.start_at s + one_day <= e
    end ->
    reschedule now s w =
    arm now (Z.max (ScheduledEmail.start_at s + one_day - now) 0)
        (ScheduledEmail.id s)
        (set_db (put_scheduled
                   (ScheduledEmail.set_start_at
                      (ScheduledEmail.start_at s + one_day) s) (db w)) w).
Proof.
  intros now s w Hr He. unfold reschedule. rewrite Hr.
  destruct (ScheduledEmail.end_at s) as [e|]; [|reflexivity].
  apply Z.leb_le in He. rewrite He. reflexivity.
Qed.

Lemma reschedule_window_closed :
  forall now s w e,
    ScheduledEmail.end_at s = Some e ->
    e < ScheduledEmail.start_at s + one_day ->
    reschedule now s w = w.
Proof.
  intros now s w e He Hlt. unfold reschedule. rewrite He.
  destruct (ScheduledEmail.recurring s); [|reflexivity].
  apply Z.leb_gt in Hlt. rewrite Hlt. reflexivity.
Qed.

(** The callback when the contact exists and [send_email] returns:
    [sent_at] is written, then the rescheduling runs. *)
Lemma fire_contact_present :
  forall E now sid w s c,
    get_scheduled (db w) sid = Some s ->
    get_contact (db w) (ScheduledEmail.contact_id s) = Some c ->
    port_ok (environ E) = true ->
    prints_all (stdout E) ->
    exists out,
      send_and_reschedule E now sid w =
      reschedule now (ScheduledEmail.set_sent_at (Some now) s)
        (set_db (put_scheduled (ScheduledEmail.set_sent_at (Some now) s) (db w))
           (record_call (EmailCall now (Contact.email c)
                           (ScheduledEmail.subject s) (ScheduledEmail.body s))
                        out w)).
Proof.
  intros E now sid w s c Hs Hc Hport Hprint.
  unfold send_and_reschedule, call_send_email. rewrite Hs, Hc.
  destruct (send_email_returns (environ E) (stdout E)
              (smtp E (List.length (calls w)))
              (Contact.email c) (ScheduledEmail.subject s)
              (ScheduledEmail.body s) Hport Hprint) as (out & b & Hsend).
  rewrite Hsend. exists out. reflexivity.
Qed.

(** The callback when the contact is gone: only the rescheduling runs. *)
Lemma fire_contact_absent :
  forall E now sid w s,
    get_scheduled (db w) sid = Some s ->
    get_contact (db w) (ScheduledEmail.contact_id s) = None ->
    send_and_reschedule E now sid w = reschedule now s w.
Proof.
  intros E now sid w s Hs Hc. unfold send_and_reschedule.
  rewrite Hs, Hc. reflexivity.
Qed.

(** The callback when [send_email] raises: the thread ends there, with
    [sent_at] not written and nothing armed. *)
Lemma fire_sender_raises :
  forall E now sid w s c out e,
    get_scheduled (db w) sid = Some s ->
    get_contact (db w) (ScheduledEmail.contact_id s) = Some c ->
    send_email (environ E) (stdout E) (smtp E (List.length (calls w)))
               (Contact.email c) (ScheduledEmail.subject s)
               (ScheduledEmail.body s) = (out, Raised e) ->
    send_and_reschedule E now sid w =
    record_uncaught e
      (record_call (EmailCall now (Contact.email c)
                      (ScheduledEmail.subject s) (ScheduledEmail.body s))
                   out w).
Proof.
  intros E now sid w s c out e Hs Hc Hsend.
  unfold send_and_reschedule, call_send_email. rewrite Hs, Hc, Hsend.
  reflexivity.
Qed.

Lemma schedule_email_job_armed :
  forall now s w,
    schedule_email_job now s w =
    set_timers (timers w
                ++ [mkTimer (Z.max (ScheduledEmail.start_at s) now)
                            (ScheduledEmail.id s)
                            (Z.max (ScheduledEmail.start_at s - now) 0)]) w.
Proof.
  intros now s w. unfold schedule_email_job, arm.
  destruct (ScheduledEmail.start_at s - now <? 0) eqn:Hd.
  - apply Z.ltb_lt in Hd.
    replace (now + 0) with (Z.max (ScheduledEmail.start_at s) now) by lia.
    replace (Z.max (ScheduledEmail.start_at s - now) 0) with 0 by lia.
    reflexivity.
  - apply Z.ltb_ge in Hd.
    replace (now + (ScheduledEmail.start_at s - now))
      with (Z.max (ScheduledEmail.start_at s) now) by lia.
    replace (Z.max (ScheduledEmail.start_at s - now) 0)
      with (ScheduledEmail.start_at s - now) by lia.
    reflexivity.
Qed.

Lemma schedule_email_job_timer :
  forall now s w,
    now <= ScheduledEmail.start_at s ->
    schedule_email_job now s w =
    set_timers (timers w ++ [mkTimer (ScheduledEmail.start_at s)
                                     (ScheduledEmail.id s)
                                     (ScheduledEmail.start_at s - now)]) w.
Proof.
  intros now s w Hle. rewrite schedule_email_job_armed.
  replace (Z.max (ScheduledEmail.start_at s) now)
    with (ScheduledEmail.start_at s) by lia.
  replace (Z.max (ScheduledEmail.start_at s - now) 0)
    with (ScheduledEmail.start_at s - now) by lia.
  reflexivity.
Qed.

Lemma run_timers_idle :
  forall E k v, timers v = [] -> run_timers E k v = v.
Proof.
  intros E [|k] v Hv; simpl; [reflexivity|]. rewrite Hv. reflexivity.
Qed.

Lemma run_timers_add :
  forall E a b v,
    run_timers E (a + b) v = run_timers E b (run_timers E a v).
Proof.
  intros E a. induction a as [|a IH]; intros b v; [reflexivity|].
  simpl. destruct (next_timer (timers v)) as [[t rest]|] eqn:Hn.
  - destruct (timeout_max E <? delay t); apply IH.
  - destruct b; simpl; [reflexivity|]. rewrite Hn. reflexivity.
Qed.

(** One timer left, with a delay the timer thread can wait for: its
    callback runs when it is due. *)
Lemma run_timers_single :
  forall E k v t,
    timers v = [t] ->
    delay t <= timeout_max E ->
    run_timers E (S k) v =
    run_timers E k (send_and_reschedule E (due t) (job t) (set_timers [] v)).
Proof.
  intros E k v t Hv Hd. simpl. rewrite Hv. cbn [next_timer].
  replace (timeout_max E <? delay t) with false
    by (symmetry; apply Z.ltb_ge; exact Hd).
  reflexivity.
Qed.

(** One timer left, with a delay longer than [threading.TIMEOUT_MAX]: its
    thread ends and the callback never runs. *)
Lemma run_timers_stillborn :
  forall E k v t,
    timers v = [t] ->
    timeout_max E < delay t ->
    run_timers E (S k) v = record_uncaught OverflowError (set_timers [] v).
Proof.
  intros E k v t Hv Hd. simpl. rewrite Hv. cbn [next_timer].
  replace (timeout_max E <? delay t) with true
    by (symmetry; apply Z.ltb_lt; exact Hd).
  apply run_timers_idle. reflexivity.
Qed.

(** C1, as amended.  A recurring ScheduledEmail with [start_at = T] and
    [end_at = T + 36h], scheduled no later than [T] for a contact that
    exists, with no other timer armed, in an environment in which
    [send_email] returns ([SMTP_PORT] unset or an integer literal, a
    standard output that takes every text) and a timer can wait until [T]
    and for a day: the callback runs at [T], calls [send_email], records
    [sent_at = T], moves [start_at] to [T + 24h] and arms a timer for that
    time; it runs again at [T + 24h], calls [send_email], records
    [sent_at = T + 24h] and arms nothing, because [T + 48h] is past
    [end_at]; however long the timers are run afterwards, there is no
    third call. *)
Theorem recurring_until_end_fires_twice :
  forall (E : Env) (w : World) (scheduled : ScheduledEmail.t)
         (contact : Contact.t pyfloat) (now T : Z) (n : nat),
    get_scheduled (db w) (ScheduledEmail.id scheduled) = Some scheduled ->
    get_contact (db w) (ScheduledEmail.contact_id scheduled) = Some contact ->
    timers w = [] ->
    port_ok (environ E) = true ->
    prints_all (stdout E) ->
    T - now <= timeout_max E ->
    hours 24 <= timeout_max E ->
    ScheduledEmail.recurring scheduled = true ->
    ScheduledEmail.start_at scheduled = T ->
    ScheduledEmail.end_at scheduled = Some (T + hours 36) ->
    now <= T ->
    let sid := ScheduledEmail.id scheduled in
    let send t :=
      EmailCall t (Contact.email contact) (ScheduledEmail.subject scheduled)
                (ScheduledEmail.body scheduled) in
    let w0 := schedule_email_job now scheduled w in
    let w1 := run_timers E 1 w0 in
    let w2 := run_timers E (2 + n) w0 in
    timers w0 = [mkTimer T sid (T - now)] /\
    calls w1 = (calls w ++ [send T])%list /\
    (exists s1,
        get_scheduled (db w1) sid = Some s1 /\
        ScheduledEmail.sent_at s1 = Some T /\
        ScheduledEmail.start_at s1 = T + hours 24 /\
        ScheduledEmail.end_at s1 = Some (T + hours 36) /\
        ScheduledEmail.recurring s1 = true) /\
    timers w1 = [mkTimer (T + hours 24) sid (hours 24)] /\
    calls w2 = (calls w ++ [send T; send (T + hours 24)])%list /\
    (exists s2,
        get_scheduled (db w2) sid = Some s2 /\
        ScheduledEmail.sent_at s2 = Some (T + hours 24) /\
        ScheduledEmail.start_at s2 = T + hours 24 /\
        ScheduledEmail.end_at s2 = Some (T + hours 36) /\
        ScheduledEmail.recurring s2 = true) /\
    timers w2 = [] /\
    uncaught w2 = uncaught w.
Proof.
  intros E w scheduled contact now T n Hs Hc Ht Hport Hprint Hwait Hwait24
         Hrec Hstart Hend Hle sid send w0 w1 w2.
  assert (Hday : one_day = hours 24) by reflexivity.
  (* the job is armed for T *)
  assert (H0 : w0 = set_timers [mkTimer T sid (T - now)] w).
  { unfold w0. rewrite schedule_email_job_timer by lia.
    rewrite Ht, Hstart. reflexivity. }
  clearbody w0. subst w0.
  assert (Hw2 : w2 = run_timers E n (run_timers E 1 w1)).
  { unfold w2, w1. rewrite <- !run_timers_add. reflexivity. }
  clearbody w2.
  (* first run, at T *)
  set (s1 := ScheduledEmail.set_sent_at (Some T) scheduled).
  set (s2 := ScheduledEmail.set_start_at (T + hours 24) s1).
  destruct (fire_contact_present E T sid (set_timers [] w) scheduled contact
              Hs Hc Hport Hprint) as [out1 Hf1].
  fold s1 in Hf1. fold (send T) in Hf1.
  assert (H1 : w1 =
    arm T (hours 24) sid
      (set_db (put_scheduled s2 (put_scheduled s1 (db w)))
         (record_call (send T) out1 (set_timers [] w)))).
  { unfold w1.
    rewrite (run_timers_single E 0 (set_timers [mkTimer T sid (T - now)] w)
                               (mkTimer T sid (T - now)))
      by (try reflexivity; exact Hwait).
    cbn [run_timers due job].
    change (set_timers [] (set_timers [mkTimer T sid (T - now)] w))
      with (set_timers [] w).
    rewrite Hf1. rewrite reschedule_window_open.
    - change (ScheduledEmail.start_at s1) with (ScheduledEmail.start_at scheduled).
      rewrite Hstart, Hday.
      replace (Z.max (T + hours 24 - T) 0) with (hours 24)
        by (unfold hours; lia).
      reflexivity.
    - exact Hrec.
    - change (ScheduledEmail.end_at s1) with (ScheduledEmail.end_at scheduled).
      change (ScheduledEmail.start_at s1) with (ScheduledEmail.start_at scheduled).
      rewrite Hend, Hstart. unfold one_day, hours. lia. }
  clearbody w1.
  assert (Hs1 : get_scheduled (put_scheduled s1 (db w)) sid = Some s1).
  { eapply get_scheduled_put; eauto. }
  assert (Hs2 : get_scheduled (db w1) sid = Some s2).
  { rewrite H1. eapply get_scheduled_put; eauto. }
  assert (Hc1 : get_contact (db w1) (ScheduledEmail.contact_id s2)
                = Some contact).
  { rewrite H1. exact Hc. }
  assert (Ht1 : timers w1 = [mkTimer (T + hours 24) sid (hours 24)]).
  { rewrite H1. reflexivity. }
  (* second run, at T + 24h *)
  set (s3 := ScheduledEmail.set_sent_at (Some (T + hours 24)) s2).
  destruct (fire_contact_present E (T + hours 24) sid (set_timers [] w1)
              s2 contact Hs2 Hc1 Hport Hprint) as [out2 Hf2].
  fold s3 in Hf2. fold (send (T + hours 24)) in Hf2.
  assert (H2 : run_timers E 1 w1 =
    set_db (put_scheduled s3 (db w1))
      (record_call (send (T + hours 24)) out2 (set_timers [] w1))).
  { rewrite (run_timers_single E 0 w1 _ Ht1) by exact Hwait24.
    change (run_timers E 0 ?x) with x.
    cbn [due job]. rewrite Hf2.
    eapply reschedule_window_closed.
    - exact Hend.
    - change (ScheduledEmail.start_at s3) with (T + hours 24).
      unfold one_day, hours. lia. }
  rewrite H2 in Hw2. rewrite run_timers_idle in Hw2 by reflexivity.
  clear H2 Hf1 Hf2.
  split; [reflexivity|].
  split; [rewrite H1; reflexivity|].
  split.
  { exists s2. split; [exact Hs2|]. unfold s2, s1.
    cbn [ScheduledEmail.sent_at ScheduledEmail.start_at ScheduledEmail.end_at
         ScheduledEmail.recurring ScheduledEmail.set_sent_at
         ScheduledEmail.set_start_at].
    auto. }
  split; [exact Ht1|].
  split.
  { rewrite Hw2, H1. cbn [calls set_db record_call arm set_timers].
    rewrite <- app_assoc. reflexivity. }
  split.
  { exists s3. split; [rewrite Hw2; eapply get_scheduled_put; eauto|].
    unfold s3, s2, s1.
    cbn [ScheduledEmail.sent_at ScheduledEmail.start_at ScheduledEmail.end_at
         ScheduledEmail.recurring ScheduledEmail.set_sent_at
         ScheduledEmail.set_start_at].
    auto. }
  split; [rewrite Hw2; reflexivity|].
  rewrite Hw2, H1. reflexivity.
Qed.

(** One run of the callback for a recurring entry without [end_at]. *)
Lemma fire_open_ended :
  forall E now sid w s,
    get_scheduled (db w) sid = Some s ->
    ScheduledEmail.recurring s = true ->
    ScheduledEmail.end_at s = None ->
    port_ok (environ E) = true ->
    prints_all (stdout E) ->
    exists s',
      get_scheduled (db (send_and_reschedule E now sid w)) sid = Some s' /\
      ScheduledEmail.start_at s' = ScheduledEmail.start_at s + one_day /\
      ScheduledEmail.recurring s' = true /\
      ScheduledEmail.end_at s' = None /\
      timers (send_and_reschedule E now sid w) =
        (timers w
         ++ [mkTimer (now + Z.max (ScheduledEmail.start_at s + one_day - now) 0)
                     sid
                     (Z.max (ScheduledEmail.start_at s + one_day - now) 0)])%list.
Proof.
  intros E now sid w s Hs Hrec Hend Hport Hprint.
  pose proof (get_scheduled_id _ _ _ Hs) as Hid.
  destruct (get_contact (db w) (ScheduledEmail.contact_id s)) as [c|] eqn:Hc.
  - destruct (fire_contact_present E now sid w s c Hs Hc Hport Hprint)
      as [out Hf].
    rewrite Hf. rewrite reschedule_window_open.
    + eexists. split; [|split; [|split; [|split]]].
      * cbn [db arm set_timers set_db]. eapply get_scheduled_put.
        -- eapply get_scheduled_put; eauto.
        -- exact Hid.
      * reflexivity.
      * exact Hrec.
      * exact Hend.
      * cbn. rewrite Hid. reflexivity.
    + exact Hrec.
    + cbn. rewrite Hend. exact I.
  - rewrite (fire_contact_absent E now sid w s Hs Hc).
    rewrite reschedule_window_open.
    + eexists. split; [|split; [|split; [|split]]].
      * cbn [db arm set_timers set_db]. eapply get_scheduled_put; eauto.
      * reflexivity.
      * exact Hrec.
      * exact Hend.
      * cbn. rewrite Hid. reflexivity.
    + exact Hrec.
    + rewrite Hend. exact I.
Qed.

(** C2, as amended.  For a ScheduledEmail with [recurring = true] and no
    [end_at], in an environment in which [send_email] returns
    ([SMTP_PORT] unset or an integer literal, a standard output that takes
    every text): however many times and at whatever times the timer
    callback runs, each run moves [start_at] forward by exactly one day
    (86400000000 microseconds) and arms one new timer for the entry, and
    the entry is still recurring without end afterwards. *)
Theorem open_ended_recurrence_never_ends :
  forall (E : Env) (sid : Z) (times : list Z) (w : World)
         (s : ScheduledEmail.t),
    get_scheduled (db w) sid = Some s ->
    ScheduledEmail.recurring s = true ->
    ScheduledEmail.end_at s = None ->
    port_ok (environ E) = true ->
    prints_all (stdout E) ->
    exists s',
      get_scheduled (db (fires E sid times w)) sid = Some s' /\
      ScheduledEmail.start_at s' =
        ScheduledEmail.start_at s + Z.of_nat (List.length times) * 86400000000 /\
      ScheduledEmail.recurring s' = true /\
      ScheduledEmail.end_at s' = None /\
      timers (fires E sid times w) =
        (timers w ++ rearmed sid (ScheduledEmail.start_at s) times)%list.
Proof.
  intros E sid times. induction times as [|t rest IH];
    intros w s Hs Hrec Hend Hport Hprint.
  - exists s. cbn [fires fold_left List.length rearmed].
    rewrite app_nil_r. repeat split; auto. lia.
  - destruct (fire_open_ended E t sid w s Hs Hrec Hend Hport Hprint)
      as (s1 & Hs1 & Hst1 & Hrec1 & Hend1 & Ht1).
    destruct (IH _ _ Hs1 Hrec1 Hend1 Hport Hprint)
      as (s' & Hs' & Hst' & Hrec' & Hend' & Ht').
    exists s'. change (fires E sid (t :: rest) w)
      with (fires E sid rest (send_and_reschedule E t sid w)).
    split; [exact Hs'|]. split.
    + rewrite Hst', Hst1. cbn [List.length]. unfold one_day. lia.
    + split; [exact Hrec'|]. split; [exact Hend'|].
      rewrite Ht', Ht1, Hst1. cbn [rearmed]. unfold one_day.
      rewrite <- app_assoc. cbn [app].
      replace (t + Z.max (ScheduledEmail.start_at s + 86400000000 - t) 0)
        with (Z.max (ScheduledEmail.start_at s + 86400000000) t) by lia.
      reflexivity.
Qed.

(** With exact timers and no other timer armed, an open-ended recurring
    entry always has its timer armed again: the timer pool never runs dry. *)
Lemma open_ended_timer_always_armed :
  forall (E : Env) (sid : Z) (n : nat) (w : World) (s : ScheduledEmail.t)
         (t : Timer),
    get_scheduled (db w) sid = Some s ->
    ScheduledEmail.recurring s = true ->
    ScheduledEmail.end_at s = None ->
    port_ok (environ E) = true ->
    prints_all (stdout E) ->
    one_day <= timeout_max E ->
    timers w = [t] ->
    job t = sid ->
    ScheduledEmail.start_at s <= due t ->
    delay t <= timeout_max E ->
    exists s' t',
      get_scheduled (db (run_timers E n w)) sid = Some s' /\
      ScheduledEmail.start_at s' =
        ScheduledEmail.start_at s + Z.of_nat n * one_day /\
      timers (run_timers E n w) = [t'] /\ job t' = sid.
Proof.
  intros E sid n. induction n as [|n IH];
    intros w s t Hs Hrec Hend Hport Hprint Hday Ht Hjob Hdue Hdelay.
  - exists s, t. cbn [run_timers]. repeat split; auto. lia.
  - rewrite (run_timers_single E n w _ Ht Hdelay). rewrite Hjob.
    destruct (fire_open_ended E (due t) sid (set_timers [] w) s
                Hs Hrec Hend Hport Hprint)
      as (s1 & Hs1 & Hst1 & Hrec1 & Hend1 & Ht1).
    cbn [timers set_timers app] in Ht1.
    destruct (IH _ s1 _ Hs1 Hrec1 Hend1 Hport Hprint Hday Ht1)
      as (s' & t' & Hs' & Hst' & Ht' & Hjob').
    + reflexivity.
    + cbn [due]. unfold one_day in *. lia.
    + cbn [delay]. unfold one_day in *. lia.
    + exists s', t'. split; [exact Hs'|]. split; [|split; assumption].
      rewrite Hst', Hst1. lia.
Qed.

Lemma reschedule_cases :
  forall now s w,
    reschedule now s w = w \/
    reschedule now s w =
    arm now (Z.max (ScheduledEmail.start_at s + one_day - now) 0)
        (ScheduledEmail.id s)
        (set_db (put_scheduled
                   (ScheduledEmail.set_start_at
                      (ScheduledEmail.start_at s + one_day) s) (db w)) w).
Proof.
  intros now s w. unfold reschedule.
  destruct (ScheduledEmail.recurring s); [|auto].
  destruct (ScheduledEmail.end_at s) as [e|]; [|auto].
  destruct (ScheduledEmail.start_at s + one_day <=? e); auto.
Qed.


(** ** Stripped strings *)

Lemma rstrip_idempotent : forall s, Py.rstrip (Py.rstrip s) = Py.rstrip s.
Proof.
  induction s as [|c r IH]; [reflexivity|].
  cbn [Py.rstrip].
  destruct ((Py.rstrip r =? "")%string && Py.isspace c) eqn:Hc.
  - reflexivity.
  - cbn [Py.rstrip]. rewrite IH, Hc. reflexivity.
Qed.

Lemma lstrip_head :
  forall s, Py.lstrip s = EmptyString \/
            exists c r, Py.lstrip s = String c r /\ Py.isspace c = false.
Proof.
  induction s as [|c r IH]; [left; reflexivity|].
  cbn [Py.lstrip]. destruct (Py.isspace c) eqn:Hc; [exact IH|].
  right. exists c, r. auto.
Qed.

Lemma strip_idempotent : forall s, Py.strip (Py.strip s) = Py.strip s.
Proof.
  intro s. unfold Py.strip.
  destruct (lstrip_head s) as [H|(c & r & H & Hc)]; rewrite H.
  - reflexivity.
  - cbn [Py.rstrip]. rewrite Hc, andb_false_r.
    cbn [Py.lstrip]. rewrite Hc.
    cbn [Py.rstrip]. rewrite rstrip_idempotent, Hc, andb_false_r.
    reflexivity.
Qed.

(** ** Lists *)

Lemma find_none_existsb :
  forall (A : Type) (p : A -> bool) l, find p l = None -> existsb p l = false.
Proof.
  intros A p l H. induction l as [|a l IH]; [reflexivity|].
  simpl in *. destruct (p a); [discriminate|]. auto.
Qed.

Lemma existsb_false_forall :
  forall (A : Type) (p : A -> bool) l,
    existsb p l = false -> forall a, In a l -> p a = false.
Proof.
  intros A p l H a Hin. destruct (p a) eqn:Hp; [|reflexivity].
  assert (existsb p l = true) by (apply existsb_exists; eauto). congruence.
Qed.

Lemma existsb_false_intro :
  forall (A : Type) (p : A -> bool) l,
    (forall a, In a l -> p a = false) -> existsb p l = false.
Proof.
  intros A p l H. induction l as [|a l IH]; [reflexivity|].
  simpl. rewrite (H a (or_introl eq_refl)). apply IH.
  intros b Hb. apply H. right. exact Hb.
Qed.

(** ** Contacts *)

Lemma contact_by_email_found :
  forall (d : Database pyfloat) c e,
    In c (contacts d) -> Contact.email c = e ->
    exists c', contact_by_email d e = Some c'.
Proof.
  intros d c e Hin He. unfold contact_by_email.
  destruct (find _ (contacts d)) as [c'|] eqn:Hf; [eauto|].
  pose proof (find_none _ _ Hf c Hin) as Hn. cbv beta in Hn.
  rewrite He, String.eqb_refl in Hn. discriminate.
Qed.

(** [create_contact] given an email that a contact holds already. *)
Lemma create_contact_duplicate :
  forall (rq : Request) (w : World) (c : Contact.t pyfloat),
    method rq = POST ->
    In c (contacts (db w)) ->
    Contact.email c = Py.strip (form_get (form rq) "email" "") ->
    db (snd (create_contact rq w)) = db w /\
    (forall user,
        g_user rq = Some user ->
        Py.mem (Py.lower (User.role user)) ["master"; "management"] = true ->
        fst (create_contact rq w) = Render "contact_form.html" None /\
        exists message category,
          snd (create_contact rq w) = flash message category w).
Proof.
  intros rq w c Hpost Hin Hemail.
  destruct (contact_by_email_found (db w) c _ Hin Hemail) as [c' Hfound].
  unfold create_contact, login_required, role_required.
  destruct (g_user rq) as [user|]; [|split; [reflexivity|discriminate]].
  change (map Py.lower ["master"; "management"])
    with ["master"; "management"].
  destruct (Py.mem (Py.lower (User.role user)) ["master"; "management"]) eqn:Hrole;
    cbn [negb]; [|split; [reflexivity|]; intros u Hu; inversion Hu; subst;
                  congruence].
  unfold create_contact_view. rewrite Hpost, Hfound.
  destruct (negb _ || negb _ || negb _).
  - split; [reflexivity|]. intros _ _ _.
    split; [reflexivity|]. do 2 eexists. reflexivity.
  - split; [reflexivity|]. intros _ _ _.
    split; [reflexivity|]. do 2 eexists. reflexivity.
Qed.

(** C4.  A POST to [/contact/new] whose email field, stripped the way the
    handler strips it, is the email of an existing contact leaves the
    database as it was: no Contact is added and the number of contacts is
    the same.  For a user allowed to create contacts the answer is the
    form rendered again, and the only change to the world is one flashed
    message. *)
Theorem duplicate_email_is_rejected :
  forall (rq : Request) (w : World) (c : Contact.t pyfloat),
    method rq = POST ->
    In c (contacts (db w)) ->
    Contact.email c = Py.strip (form_get (form rq) "email" "") ->
    db (snd (create_contact rq w)) = db w /\
    List.length (contacts (db (snd (create_contact rq w))))
      = List.length (contacts (db w)) /\
    (forall user,
        g_user rq = Some user ->
        Py.mem (Py.lower (User.role user)) ["master"; "management"] = true ->
        fst (create_contact rq w) = Render "contact_form.html" None /\
        exists message category,
          snd (create_contact rq w) = flash message category w).
Proof.
  intros rq w c Hpost Hin Hemail.
  destruct (create_contact_duplicate rq w c Hpost Hin Hemail) as [Hdb Hresp].
  rewrite Hdb. auto.
Qed.

(** The same when the field is, as submitted, an email the application has
    stored: stored emails are stripped. *)
Corollary duplicate_stored_email_is_rejected :
  forall (rq : Request) (w : World) (c : Contact.t pyfloat),
    method rq = POST ->
    In c (contacts (db w)) ->
    Py.strip (Contact.email c) = Contact.email c ->
    form_get (form rq) "email" "" = Contact.email c ->
    db (snd (create_contact rq w)) = db w.
Proof.
  intros rq w c Hpost Hin Hstrip Hraw.
  apply (create_contact_duplicate rq w c Hpost Hin).
  rewrite Hraw. symmetry. exact Hstrip.
Qed.

(** C8.  For a logged-in user whose role, in lower case, is neither
    [master] nor [management], a request to [/contact/new] (GET or POST)
    is answered with a redirect to [index], which in turn redirects to the
    contact list; one message is flashed and nothing else changes: the
    Contact table is as it was. *)
Theorem other_roles_cannot_create_contacts :
  forall (rq : Request) (w : World) (user : User.t),
    g_user rq = Some user ->
    Py.mem (Py.lower (User.role user)) ["master"; "management"] = false ->
    create_contact rq w =
      (Redirect Url_index,
       flash "You do not have permission to access this page." "danger" w) /\
    contacts (db (snd (create_contact rq w))) = contacts (db w) /\
    (forall rq' w', index rq' w' = (Redirect Url_list_contacts, w')).
Proof.
  intros rq w user Huser Hrole.
  assert (H : create_contact rq w =
      (Redirect Url_index,
       flash "You do not have permission to access this page." "danger" w)).
  { unfold create_contact, login_required, role_required. rewrite Huser.
    change (map Py.lower ["master"; "management"])
      with ["master"; "management"].
    rewrite Hrole. reflexivity. }
  rewrite H. repeat split.
Qed.

Lemma get_contact_id :
  forall (d : Database pyfloat) k c,
    get_contact d k = Some c -> Contact.id c = k.
Proof.
  intros d k c H. unfold get_contact in H.
  apply find_some in H. destruct H as [_ H]. apply Z.eqb_eq in H. exact H.
Qed.

Lemma find_updated_contact :
  forall (l : list (Contact.t pyfloat)) (c c' c'' : Contact.t pyfloat),
    Contact.id c'' = Contact.id c' ->
    find (fun r => Contact.id r =? Contact.id c') l = Some c ->
    find (fun r => Contact.id r =? Contact.id c')
         (map (fun r => if Contact.id r =? Contact.id c' then c'' else r) l)
    = Some c''.
Proof.
  induction l as [|r l IH]; intros c c' c'' Hid Hf; simpl in *.
  - discriminate.
  - destruct (Contact.id r =? Contact.id c') eqn:Hr; simpl.
    + rewrite Hid, Z.eqb_refl. reflexivity.
    + rewrite Hr. eapply IH; eauto.
Qed.

(** *** Numbers *)

Lemma is_number_some :
  forall x : option pyfloat,
    is_number x = true -> exists p, x = Some p /\ float_is_nan p = false.
Proof.
  intros [p|] H; [|discriminate]. exists p. split; [reflexivity|].
  apply negb_true_iff. exact H.
Qed.

Lemma stored_float_number :
  forall p : pyfloat, float_is_nan p = false -> stored_float (Some p) = Some p.
Proof. intros p H. unfold stored_float. rewrite H. reflexivity. Qed.

Lemma float_or_zero_number :
  forall f k, no_nan f -> float_is_nan (float_or_zero (form_lookup f k)) = false.
Proof.
  intros f k Hnan. unfold float_or_zero.
  destruct (form_lookup f k) as [v|] eqn:Hv.
  - destruct (Py.truthy v); [|apply zero_is_a_number].
    destruct (float_of_str v) as [x|] eqn:Hx; [|apply zero_is_a_number].
    exact (Hnan k v x Hv Hx).
  - change (Py.truthy "0") with true. cbv iota.
    rewrite float_of_zero. apply zero_is_a_number.
Qed.

Lemma int_or_zero_fits :
  forall f, rating_fits f -> int64 (int_or_zero (form_lookup f "rating")) = true.
Proof.
  intros f Hfit. unfold int_or_zero.
  destruct (form_lookup f "rating") as [v|] eqn:Hv; [|reflexivity].
  destruct (Py.truthy v); [|reflexivity].
  destruct (Py.int v) as [z|] eqn:Hz; [|reflexivity].
  exact (Hfit v z Hv Hz).
Qed.

Lemma int_or_prior_fits :
  forall f prior,
    rating_fits f ->
    negb (int_or_prior (form_lookup f "rating") prior =? prior)
    && negb (int64 (int_or_prior (form_lookup f "rating") prior)) = false.
Proof.
  intros f prior Hfit. unfold int_or_prior.
  destruct (form_lookup f "rating") as [v|] eqn:Hv;
    [|rewrite Z.eqb_refl; reflexivity].
  destruct (Py.truthy v); [|rewrite Z.eqb_refl; reflexivity].
  destruct (Py.int v) as [z|] eqn:Hz; [|rewrite Z.eqb_refl; reflexivity].
  rewrite (Hfit v z Hv Hz). apply andb_false_r.
Qed.

(** The attribute after the assignment, when it held a number: the number
    of the form when [float] reads one, and the number it held
    otherwise. *)
Lemma float_or_prior_number :
  forall f k (p : pyfloat),
    no_nan f ->
    float_is_nan p = false ->
    exists y,
      float_or_prior (form_lookup f k) (Some p) = Returned (Some y) /\
      float_is_nan y = false /\
      (forall v, form_lookup f k = Some v -> float_of_str v = None -> y = p) /\
      (forall v x, form_lookup f k = Some v -> Py.truthy v = true ->
                   float_of_str v = Some x -> y = x) /\
      (form_lookup f k = None -> y = p).
Proof.
  intros f k p Hnan Hp. unfold float_or_prior.
  destruct (form_lookup f k) as [v|] eqn:Hv.
  - destruct (Py.truthy v) eqn:Ht.
    + destruct (float_of_str v) as [x|] eqn:Hx.
      * exists x. split; [reflexivity|]. split; [exact (Hnan k v x Hv Hx)|].
        split; [|split].
        -- intros v' Hv' Hbad. inversion Hv'; subst. congruence.
        -- intros v' x' Hv' _ Hx'. inversion Hv'; subst. congruence.
        -- discriminate.
      * exists p. split; [reflexivity|]. split; [exact Hp|].
        split; [|split].
        -- reflexivity.
        -- intros v' x' Hv' _ Hx'. inversion Hv'; subst. congruence.
        -- reflexivity.
    + exists p. split; [reflexivity|]. split; [exact Hp|].
      split; [|split].
      * reflexivity.
      * intros v' x' Hv' Ht' _. inversion Hv'; subst. congruence.
      * reflexivity.
  - exists p. split; [reflexivity|]. split; [exact Hp|].
    split; [|split]; try reflexivity; discriminate.
Qed.

(** What [edited] returns, when it returns. *)
Lemma edited_fields :
  forall f (c c1 : Contact.t pyfloat),
    edited f c = Returned c1 ->
    Contact.id c1 = Contact.id c /\
    Contact.created_at c1 = Contact.created_at c /\
    Contact.first_name c1 = Py.strip (form_get f "first_name" "") /\
    Contact.last_name c1 = Py.strip (form_get f "last_name" "") /\
    Contact.email c1 = Py.strip (form_get f "email" "") /\
    Contact.phone c1 = Some (Py.strip (form_get f "phone" "")) /\
    Contact.rating c1 = int_or_prior (form_lookup f "rating") (Contact.rating c).
Proof.
  intros f c c1. unfold edited, and_then.
  destruct (float_or_prior (form_lookup f "potential_spend") _); [|discriminate].
  destruct (float_or_prior (form_lookup f "accepted_spend") _); [|discriminate].
  destruct (float_or_prior (form_lookup f "billed_amount") _); [|discriminate].
  destruct (float_or_prior (form_lookup f "received_amount") _); [|discriminate].
  intro H. injection H as <-. repeat split.
Qed.

(** Every email [edit_contact] writes is stripped. *)
Lemma edited_email_stripped :
  forall f (c c1 : Contact.t pyfloat),
    edited f c = Returned c1 ->
    Py.strip (Contact.email c1) = Contact.email c1.
Proof.
  intros f c c1 H. apply edited_fields in H.
  destruct H as (_ & _ & _ & _ & -> & _). apply strip_idempotent.
Qed.

(** [edited] on a contact whose float columns hold numbers. *)
Lemma edited_numbers :
  forall f (c : Contact.t pyfloat),
    all_numbers c = true ->
    no_nan f ->
    exists y1 y2 y3 y4,
      edited f c = Returned (edited_row f c y1 y2 y3 y4) /\
      stored (edited_row f c y1 y2 y3 y4) = edited_row f c y1 y2 y3 y4 /\
      (forall v, form_lookup f "potential_spend" = Some v ->
                 float_of_str v = None -> Some y1 = Contact.potential_spend c) /\
      (forall v, form_lookup f "accepted_spend" = Some v ->
                 float_of_str v = None -> Some y2 = Contact.accepted_spend c) /\
      (forall v, form_lookup f "billed_amount" = Some v ->
                 float_of_str v = None -> Some y3 = Contact.billed_amount c) /\
      (forall v, form_lookup f "received_amount" = Some v ->
                 float_of_str v = None -> Some y4 = Contact.received_amount c).
Proof.
  intros f c Hnum Hnan. unfold all_numbers in Hnum.
  apply andb_prop in Hnum. destruct Hnum as [Hnum H4].
  apply andb_prop in Hnum. destruct Hnum as [Hnum H3].
  apply andb_prop in Hnum. destruct Hnum as [H1 H2].
  apply is_number_some in H1, H2, H3, H4.
  destruct H1 as (p1 & E1 & N1). destruct H2 as (p2 & E2 & N2).
  destruct H3 as (p3 & E3 & N3). destruct H4 as (p4 & E4 & N4).
  destruct (float_or_prior_number f "potential_spend" p1 Hnan N1)
    as (y1 & F1 & M1 & K1 & _).
  destruct (float_or_prior_number f "accepted_spend" p2 Hnan N2)
    as (y2 & F2 & M2 & K2 & _).
  destruct (float_or_prior_number f "billed_amount" p3 Hnan N3)
    as (y3 & F3 & M3 & K3 & _).
  destruct (float_or_prior_number f "received_amount" p4 Hnan N4)
    as (y4 & F4 & M4 & K4 & _).
  exists y1, y2, y3, y4. split; [|split].
  - unfold edited. rewrite E1, E2, E3, E4, F1, F2, F3, F4. reflexivity.
  - unfold stored, edited_row.
    cbn [Contact.id Contact.first_name Contact.last_name Contact.email
         Contact.phone Contact.company Contact.address Contact.notes
         Contact.created_at Contact.potential_spend Contact.accepted_spend
         Contact.billed_amount Contact.received_amount Contact.rating].
    rewrite !stored_float_number by assumption. reflexivity.
  - rewrite E1, E2, E3, E4. repeat split; intros v Hv Hbad; f_equal; eauto.
Qed.

(** What [edit_contact] answers to a POST of a user allowed to edit, for a
    contact that exists. *)
Lemma edit_contact_post :
  forall contact_id rq w contact user,
    method rq = POST ->
    g_user rq = Some user ->
    Py.mem (Py.lower (User.role user)) ["master"; "management"] = true ->
    get_contact (db w) contact_id = Some contact ->
    edit_contact contact_id rq w =
    match edited (form rq) contact with
    | Raised e => (Raise e, w)
    | Returned contact1 =>
        match update_contact contact contact1 (db w) with
        | Raised e => (Raise e, w)
        | Returned d =>
            match generate_contact_summary (req_time rq) (stored contact1)
                                           (set_db d w) with
            | Raised e => (Raise e, set_db d w)
            | Returned w1 =>
                (Redirect (Url_view_contact contact_id),
                 flash "Contact updated successfully!" "success" w1)
            end
        end
    end.
Proof.
  intros contact_id rq w contact user Hpost Huser Hrole Hc.
  unfold edit_contact, login_required, role_required. rewrite Huser.
  change (map Py.lower ["master"; "management"]) with ["master"; "management"].
  rewrite Hrole. cbn [negb]. unfold edit_contact_view. rewrite Hc, Hpost.
  destruct (edited (form rq) contact) as [c1|] eqn:He; [|reflexivity].
  destruct (update_contact _ _ _); [|reflexivity].
  destruct (generate_contact_summary _ _ _); [|reflexivity].
  apply edited_fields in He. destruct He as (-> & _).
  rewrite (get_contact_id _ _ _ Hc). reflexivity.
Qed.

(** An accepted edit.  A POST by a user allowed to edit, for a contact
    whose float columns hold numbers, with an email no other contact
    holds, no NaN among the fields and a rating that fits: the row is
    overwritten, one summary is written and the answer is the redirect to
    the contact page. *)
Lemma edit_contact_accepted :
  forall contact_id rq w contact user,
    method rq = POST ->
    g_user rq = Some user ->
    Py.mem (Py.lower (User.role user)) ["master"; "management"] = true ->
    get_contact (db w) contact_id = Some contact ->
    (forall other, In other (contacts (db w)) ->
                   Contact.id other <> contact_id ->
                   Contact.email other <> Py.strip (form_get (form rq) "email" "")) ->
    all_numbers contact = true ->
    no_nan (form rq) ->
    rating_fits (form rq) ->
    exists y1 y2 y3 y4,
      let contact1 := edited_row (form rq) contact y1 y2 y3 y4 in
      edit_contact contact_id rq w
        = (Redirect (Url_view_contact contact_id),
           flash "Contact updated successfully!" "success"
             (mkWorld
                (mkDatabase pyfloat
                   (map (fun r => if Contact.id r =? contact_id
                                  then contact1 else r)
                        (contacts (db w)))
                   (messages (db w)) (users (db w)) (scheduled_emails (db w)))
                (timers w) (calls w) (console w) (flashes w)
                (summaries w ++ [(contact_id, req_time rq)]) (uncaught w))) /\
      get_contact (db (snd (edit_contact contact_id rq w))) contact_id
        = Some contact1 /\
      (forall v, form_lookup (form rq) "potential_spend" = Some v ->
                 float_of_str v = None ->
                 Some y1 = Contact.potential_spend contact) /\
      (forall v, form_lookup (form rq) "accepted_spend" = Some v ->
                 float_of_str v = None ->
                 Some y2 = Contact.accepted_spend contact) /\
      (forall v, form_lookup (form rq) "billed_amount" = Some v ->
                 float_of_str v = None ->
                 Some y3 = Contact.billed_amount contact) /\
      (forall v, form_lookup (form rq) "received_amount" = Some v ->
                 float_of_str v = None ->
                 Some y4 = Contact.received_amount contact).
Proof.
  intros contact_id rq w contact user Hpost Huser Hrole Hc Hfree Hnum Hnan Hfit.
  pose proof (get_contact_id _ _ _ Hc) as Hid.
  destruct (edited_numbers (form rq) contact Hnum Hnan)
    as (y1 & y2 & y3 & y4 & Hed & Hst & K1 & K2 & K3 & K4).
  exists y1, y2, y3, y4. intro contact1.
  assert (Hrun : edit_contact contact_id rq w
        = (Redirect (Url_view_contact contact_id),
           flash "Contact updated successfully!" "success"
             (mkWorld
                (mkDatabase pyfloat
                   (map (fun r => if Contact.id r =? contact_id
                                  then contact1 else r)
                        (contacts (db w)))
                   (messages (db w)) (users (db w)) (scheduled_emails (db w)))
                (timers w) (calls w) (console w) (flashes w)
                (summaries w ++ [(contact_id, req_time rq)]) (uncaught w)))).
  { rewrite (edit_contact_post _ _ _ _ _ Hpost Huser Hrole Hc).
    rewrite Hed. fold contact1. unfold update_contact.
    replace (Contact.rating contact1)
      with (int_or_prior (form_lookup (form rq) "rating")
                         (Contact.rating contact)) by reflexivity.
    rewrite (int_or_prior_fits _ _ Hfit).
    rewrite existsb_false_intro.
    - fold contact1 in Hst. rewrite Hst.
      unfold generate_contact_summary.
      replace (has_numbers contact1) with true by reflexivity.
      replace (Contact.id contact1) with contact_id
        by (symmetry; exact Hid).
      reflexivity.
    - intros other Hin.
      replace (Contact.id contact1) with contact_id by (symmetry; exact Hid).
      replace (Contact.email contact1)
        with (Py.strip (form_get (form rq) "email" "")) by reflexivity.
      destruct (Contact.id other =? contact_id) eqn:Ho; [reflexivity|].
      apply Z.eqb_neq in Ho. cbn [negb andb].
      apply String.eqb_neq. apply Hfree; assumption. }
  split; [exact Hrun|]. split; [|auto].
  rewrite Hrun. unfold get_contact. cbn [snd db flash contacts].
  unfold get_contact in Hc. rewrite <- Hid in Hc |- *.
  apply (find_updated_contact (contacts (db w)) contact contact contact1).
  - reflexivity.
  - exact Hc.
Qed.

(** A POST that gives a contact the email of another contact: the commit
    is refused and the exception leaves the handler; nothing in
    [edit_contact] looks for the other holder first. *)
Lemma edit_contact_duplicate_email_raises :
  forall contact_id rq w contact user other,
    method rq = POST ->
    g_user rq = Some user ->
    Py.mem (Py.lower (User.role user)) ["master"; "management"] = true ->
    get_contact (db w) contact_id = Some contact ->
    all_numbers contact = true ->
    no_nan (form rq) ->
    rating_fits (form rq) ->
    In other (contacts (db w)) ->
    Contact.id other <> contact_id ->
    Contact.email other = Py.strip (form_get (form rq) "email" "") ->
    edit_contact contact_id rq w = (Raise IntegrityError, w).
Proof.
  intros contact_id rq w contact user other Hpost Huser Hrole Hc Hnum Hnan
         Hfit Hin Hne Hem.
  rewrite (edit_contact_post _ _ _ _ _ Hpost Huser Hrole Hc).
  destruct (edited_numbers (form rq) contact Hnum Hnan)
    as (y1 & y2 & y3 & y4 & Hed & _).
  rewrite Hed. unfold update_contact.
  replace (Contact.rating (edited_row (form rq) contact y1 y2 y3 y4))
    with (int_or_prior (form_lookup (form rq) "rating")
                       (Contact.rating contact)) by reflexivity.
  rewrite (int_or_prior_fits _ _ Hfit).
  replace (existsb _ (contacts (db w))) with true; [reflexivity|].
  symmetry. apply existsb_exists. exists other. split; [exact Hin|].
  cbn [Contact.id Contact.email edited_row].
  rewrite (get_contact_id _ _ _ Hc), Hem, String.eqb_refl, andb_true_r.
  apply negb_true_iff, Z.eqb_neq, Hne.
Qed.


(** ** Messages *)

Lemma truthy_true : forall s, Py.truthy s = true <-> s <> "".
Proof.
  intro s. unfold Py.truthy. rewrite negb_true_iff. apply String.eqb_neq.
Qed.

Lemma truthy_false : forall s, Py.truthy s = false <-> s = "".
Proof.
  intro s. unfold Py.truthy. rewrite negb_false_iff. apply String.eqb_eq.
Qed.

Lemma calls_finish_test :
  forall (contact : Contact.t pyfloat) r,
    calls (snd (finish_test contact r)) = calls (snd r).
Proof. intros contact [[[]|e] w1]; reflexivity. Qed.

Lemma calls_finish_send :
  forall now (contact : Contact.t pyfloat) channel subject body r,
    calls (snd (finish_send now contact channel subject body r))
    = calls (snd r).
Proof. intros now contact channel subject body [[[]|e] w1]; reflexivity. Qed.

Lemma calls_call_send_sms :
  forall E now to_number body w,
    calls (snd (call_send_sms E now to_number body w))
    = (calls w ++ [SmsCall now to_number body])%list.
Proof.
  intros E now to_number body w. unfold call_send_sms.
  destruct (send_sms _ _ _ _ _) as [out r]. reflexivity.
Qed.

(** C7, as amended.  In a POST to [/message/new/<id>] by a logged-in user
    for a contact that exists:
    - with channel [email] and an empty subject, no sender is called
      during the request and no Message is created; and unless the request
      schedules an email (a body, no test flag and a [start_at] field that
      is not empty), the answer is the form rendered again with one
      [danger] message flashed and nothing else changed;
    - with channel [sms], the only sender called is the SMS sender, with
      the phone of the contact (the empty string when the contact has
      none) as recipient: once when there is a body, and not at all when
      there is none. *)
Theorem empty_subject_rejected_and_sms_goes_to_phone :
  forall (E : Env) (contact_id : Z) (rq : Request) (w : World)
         (contact : Contact.t pyfloat) (user : User.t),
    method rq = POST ->
    g_user rq = Some user ->
    get_contact (db w) contact_id = Some contact ->
    (form_lookup (form rq) "channel" = Some "email" ->
     Py.strip (form_get (form rq) "subject" "") = "" ->
     calls (snd (send_message_route E contact_id rq w)) = calls w /\
     messages (db (snd (send_message_route E contact_id rq w)))
       = messages (db w) /\
     (Py.strip (form_get (form rq) "body" "") = ""
      \/ form_lookup (form rq) "send_test" = Some "1"
      \/ form_get (form rq) "start_at" "" = "" ->
      fst (send_message_route E contact_id rq w)
        = Render "message_form.html" (Some contact) /\
      exists message,
        snd (send_message_route E contact_id rq w) = flash message "danger" w))
    /\
    (form_lookup (form rq) "channel" = Some "sms" ->
     calls (snd (send_message_route E contact_id rq w))
       = (calls w
          ++ if Py.truthy (Py.strip (form_get (form rq) "body" ""))
             then [SmsCall (req_time rq) (phone_or_empty contact)
                           (Py.strip (form_get (form rq) "body" ""))]
             else [])%list).
Proof.
  intros E contact_id rq w contact user Hpost Huser Hc.
  unfold send_message_route, login_required. rewrite Huser.
  unfold send_message_view. rewrite Hc, Hpost.
  split.
  - intros Hch Hsubj. rewrite Hch, Hsubj.
    change (Py.mem "email" ["email"; "sms"]) with true.
    change (Py.truthy "") with false.
    change ("email" =? "email")%string with true.
    cbn [negb orb andb].
    destruct (Py.truthy (Py.strip (form_get (form rq) "body" ""))) eqn:Hbody;
      cbn [negb].
    + (* a body *)
      destruct (form_lookup (form rq) "send_test") as [v|] eqn:Htest.
      * destruct (v =? "1")%string eqn:Hv.
        -- split; [reflexivity|]. split; [reflexivity|]. intros _.
           split; [reflexivity|]. eexists; reflexivity.
        -- destruct (Py.truthy (form_get (form rq) "start_at" "")) eqn:Hstart;
             cbn [andb].
           ++ assert (Hno : ~ (Py.strip (form_get (form rq) "body" "") = ""
                             \/ Some v = Some "1"
                             \/ form_get (form rq) "start_at" "" = "")).
              { intros [H|[H|H]].
                - apply truthy_true in Hbody. contradiction.
                - inversion H. subst v. discriminate.
                - apply truthy_true in Hstart. contradiction. }
              destruct (fromisoformat _) as [start_at|];
                [|split; [reflexivity|]; split; [reflexivity|];
                  intro H; contradiction].
              destruct (if Py.truthy _ then _ else _) as [end_at|];
                split; try reflexivity; split; try reflexivity;
                intro H; contradiction.
           ++ split; [reflexivity|]. split; [reflexivity|]. intros _.
              split; [reflexivity|]. eexists; reflexivity.
      * destruct (Py.truthy (form_get (form rq) "start_at" "")) eqn:Hstart;
          cbn [andb].
        -- assert (Hno : ~ (Py.strip (form_get (form rq) "body" "") = ""
                           \/ @None string = Some "1"
                           \/ form_get (form rq) "start_at" "" = "")).
           { intros [H|[H|H]].
             - apply truthy_true in Hbody. contradiction.
             - discriminate.
             - apply truthy_true in Hstart. contradiction. }
           destruct (fromisoformat _) as [start_at|];
             [|split; [reflexivity|]; split; [reflexivity|];
               intro H; contradiction].
           destruct (if Py.truthy _ then _ else _) as [end_at|];
             split; try reflexivity; split; try reflexivity;
             intro H; contradiction.
        -- split; [reflexivity|]. split; [reflexivity|]. intros _.
           split; [reflexivity|]. eexists; reflexivity.
    + (* no body *)
      split; [reflexivity|]. split; [reflexivity|]. intros _.
      split; [reflexivity|]. eexists; reflexivity.
  - intros Hch. rewrite Hch.
    change (Py.mem "sms" ["email"; "sms"]) with true.
    change ("sms" =? "email")%string with false.
    cbn [negb orb].
    destruct (Py.truthy (Py.strip (form_get (form rq) "body" ""))); cbn [negb].
    + rewrite andb_false_r.
      destruct (match form_lookup (form rq) "send_test" with
                | Some v => (v =? "1")%string
                | None => false
                end).
      * rewrite calls_finish_test. apply calls_call_send_sms.
      * rewrite calls_finish_send. apply calls_call_send_sms.
    + cbn [snd flash calls]. rewrite app_nil_r. reflexivity.
Qed.

(** ** Application start *)

(** C9.  At application start, when the User table is empty exactly one
    User is created: its username is [admin], its role [master], and its
    password hash is that of the fixed password [admin123]; when a User
    exists already, the database is left as it is. *)
Theorem bootstrap_creates_one_master :
  forall (now : Z) (d : Database pyfloat),
    (users d = [] ->
     exists u,
       create_app now d =
         Returned (mkDatabase pyfloat (contacts d) (messages d) [u]
                              (scheduled_emails d)) /\
       User.username u = "admin" /\
       User.role u = "master" /\
       User.password_hash u = generate_password_hash "admin123" /\
       check_password_hash (User.password_hash u) "admin123" = true) /\
    (users d <> [] -> create_app now d = Returned d).
Proof.
  intros now d. split.
  - intro Hnone. unfold create_app, insert_user. rewrite Hnone. cbn.
    eexists. split; [reflexivity|]. cbn. repeat split.
    apply check_generated.
  - intro Hsome. unfold create_app.
    destruct (users d); [contradiction|reflexivity].
Qed.

End Properties.

(** ** The properties on the concrete data *)

(** Discharges [no_nan] and [rating_fits] for a form that is written
    out. *)
Ltac by_fields :=
  let Hk := fresh "Hk" in
  let Hx := fresh "Hx" in
  intros ? ? ? Hk Hx || intros ? ? Hk Hx;
  unfold Scenario.post in Hk; cbn [form form_lookup] in Hk;
  repeat match type of Hk with
         | context [if ?c then _ else _] => destruct c
         end;
  try discriminate Hk;
  injection Hk as <-; vm_compute in Hx; try discriminate Hx;
  injection Hx as <-; reflexivity.

Section Runs.

#[local] Existing Instance Reference.runtime.

Import Scenario.

Lemma utf8_prints_all : prints_all utf8.
Proof. intro s. reflexivity. Qed.

(** *** Scheduler *)

(** The reminder of the scenario, scheduled at time 0: two calls of the
    sender, at [T] and at [T + 24h], [sent_at] and [start_at] at
    [T + 24h] in the end, and no timer left, however long the timers
    run. *)
Lemma recurring_until_end_fires_twice_run :
  let w2 := run_timers offline 5
              (schedule_email_job 0 reminder (with_scheduled reminder)) in
  calls w2
    = [EmailCall T "alice@example.com" "Reminder" "See you soon";
       EmailCall (T + hours 24) "alice@example.com" "Reminder" "See you soon"]
  /\ (exists s2,
         get_scheduled (db w2) 1 = Some s2 /\
         ScheduledEmail.sent_at s2 = Some (T + hours 24) /\
         ScheduledEmail.start_at s2 = T + hours 24)
  /\ timers w2 = [].
Proof.
  assert (Hle : 0 <= T) by (unfold T; lia).
  assert (Hwait : T - 0 <= timeout_max offline) by (vm_compute; discriminate).
  assert (Hday : hours 24 <= timeout_max offline)
    by (vm_compute; discriminate).
  destruct (recurring_until_end_fires_twice offline (with_scheduled reminder)
              reminder alice 0 T 3 eq_refl eq_refl eq_refl eq_refl
              utf8_prints_all Hwait Hday eq_refl eq_refl eq_refl Hle)
    as (_ & _ & _ & _ & Hcalls & (s2 & Hs2 & Hsent & Hstart & _) & Htimers & _).
  split; [exact Hcalls|]. split; [|exact Htimers].
  exists s2. auto.
Defined.

(** C1 as stated fails when [send_email] raises.  With [SMTP_PORT=abc]
    the first run of the callback ends with [ValueError]: [sent_at] is not
    recorded, [start_at] is not moved, no timer is started, and there is
    no run at [T + 24h]. *)
Lemma recurring_entry_dies_on_bad_port :
  let w2 := run_timers misconfigured 5
              (schedule_email_job 0 reminder (with_scheduled reminder)) in
  calls w2 = [EmailCall T "alice@example.com" "Reminder" "See you soon"] /\
  get_scheduled (db w2) 1 = Some reminder /\
  ScheduledEmail.sent_at reminder = None /\
  timers w2 = [] /\
  uncaught w2 = [ValueError].
Proof. repeat split. Qed.

(** Three runs of the callback for the reminder without end. *)
Lemma open_ended_recurrence_never_ends_run :
  exists s',
    get_scheduled
      (db (fires offline 1 [T; T + hours 24; T + hours 48]
                 (with_scheduled open_reminder))) 1 = Some s' /\
    ScheduledEmail.start_at s' = T + hours 72 /\
    ScheduledEmail.recurring s' = true /\
    ScheduledEmail.end_at s' = None /\
    timers (fires offline 1 [T; T + hours 24; T + hours 48]
                  (with_scheduled open_reminder))
      = [mkTimer (T + hours 24) 1 (hours 24);
         mkTimer (T + hours 48) 1 (hours 24);
         mkTimer (T + hours 72) 1 (hours 24)].
Proof.
  destruct (open_ended_recurrence_never_ends offline 1
              [T; T + hours 24; T + hours 48]
              (with_scheduled open_reminder) open_reminder
              eq_refl eq_refl eq_refl eq_refl utf8_prints_all)
    as (s' & Hs & Hstart & Hrec & Hend & Htimers).
  exists s'. repeat split; assumption.
Defined.

(** C2 as stated fails when [send_email] raises.  With [SMTP_PORT=abc]
    and the contact there, the run of the callback ends with [ValueError]
    before the rescheduling: [start_at] stays where it was and no timer is
    started, so that the entry never fires again. *)
Lemma open_ended_entry_ends_on_bad_port :
  let w1 := fires misconfigured 1 [T] (with_scheduled open_reminder) in
  get_scheduled (db w1) 1 = Some open_reminder /\
  ScheduledEmail.start_at open_reminder = T /\
  timers w1 = [] /\
  uncaught w1 = [ValueError].
Proof. repeat split. Qed.


(** *** Senders *)

(** With SMTP configured and the server refusing the connection, and
    Twilio not configured: both senders return [False]. *)
Lemma senders_return_a_boolean_run :
  send_email configured utf8 (refused _ 0) "alice@example.com" "Hello" "Hi"
    = (["Email sending failed: Connection refused"], Returned false) /\
  send_sms configured utf8 false (refused _ 0) "+15550001" "Hi"
    = (["SMS not sent: missing Twilio configuration";
        would_be_sms "+15550001" "Hi"], Returned false).
Proof.
  destruct (senders_return_a_boolean configured utf8 (refused _ 0) false
              (refused _ 0) "alice@example.com" "Hello" "Hi" utf8_prints_all)
    as [Hemail _].
  destruct (Hemail eq_refl) as (out & b & Hmail & _ & Hconf).
  split.
  - destruct (Hconf eq_refl) as (session & _ & _ & _ & [(Hnone & _)|Hsome]).
    + discriminate Hnone.
    + destruct Hsome as (e & He & Hb & Hout).
      injection He as <-. rewrite Hmail, Hb, Hout. reflexivity.
  - destruct (senders_return_a_boolean configured utf8 (refused _ 0) false
                (refused _ 0) "+15550001" "" "Hi" utf8_prints_all)
      as [_ (out2 & b2 & Hsms2 & Hmissing2 & _)].
    destruct (Hmissing2 eq_refl) as [Hb Hout].
    rewrite Hsms2, Hb, Hout. reflexivity.
Defined.

(** C3 as stated fails three times.  With SMTP configured and the server
    refusing the connection, [send_email] prints the text of the exception
    and not the would-be message.  With [SMTP_PORT=abc], [send_email]
    raises [ValueError] to its caller, whatever else is configured.  And
    on a standard output encoded in ASCII, with no SMTP configuration, a
    body with an accented letter makes the [print] of the would-be message
    raise [UnicodeEncodeError], after the notice was printed. *)
Lemma send_email_hides_message_and_raises :
  (send_email configured utf8 (refused _ 0) "alice@example.com" "Hello" "Hi"
     = (["Email sending failed: Connection refused"], Returned false) /\
   ~ In (would_be_email "alice@example.com" "Hello" "Hi")
        (fst (send_email configured utf8 (refused _ 0) "alice@example.com"
                         "Hello" "Hi"))) /\
  send_email bad_port utf8 (accepted _ 0) "alice@example.com" "Hello" "Hi"
    = ([], Raised ValueError) /\
  send_email (fun k => if (k =? "SMTP_PORT")%string then Some "abc" else None)
             utf8 (accepted _ 0) "alice@example.com" "Hello" "Hi"
    = ([], Raised ValueError) /\
  send_email bare ascii_only (accepted _ 0) "alice@example.com" "Hello" cafe
    = (["Email not sent: missing SMTP configuration"],
       Raised UnicodeEncodeError) /\
  send_sms bare ascii_only true (accepted _ 0) "+15550001" cafe
    = (["SMS not sent: missing Twilio configuration"],
       Raised UnicodeEncodeError).
Proof.
  split; [split|split; [|split; [|split]]]; try reflexivity.
  cbn. intros [H|[]]. discriminate H.
Qed.

(** *** Contacts *)

(** The admin posts a new contact with Alice's email, padded with
    blanks. *)
Lemma duplicate_email_is_rejected_run :
  let rq := post admin [("first_name", "Alicia"); ("last_name", "Archer");
                        ("email", " alice@example.com ")] in
  fst (create_contact rq world) = Render "contact_form.html" None /\
  db (snd (create_contact rq world)) = database /\
  List.length (contacts (db (snd (create_contact rq world)))) = 2%nat.
Proof.
  intro rq.
  destruct (duplicate_email_is_rejected rq world alice eq_refl
              (or_introl eq_refl) eq_refl) as (Hdb & Hcount & H).
  destruct (H admin eq_refl eq_refl) as [Hresp _].
  split; [exact Hresp|]. split; [exact Hdb | exact Hcount].
Defined.



(** C5 at the failing input: the admin edits Bob and submits Alice's
    email.  [edit_contact] assigns the email without looking for another
    holder, so the commit is attempted with two contacts sharing an email;
    the unique constraint of the column refuses it and the exception leaves
    the handler.  [create_contact], given the same form, looks first and
    answers with the form and a warning. *)
Lemma edit_contact_writes_duplicate_email_unchecked :
  let rq := post admin [("first_name", "Bob"); ("last_name", "Baker");
                        ("email", "alice@example.com")] in
  (exists contact1,
      edited (form rq) bob = Returned contact1 /\
      Contact.email contact1 = Contact.email alice) /\
  edit_contact 2 rq world = (Raise IntegrityError, world) /\
  create_contact rq world
    = (Render "contact_form.html" None,
       flash "A contact with that email already exists." "warning" world).
Proof.
  split; [|split; reflexivity].
  eexists. split; reflexivity.
Qed.

(** An engineer (role stored as [Engineer]) posts a new contact. *)
Lemma other_roles_cannot_create_contacts_run :
  let rq := post engineer [("first_name", "Carol"); ("last_name", "Cole");
                           ("email", "carol@example.com")] in
  create_contact rq world
    = (Redirect Url_index,
       flash "You do not have permission to access this page." "danger" world)
  /\ contacts (db (snd (create_contact rq world))) = [alice; bob].
Proof.
  intro rq.
  destruct (other_roles_cannot_create_contacts rq world engineer eq_refl
              eq_refl) as (H & Hc & _).
  split; [exact H | exact Hc].
Defined.

(** *** Messages *)

(** The engineer posts an email with a blank subject, and an SMS. *)
Lemma empty_subject_rejected_and_sms_goes_to_phone_run :
  fst (send_message_route offline 1
         (post engineer [("channel", "email"); ("subject", " ");
                         ("body", "Hello")]) world)
    = Render "message_form.html" (Some alice) /\
  calls (snd (send_message_route offline 1
                (post engineer [("channel", "sms"); ("body", "Hello")]) world))
    = [SmsCall 1000 "+15550001" "Hello"].
Proof.
  split.
  - destruct (empty_subject_rejected_and_sms_goes_to_phone offline 1
                (post engineer [("channel", "email"); ("subject", " ");
                                ("body", "Hello")])
                world alice engineer eq_refl eq_refl eq_refl) as [Hmail _].
    destruct (Hmail eq_refl eq_refl) as (_ & _ & Hrej).
    destruct (Hrej (or_intror (or_intror eq_refl))) as [Hresp _].
    exact Hresp.
  - destruct (empty_subject_rejected_and_sms_goes_to_phone offline 1
                (post engineer [("channel", "sms"); ("body", "Hello")])
                world alice engineer eq_refl eq_refl eq_refl) as [_ Hsms].
    exact (Hsms eq_refl).
Defined.

(** C7 as stated fails for a scheduling request: channel [email], an empty
    subject, a body and a valid [start_at].  The request is not rejected:
    it is answered with the redirect and a success message, a
    ScheduledEmail with an empty subject is stored and its timer armed;
    when the timer runs, [send_email] is called with the empty subject. *)
Lemma scheduling_accepts_empty_subject :
  let rq := post admin [("channel", "email"); ("subject", "");
                        ("body", "See you soon");
                        ("start_at", "2030-01-01T09:00")] in
  let r := send_message_route online 1 rq world in
  fst r = Redirect (Url_view_contact 1) /\
  fst r <> Render "message_form.html" (Some alice) /\
  flashes (snd r) = [("Email scheduled successfully.", "success")] /\
  scheduled_emails (db (snd r))
    = [ScheduledEmail.mk 1 1 "" "See you soon" T None false None] /\
  timers (snd r) = [mkTimer T 1 (T - 1000)] /\
  calls (run_timers online 1 (snd r))
    = [EmailCall T "alice@example.com" "" "See you soon"].
Proof.
  intros rq r.
  assert (Hr : fst r = Redirect (Url_view_contact 1)) by reflexivity.
  split; [exact Hr|]. split; [rewrite Hr; discriminate|].
  repeat split.
Qed.

(** *** Application start *)

(** A first start on an empty database, and a later start. *)
Lemma bootstrap_creates_one_master_run :
  (exists u,
      create_app 5 (mkDatabase _ [] [] [] [])
        = Returned (mkDatabase _ [] [] [u] []) /\
      User.username u = "admin" /\
      User.role u = "master" /\
      check_password_hash (User.password_hash u) "admin123" = true) /\
  create_app 5 database = Returned database.
Proof.
  destruct (bootstrap_creates_one_master 5 (mkDatabase _ [] [] [] []))
    as [Hfirst _].
  destruct (Hfirst eq_refl) as (u & Hu & Hname & Hrole & _ & Hcheck).
  destruct (bootstrap_creates_one_master 5 database) as [_ Hlater].
  split.
  - exists u. repeat split; assumption.
  - apply Hlater. discriminate.
Defined.

(** *** The handlers on ordinary requests *)

Example create_contact_accepts_new_email :
  let rq := post admin [("first_name", " Carol "); ("last_name", "Cole");
                        ("email", "carol@example.com");
                        ("potential_spend", "12.50"); ("rating", "high")] in
  fst (create_contact rq world) = Redirect Url_list_contacts /\
  map Contact.email (contacts (db (snd (create_contact rq world))))
    = ["alice@example.com"; "bob@example.com"; "carol@example.com"] /\
  option_map Contact.first_name (get_contact (db (snd (create_contact rq world))) 3)
    = Some "Carol" /\
  option_map Contact.potential_spend
             (get_contact (db (snd (create_contact rq world))) 3)
    = Some (Some (Reference.Finite false 1250 (-2))) /\
  option_map Contact.rating (get_contact (db (snd (create_contact rq world))) 3)
    = Some 0.
Proof. repeat split. Qed.

Example edit_contact_updates_fields :
  let rq := post admin [("first_name", "Bob"); ("last_name", "Baker");
                        ("email", "bob@example.org");
                        ("accepted_spend", "3e2"); ("rating", " 9 ")] in
  fst (edit_contact 2 rq world) = Redirect (Url_view_contact 2) /\
  map Contact.email (contacts (db (snd (edit_contact 2 rq world))))
    = ["alice@example.com"; "bob@example.org"] /\
  option_map Contact.accepted_spend
             (get_contact (db (snd (edit_contact 2 rq world))) 2)
    = Some (Some (Reference.Finite false 3 2)) /\
  option_map Contact.rating (get_contact (db (snd (edit_contact 2 rq world))) 2)
    = Some 9 /\
  fst (edit_contact 7 rq world) = Abort 404.
Proof. repeat split. Qed.

(** What the database and the summary do to numbers they cannot take: a
    rating of 2^63 is refused when it is bound, and a NaN is stored as
    NULL, which the summary written after the commit cannot format. *)
Example numbers_the_database_cannot_hold :
  let big := post admin [("first_name", "Carol"); ("last_name", "Cole");
                         ("email", "carol@example.com");
                         ("rating", "9223372036854775808")] in
  let nan := post admin [("first_name", "Carol"); ("last_name", "Cole");
                         ("email", "carol@example.com");
                         ("billed_amount", "nan")] in
  create_contact big world = (Raise OverflowError, world) /\
  fst (edit_contact 2 big world) = Raise OverflowError /\
  fst (create_contact nan world) = Raise TypeError /\
  option_map Contact.billed_amount
             (get_contact (db (snd (create_contact nan world))) 3)
    = Some None /\
  fst (edit_contact 2 nan world) = Raise TypeError.
Proof. repeat split. Qed.

Example immediate_email_is_logged_when_sent :
  let rq := post engineer [("channel", "email"); ("subject", "Hello");
                           ("body", " How are you? ")] in
  messages (db (snd (send_message_route online 1 rq world)))
    = [Message.mk 1 1 "email" (Some "Hello") "How are you?" 1000] /\
  calls (snd (send_message_route online 1 rq world))
    = [EmailCall 1000 "alice@example.com" "Hello" "How are you?"] /\
  messages (db (snd (send_message_route offline 1 rq world))) = [] /\
  flashes (snd (send_message_route offline 1 rq world))
    = [("Message could not be sent. Check server logs for details.",
        "warning")] /\
  console (snd (send_message_route offline 1 rq world))
    = ["Email sending failed: Connection refused"].
Proof. repeat split. Qed.

Example anonymous_requests_go_to_login :
  fst (create_contact (mkRequest 1000 POST [] None) world)
    = Redirect Url_login /\
  fst (send_message_route online 1 (mkRequest 1000 POST [] None) world)
    = Redirect Url_login.
Proof. split; reflexivity. Qed.

End Runs.

(** * Further properties of the handlers *)

Section Handlers.

Context {R : Runtime}.

(** ** The access gate *)

Lemma gate_passes :
  forall roles (view : View) rq w user,
    g_user rq = Some user ->
    Py.mem (Py.lower (User.role user)) (map Py.lower roles) = true ->
    login_required (role_required roles view) rq w = view rq w.
Proof.
  intros roles view rq w user Huser Hrole.
  unfold login_required, role_required. rewrite Huser, Hrole. reflexivity.
Qed.

Lemma gate_blocks :
  forall roles (view : View) rq w,
    login_required (role_required roles view) rq w = view rq w \/
    login_required (role_required roles view) rq w = (Redirect Url_login, w) \/
    login_required (role_required roles view) rq w =
      (Redirect Url_index,
       flash "You do not have permission to access this page." "danger" w).
Proof.
  intros roles view rq w. unfold login_required, role_required.
  destruct (g_user rq) as [user|]; [|auto].
  destruct (Py.mem _ _); cbn [negb]; auto.
Qed.

(** ** Lists without repetition *)

Lemma NoDup_snoc :
  forall (A : Type) (l : list A) x, NoDup l -> ~ In x l -> NoDup (l ++ [x]).
Proof.
  intros A l x Hl Hx. induction l as [|a l IH]; simpl.
  - constructor; [intros []|constructor].
  - inversion Hl; subst. constructor.
    + intro Hin. apply in_app_or in Hin. destruct Hin as [Hin|[Heq|[]]].
      * contradiction.
      * subst. apply Hx. left. reflexivity.
    + apply IH; [assumption|]. intro Hin. apply Hx. right. exact Hin.
Qed.

Lemma NoDup_map_filter :
  forall (A B : Type) (g : A -> B) (p : A -> bool) l,
    NoDup (map g l) -> NoDup (map g (filter p l)).
Proof.
  intros A B g p l. induction l as [|a l IH]; simpl; intro H; [constructor|].
  inversion H; subst. destruct (p a); simpl; [|auto].
  constructor; [|auto]. intro Hin. apply H2.
  apply in_map_iff in Hin. destruct Hin as (b & Hb & Hin).
  apply filter_In in Hin. apply in_map_iff. exists b. tauto.
Qed.

Lemma next_id_above :
  forall ids k, In k ids -> k < next_id ids.
Proof.
  intros ids k Hin. unfold next_id.
  induction ids as [|a ids IH]; [contradiction|].
  simpl. destruct Hin as [->|Hin]; [lia|]. specialize (IH Hin). lia.
Qed.

Lemma next_id_fresh : forall ids, ~ In (next_id ids) ids.
Proof.
  intros ids Hin. apply next_id_above in Hin. lia.
Qed.

(** ** What the three writes to the Contact table keep *)

Lemma insert_contact_returned :
  forall (c : Contact.t pyfloat) d d',
    insert_contact c d = Returned d' ->
    d' = mkDatabase pyfloat (contacts d ++ [stored c]) (messages d) (users d)
                    (scheduled_emails d) /\
    ~ In (Contact.email c) (map Contact.email (contacts d)).
Proof.
  intros c d d' H. unfold insert_contact in H.
  destruct (negb (int64 (Contact.rating c))); [discriminate|].
  destruct (existsb _ (contacts d)) eqn:He; [discriminate|].
  inversion H. split; [reflexivity|].
  intro Hin. apply in_map_iff in Hin. destruct Hin as (r & Hr & Hin).
  pose proof (existsb_false_forall _ _ _ He r Hin) as Hf. cbv beta in Hf.
  rewrite Hr, String.eqb_refl in Hf. discriminate.
Qed.

Lemma update_contact_returned :
  forall (old c : Contact.t pyfloat) d d',
    update_contact old c d = Returned d' ->
    d' = mkDatabase pyfloat
           (map (fun r => if Contact.id r =? Contact.id c then stored c else r)
                (contacts d))
           (messages d) (users d) (scheduled_emails d) /\
    (forall r, In r (contacts d) -> Contact.id r <> Contact.id c ->
               Contact.email r <> Contact.email c).
Proof.
  intros old c d d' H. unfold update_contact in H.
  destruct (negb _ && negb _); [discriminate|].
  destruct (existsb _ (contacts d)) eqn:He; [discriminate|].
  inversion H. split; [reflexivity|].
  intros r Hin Hid Hem.
  pose proof (existsb_false_forall _ _ _ He r Hin) as Hf. cbv beta in Hf.
  rewrite Hem, String.eqb_refl, andb_true_r in Hf.
  apply negb_false_iff, Z.eqb_eq in Hf. contradiction.
Qed.

Lemma remove_contact_returned :
  forall (c : Contact.t pyfloat) d d',
    remove_contact c d = Returned d' ->
    d' = mkDatabase pyfloat
           (filter (fun r => negb (Contact.id r =? Contact.id c)) (contacts d))
           (messages d) (users d) (scheduled_emails d) /\
    (forall m, In m (messages d) -> Message.contact_id m <> Contact.id c).
Proof.
  intros c d d' H. unfold remove_contact in H.
  destruct (existsb _ (messages d)) eqn:He; [discriminate|].
  inversion H. split; [reflexivity|].
  intros m Hin Hm.
  pose proof (existsb_false_forall _ _ _ He m Hin) as Hf. cbv beta in Hf.
  apply Z.eqb_neq in Hf. contradiction.
Qed.

(** The row with key [k] replaced by a row [c] with the same key. *)
Lemma updated_ids :
  forall (l : list (Contact.t pyfloat)) k (c : Contact.t pyfloat),
    Contact.id c = k ->
    map Contact.id (map (fun r => if Contact.id r =? k then c else r) l)
    = map Contact.id l.
Proof.
  intros l k c Hc. induction l as [|r l IH]; [reflexivity|].
  simpl. rewrite IH. destruct (Contact.id r =? k) eqn:Hr; [|reflexivity].
  apply Z.eqb_eq in Hr. rewrite Hr, Hc. reflexivity.
Qed.

Lemma updated_emails_in :
  forall (l : list (Contact.t pyfloat)) k (c : Contact.t pyfloat) e,
    In e (map Contact.email
            (map (fun r => if Contact.id r =? k then c else r) l)) ->
    e = Contact.email c \/
    exists r, In r l /\ Contact.id r <> k /\ Contact.email r = e.
Proof.
  intros l k c e. induction l as [|r l IH]; simpl; [intros []|].
  intros [H|H].
  - destruct (Contact.id r =? k) eqn:Hr.
    + left. symmetry. exact H.
    + right. exists r. apply Z.eqb_neq in Hr. auto.
  - destruct (IH H) as [He|(r' & Hin & Hid & He)]; [auto|].
    right. exists r'. auto.
Qed.

Lemma updated_without_the_id :
  forall (l : list (Contact.t pyfloat)) k (c : Contact.t pyfloat),
    ~ In k (map Contact.id l) ->
    map (fun r => if Contact.id r =? k then c else r) l = l.
Proof.
  intros l k c. induction l as [|r l IH]; simpl; intro H; [reflexivity|].
  destruct (Contact.id r =? k) eqn:Hr.
  - apply Z.eqb_eq in Hr. exfalso. apply H. left. exact Hr.
  - rewrite IH; [reflexivity|]. intro Hin. apply H. right. exact Hin.
Qed.

Lemma updated_emails_unique :
  forall (l : list (Contact.t pyfloat)) k (c : Contact.t pyfloat),
    NoDup (map Contact.id l) ->
    NoDup (map Contact.email l) ->
    (forall r, In r l -> Contact.id r <> k ->
               Contact.email r <> Contact.email c) ->
    NoDup (map Contact.email
             (map (fun r => if Contact.id r =? k then c else r) l)).
Proof.
  intros l k c. induction l as [|r l IH]; simpl; intros Hid Hem Hfree;
    [constructor|].
  inversion Hid as [|? ? Hid1 Hid2]; subst.
  inversion Hem as [|? ? Hem1 Hem2]; subst.
  destruct (Contact.id r =? k) eqn:Hr.
  - apply Z.eqb_eq in Hr.
    rewrite updated_without_the_id by (rewrite <- Hr; exact Hid1).
    constructor; [|exact Hem2].
    intro Hin. apply in_map_iff in Hin. destruct Hin as (r' & He & Hin).
    apply (Hfree r'); [right; exact Hin| |exact He].
    intro Heq. apply Hid1. rewrite Hr, <- Heq. apply in_map. exact Hin.
  - apply Z.eqb_neq in Hr. constructor.
    + intro Hin. apply updated_emails_in in Hin.
      destruct Hin as [He|(r' & Hin' & Hne & He)].
      * apply (Hfree r); auto.
      * apply Hem1. apply in_map_iff. exists r'. auto.
    + apply IH; auto.
Qed.

(** What a request to one of the three contact routes does to the
    database: nothing, or the one write of the route. *)
Lemma create_contact_db :
  forall rq w,
    db (snd (create_contact rq w)) = db w \/
    exists c,
      insert_contact c (db w) = Returned (db (snd (create_contact rq w))) /\
      Contact.id c = next_id (map Contact.id (contacts (db w))) /\
      Contact.email c = Py.strip (form_get (form rq) "email" "").
Proof.
  intros rq w. unfold create_contact.
  destruct (gate_blocks ["master"; "management"] create_contact_view rq w)
    as [H|[H|H]]; rewrite H; [|left; reflexivity|left; reflexivity].
  unfold create_contact_view.
  destruct (method rq); [left; reflexivity|].
  destruct (negb _ || negb _ || negb _); [left; reflexivity|].
  destruct (contact_by_email _ _); [left; reflexivity|].
  match goal with |- context [insert_contact ?c (db w)] => set (contact := c) end.
  destruct (insert_contact contact (db w)) as [d|e] eqn:Hi; [|left; reflexivity].
  right. exists contact. split; [|split; reflexivity].
  unfold generate_contact_summary.
  destruct (has_numbers (stored contact)); exact Hi.
Qed.

Lemma edit_contact_db :
  forall contact_id rq w,
    db (snd (edit_contact contact_id rq w)) = db w \/
    exists contact contact1,
      get_contact (db w) contact_id = Some contact /\
      edited (form rq) contact = Returned contact1 /\
      update_contact contact contact1 (db w)
        = Returned (db (snd (edit_contact contact_id rq w))).
Proof.
  intros contact_id rq w. unfold edit_contact.
  destruct (gate_blocks ["master"; "management"]
              (edit_contact_view contact_id) rq w)
    as [H|[H|H]]; rewrite H; [|left; reflexivity|left; reflexivity].
  unfold edit_contact_view.
  destruct (get_contact (db w) contact_id) as [contact|] eqn:Hc;
    [|left; reflexivity].
  destruct (method rq); [left; reflexivity|].
  destruct (edited (form rq) contact) as [contact1|e] eqn:He;
    [|left; reflexivity].
  destruct (update_contact _ _ (db w)) as [d|e] eqn:Hu; [|left; reflexivity].
  right. exists contact, contact1.
  split; [reflexivity|]. split; [exact He|].
  unfold generate_contact_summary.
  destruct (has_numbers (stored contact1)); exact Hu.
Qed.

Lemma delete_contact_db :
  forall contact_id rq w,
    db (snd (delete_contact contact_id rq w)) = db w \/
    exists contact,
      get_contact (db w) contact_id = Some contact /\
      remove_contact contact (db w)
        = Returned (db (snd (delete_contact contact_id rq w))).
Proof.
  intros contact_id rq w. unfold delete_contact.
  destruct (method rq); [left; reflexivity|].
  destruct (gate_blocks ["master"; "management"]
              (delete_contact_view contact_id) rq w)
    as [H|[H|H]]; rewrite H; [|left; reflexivity|left; reflexivity].
  unfold delete_contact_view.
  destruct (get_contact (db w) contact_id) as [contact|] eqn:Hc;
    [|left; reflexivity].
  destruct (remove_contact _ (db w)) as [d|e] eqn:Hu; [|left; reflexivity].
  right. exists contact. split; [reflexivity | exact Hu].
Qed.

(** Contact emails stay unique.  Whatever the request, [create_contact],
    [edit_contact] and [delete_contact] leave the emails of the contacts
    pairwise distinct when they, and the primary keys, were so before. *)
Theorem contact_routes_keep_emails_unique :
  forall (contact_id : Z) (rq : Request) (w : World),
    unique_emails (db w) ->
    unique_contact_ids (db w) ->
    unique_emails (db (snd (create_contact rq w))) /\
    unique_emails (db (snd (edit_contact contact_id rq w))) /\
    unique_emails (db (snd (delete_contact contact_id rq w))).
Proof.
  intros contact_id rq w Hem Hid. unfold unique_emails in *.
  split; [|split].
  - destruct (create_contact_db rq w) as [H|(c & Hi & _ & _)];
      [rewrite H; exact Hem|].
    apply insert_contact_returned in Hi. destruct Hi as [-> Hfree].
    cbn [contacts]. rewrite map_app. apply NoDup_snoc; assumption.
  - destruct (edit_contact_db contact_id rq w) as [H|(c & c1 & Hc & He & Hu)];
      [rewrite H; exact Hem|].
    apply update_contact_returned in Hu. destruct Hu as [-> Hfree].
    cbn [contacts]. apply updated_emails_unique; assumption.
  - destruct (delete_contact_db contact_id rq w) as [H|(c & Hc & Hu)];
      [rewrite H; exact Hem|].
    apply remove_contact_returned in Hu. destruct Hu as [-> _].
    cbn [contacts]. apply NoDup_map_filter. exact Hem.
Qed.

(** Primary keys stay unique: a new contact gets a key above every key in
    use, an edit keeps the key of the row, a deletion only removes. *)
Theorem contact_routes_keep_ids_unique :
  forall (contact_id : Z) (rq : Request) (w : World),
    unique_contact_ids (db w) ->
    unique_contact_ids (db (snd (create_contact rq w))) /\
    unique_contact_ids (db (snd (edit_contact contact_id rq w))) /\
    unique_contact_ids (db (snd (delete_contact contact_id rq w))).
Proof.
  intros contact_id rq w Hid. unfold unique_contact_ids in *.
  split; [|split].
  - destruct (create_contact_db rq w) as [H|(c & Hi & Hnew & _)];
      [rewrite H; exact Hid|].
    apply insert_contact_returned in Hi. destruct Hi as [-> _].
    cbn [contacts]. rewrite map_app. apply NoDup_snoc; [assumption|].
    cbn [map stored Contact.id]. rewrite Hnew. apply next_id_fresh.
  - destruct (edit_contact_db contact_id rq w) as [H|(c & c1 & Hc & He & Hu)];
      [rewrite H; exact Hid|].
    apply update_contact_returned in Hu. destruct Hu as [-> _].
    cbn [contacts]. rewrite updated_ids by reflexivity. exact Hid.
  - destruct (delete_contact_db contact_id rq w) as [H|(c & Hc & Hu)];
      [rewrite H; exact Hid|].
    apply remove_contact_returned in Hu. destruct Hu as [-> _].
    cbn [contacts]. apply NoDup_map_filter. exact Hid.
Qed.

(** Stored emails stay stripped: the three contact routes never store an
    email with blanks around it. *)
Theorem contact_routes_keep_emails_stripped :
  forall (contact_id : Z) (rq : Request) (w : World),
    emails_stripped (db w) ->
    emails_stripped (db (snd (create_contact rq w))) /\
    emails_stripped (db (snd (edit_contact contact_id rq w))) /\
    emails_stripped (db (snd (delete_contact contact_id rq w))).
Proof.
  intros contact_id rq w Hs. unfold emails_stripped in *.
  split; [|split].
  - destruct (create_contact_db rq w) as [H|(c & Hi & _ & Hem)];
      [rewrite H; exact Hs|].
    apply insert_contact_returned in Hi. destruct Hi as [-> _].
    cbn [contacts]. apply Forall_app. split; [exact Hs|].
    constructor; [|constructor]. cbn [stored Contact.email].
    rewrite Hem. apply strip_idempotent.
  - destruct (edit_contact_db contact_id rq w) as [H|(c & c1 & Hc & He & Hu)];
      [rewrite H; exact Hs|].
    apply update_contact_returned in Hu. destruct Hu as [-> _].
    cbn [contacts]. apply Forall_forall. intros r Hin.
    apply in_map_iff in Hin. destruct Hin as (r0 & Hr0 & Hin0).
    destruct (Contact.id r0 =? _); subst r.
    + cbn [stored Contact.email]. exact (edited_email_stripped _ _ _ He).
    + rewrite Forall_forall in Hs. apply Hs. exact Hin0.
  - destruct (delete_contact_db contact_id rq w) as [H|(c & Hc & Hu)];
      [rewrite H; exact Hs|].
    apply remove_contact_returned in Hu. destruct Hu as [-> _].
    cbn [contacts]. apply Forall_forall. intros r Hin.
    apply filter_In in Hin. rewrite Forall_forall in Hs. apply Hs. tauto.
Qed.

(** ** Creating a contact *)

(** A POST to [/contact/new] by a user allowed to create contacts in which
    the first name, the last name or the email is missing or blank is
    answered with the form and the message that the three are required;
    nothing else changes. *)
Theorem create_contact_requires_names_and_email :
  forall (rq : Request) (w : World) (user : User.t),
    method rq = POST ->
    g_user rq = Some user ->
    Py.mem (Py.lower (User.role user)) ["master"; "management"] = true ->
    Py.strip (form_get (form rq) "first_name" "") = ""
    \/ Py.strip (form_get (form rq) "last_name" "") = ""
    \/ Py.strip (form_get (form rq) "email" "") = "" ->
    create_contact rq w
      = (Render "contact_form.html" None,
         flash "First name, last name and email are required." "danger" w).
Proof.
  intros rq w user Hpost Huser Hrole Hblank.
  unfold create_contact.
  rewrite (gate_passes ["master"; "management"] _ _ _ user Huser Hrole).
  unfold create_contact_view. rewrite Hpost.
  replace (negb (Py.truthy (Py.strip (form_get (form rq) "first_name" "")))
           || negb (Py.truthy (Py.strip (form_get (form rq) "last_name" "")))
           || negb (Py.truthy (Py.strip (form_get (form rq) "email" ""))))
    with true; [reflexivity|].
  symmetry.
  destruct Hblank as [H|[H|H]]; rewrite H; cbn;
    rewrite ?orb_true_r; reflexivity.
Qed.

(** A POST to [/contact/new] by a user allowed to create contacts, with the
    three required fields, an email no contact holds, no NaN among the
    fields and a rating that, when it is an integer, fits in 64 bits: one
    contact is appended, with the next primary key, the stripped fields
    and the time of the request; every numeric field that does not parse
    is stored as zero; one summary file is written and the answer is the
    redirect to the contact list.  The other tables are as they were. *)
Theorem create_contact_appends_one_contact :
  forall (rq : Request) (w : World) (user : User.t),
    method rq = POST ->
    g_user rq = Some user ->
    Py.mem (Py.lower (User.role user)) ["master"; "management"] = true ->
    Py.strip (form_get (form rq) "first_name" "") <> "" ->
    Py.strip (form_get (form rq) "last_name" "") <> "" ->
    Py.strip (form_get (form rq) "email" "") <> "" ->
    (forall c, In c (contacts (db w)) ->
               Contact.email c <> Py.strip (form_get (form rq) "email" "")) ->
    no_nan (form rq) ->
    rating_fits (form rq) ->
    exists contact,
      fst (create_contact rq w) = Redirect Url_list_contacts /\
      db (snd (create_contact rq w))
        = mkDatabase pyfloat (contacts (db w) ++ [contact]) (messages (db w))
                     (users (db w)) (scheduled_emails (db w)) /\
      summaries (snd (create_contact rq w))
        = (summaries w ++ [(Contact.id contact, req_time rq)])%list /\
      Contact.id contact = next_id (map Contact.id (contacts (db w))) /\
      Contact.first_name contact = Py.strip (form_get (form rq) "first_name" "") /\
      Contact.last_name contact = Py.strip (form_get (form rq) "last_name" "") /\
      Contact.email contact = Py.strip (form_get (form rq) "email" "") /\
      Contact.created_at contact = req_time rq /\
      (forall v, form_lookup (form rq) "potential_spend" = Some v ->
                 float_of_str v = None ->
                 Contact.potential_spend contact = Some float_zero) /\
      (forall v, form_lookup (form rq) "rating" = Some v ->
                 Py.int v = None -> Contact.rating contact = 0) /\
      (form_lookup (form rq) "rating" = None -> Contact.rating contact = 0).
Proof.
  intros rq w user Hpost Huser Hrole Hf Hl He Hfree Hnan Hfit.
  unfold create_contact.
  rewrite (gate_passes ["master"; "management"] _ _ _ user Huser Hrole).
  unfold create_contact_view. rewrite Hpost.
  apply truthy_true in Hf, Hl, He. rewrite Hf, Hl, He. cbn [negb orb].
  destruct (contact_by_email (db w) _) as [c|] eqn:Hc.
  { unfold contact_by_email in Hc. apply find_some in Hc.
    destruct Hc as [Hin Heq]. apply String.eqb_eq in Heq.
    exfalso. exact (Hfree c Hin Heq). }
  unfold insert_contact. cbn [Contact.email Contact.rating].
  rewrite (int_or_zero_fits _ Hfit). cbn [negb].
  unfold contact_by_email in Hc. rewrite (find_none_existsb _ _ _ Hc).
  unfold stored.
  cbn [Contact.id Contact.first_name Contact.last_name Contact.email
       Contact.phone Contact.company Contact.address Contact.notes
       Contact.created_at Contact.potential_spend Contact.accepted_spend
       Contact.billed_amount Contact.received_amount Contact.rating].
  rewrite !stored_float_number by (apply float_or_zero_number; exact Hnan).
  unfold generate_contact_summary. cbn [has_numbers Contact.potential_spend
    Contact.accepted_spend Contact.billed_amount Contact.received_amount].
  eexists. cbn [fst snd db summaries flash set_db Contact.id].
  repeat (split; [reflexivity|]).
  cbn [Contact.potential_spend Contact.rating].
  split; [|split].
  - intros v Hv Hbad. rewrite Hv. unfold float_or_zero. rewrite Hbad.
    destruct (Py.truthy v); reflexivity.
  - intros v Hv Hbad. rewrite Hv. unfold int_or_zero. rewrite Hbad.
    destruct (Py.truthy v); reflexivity.
  - intros Hv. rewrite Hv. reflexivity.
Qed.

(** ** Editing and deleting a contact *)

Lemma find_other_after_update :
  forall (l : list (Contact.t pyfloat)) (c : Contact.t pyfloat) k k',
    Contact.id c = k' ->
    k <> k' ->
    find (fun r => Contact.id r =? k)
         (map (fun r => if Contact.id r =? k' then c else r) l)
    = find (fun r => Contact.id r =? k) l.
Proof.
  intros l c k k' Hc Hk. induction l as [|r l IH]; [reflexivity|].
  simpl. destruct (Contact.id r =? k') eqn:Hr; simpl.
  - apply Z.eqb_eq in Hr.
    replace (Contact.id c =? k) with false by (symmetry; apply Z.eqb_neq; lia).
    replace (Contact.id r =? k) with false by (symmetry; apply Z.eqb_neq; lia).
    exact IH.
  - rewrite IH. reflexivity.
Qed.

Lemma find_after_remove :
  forall (l : list (Contact.t pyfloat)) (c : Contact.t pyfloat) k,
    find (fun r => Contact.id r =? k)
         (filter (fun r => negb (Contact.id r =? Contact.id c)) l)
    = if k =? Contact.id c then None else find (fun r => Contact.id r =? k) l.
Proof.
  intros l c k. induction l as [|r l IH].
  - simpl. destruct (k =? Contact.id c); reflexivity.
  - simpl. destruct (Contact.id r =? Contact.id c) eqn:Hr; simpl.
    + rewrite IH. destruct (k =? Contact.id c) eqn:Hk; [reflexivity|].
      apply Z.eqb_eq in Hr. apply Z.eqb_neq in Hk.
      replace (Contact.id r =? k) with false by (symmetry; apply Z.eqb_neq; lia).
      reflexivity.
    + rewrite IH. destruct (Contact.id r =? k) eqn:Hrk; [|reflexivity].
      apply Z.eqb_eq in Hrk. apply Z.eqb_neq in Hr.
      replace (k =? Contact.id c) with false by (symmetry; apply Z.eqb_neq; lia).
      reflexivity.
Qed.

(** An accepted edit overwrites the text fields with the stripped form
    values, a missing field as the empty string: unlike [create_contact],
    [edit_contact] requires none of them, so that a POST without
    [first_name] blanks the stored first name.  The primary key and the
    creation time are kept, and no other contact is touched.  The edit is
    accepted when no other contact holds the email, the float columns of
    the contact hold numbers, no field is a NaN and the rating, when it is
    an integer, fits in 64 bits. *)
Theorem edit_contact_overwrites_text_fields :
  forall (contact_id : Z) (rq : Request) (w : World)
         (contact : Contact.t pyfloat) (user : User.t),
    method rq = POST ->
    g_user rq = Some user ->
    Py.mem (Py.lower (User.role user)) ["master"; "management"] = true ->
    get_contact (db w) contact_id = Some contact ->
    (forall other, In other (contacts (db w)) ->
                   Contact.id other <> contact_id ->
                   Contact.email other <> Py.strip (form_get (form rq) "email" "")) ->
    all_numbers contact = true ->
    no_nan (form rq) ->
    rating_fits (form rq) ->
    exists contact',
      fst (edit_contact contact_id rq w) = Redirect (Url_view_contact contact_id) /\
      get_contact (db (snd (edit_contact contact_id rq w))) contact_id
        = Some contact' /\
      Contact.id contact' = contact_id /\
      Contact.created_at contact' = Contact.created_at contact /\
      Contact.first_name contact' = Py.strip (form_get (form rq) "first_name" "") /\
      Contact.last_name contact' = Py.strip (form_get (form rq) "last_name" "") /\
      Contact.email contact' = Py.strip (form_get (form rq) "email" "") /\
      Contact.phone contact' = Some (Py.strip (form_get (form rq) "phone" "")) /\
      (form_lookup (form rq) "first_name" = None ->
       Contact.first_name contact' = "") /\
      (forall k, k <> contact_id ->
                 get_contact (db (snd (edit_contact contact_id rq w))) k
                 = get_contact (db w) k).
Proof.
  intros contact_id rq w contact user Hpost Huser Hrole Hc Hfree Hnum Hnan Hfit.
  pose proof (get_contact_id _ _ _ Hc) as Hid.
  destruct (edit_contact_accepted contact_id rq w contact user Hpost Huser
              Hrole Hc Hfree Hnum Hnan Hfit)
    as (y1 & y2 & y3 & y4 & Hrun & Hget & _).
  cbv zeta in Hrun, Hget.
  exists (edited_row (form rq) contact y1 y2 y3 y4).
  split; [rewrite Hrun; reflexivity|]. split; [exact Hget|].
  split; [exact Hid|].
  repeat (split; [reflexivity|]).
  split.
  - intro Hnone. cbn [edited_row Contact.first_name]. unfold form_get.
    rewrite Hnone. reflexivity.
  - intros k Hk. rewrite Hrun. unfold get_contact.
    cbn [db snd flash contacts].
    apply find_other_after_update; [exact Hid | exact Hk].
Qed.

Lemma calls_reschedule :
  forall now s w, calls (reschedule now s w) = calls w.
Proof.
  intros now s w. destruct (reschedule_cases now s w) as [H|H]; rewrite H;
    reflexivity.
Qed.

(** Deleting a contact that has no logged Message: the contact is gone,
    every other contact, the ScheduledEmail rows and the armed timers are
    as they were.  A timer callback that runs afterwards for an entry of
    the deleted contact calls no sender. *)
Theorem delete_contact_keeps_schedules :
  forall (contact_id : Z) (rq : Request) (w : World)
         (contact : Contact.t pyfloat) (user : User.t),
    method rq = POST ->
    g_user rq = Some user ->
    Py.mem (Py.lower (User.role user)) ["master"; "management"] = true ->
    get_contact (db w) contact_id = Some contact ->
    (forall m, In m (messages (db w)) -> Message.contact_id m <> contact_id) ->
    fst (delete_contact contact_id rq w) = Redirect Url_list_contacts /\
    get_contact (db (snd (delete_contact contact_id rq w))) contact_id = None /\
    (forall k, k <> contact_id ->
               get_contact (db (snd (delete_contact contact_id rq w))) k
               = get_contact (db w) k) /\
    scheduled_emails (db (snd (delete_contact contact_id rq w)))
      = scheduled_emails (db w) /\
    timers (snd (delete_contact contact_id rq w)) = timers w /\
    (forall E now sid s,
        get_scheduled (db w) sid = Some s ->
        ScheduledEmail.contact_id s = contact_id ->
        calls (send_and_reschedule E now sid
                 (snd (delete_contact contact_id rq w)))
        = calls w).
Proof.
  intros contact_id rq w contact user Hpost Huser Hrole Hc Hnomsg.
  pose proof (get_contact_id _ _ _ Hc) as Hid.
  unfold delete_contact. rewrite Hpost.
  rewrite (gate_passes ["master"; "management"] _ _ _ user Huser Hrole).
  unfold delete_contact_view. rewrite Hc. unfold remove_contact.
  rewrite existsb_false_intro
    by (intros m Hm; apply Z.eqb_neq; rewrite Hid; apply Hnomsg; exact Hm).
  cbn [fst snd].
  assert (Hgone : forall k,
    get_contact
      (mkDatabase pyfloat
         (filter (fun r => negb (Contact.id r =? Contact.id contact))
                 (contacts (db w)))
         (messages (db w)) (users (db w)) (scheduled_emails (db w))) k
    = if k =? contact_id then None else get_contact (db w) k).
  { intro k. unfold get_contact. cbn [contacts].
    rewrite find_after_remove, Hid. reflexivity. }
  split; [reflexivity|]. split.
  { cbn [db flash set_db]. rewrite Hgone, Z.eqb_refl. reflexivity. }
  split.
  { intros k Hk. cbn [db flash set_db]. rewrite Hgone.
    replace (k =? contact_id) with false by (symmetry; apply Z.eqb_neq; exact Hk).
    reflexivity. }
  split; [reflexivity|]. split; [reflexivity|].
  intros E now sid s Hs Hcid.
  rewrite (fire_contact_absent E now sid _ s).
  - rewrite calls_reschedule. reflexivity.
  - exact Hs.
  - cbn [db flash set_db]. rewrite Hgone, Hcid, Z.eqb_refl. reflexivity.
Qed.

(** ** Sending and scheduling messages *)

Lemma send_message_post :
  forall E contact_id rq w contact user,
    method rq = POST ->
    g_user rq = Some user ->
    get_contact (db w) contact_id = Some contact ->
    send_message_route E contact_id rq w
    = send_message_view E contact_id rq w.
Proof.
  intros E contact_id rq w contact user Hpost Huser Hc.
  unfold send_message_route, login_required. rewrite Huser. reflexivity.
Qed.

Lemma not_a_test :
  forall f,
    form_lookup f "send_test" <> Some "1" ->
    match form_lookup f "send_test" with
    | Some v => (v =? "1")%string
    | None => false
    end = false.
Proof.
  intros f H. destruct (form_lookup f "send_test") as [v|]; [|reflexivity].
  apply String.eqb_neq. intro Hv. apply H. rewrite Hv. reflexivity.
Qed.

(** A POST to [/message/new/<id>] without a channel, with a channel other
    than [email] and [sms], or with a blank body is answered with the form
    and one [danger] message; nothing is sent, stored or scheduled. *)
Theorem send_message_requires_channel_and_body :
  forall (E : Env) (contact_id : Z) (rq : Request) (w : World)
         (contact : Contact.t pyfloat) (user : User.t),
    method rq = POST ->
    g_user rq = Some user ->
    get_contact (db w) contact_id = Some contact ->
    (form_lookup (form rq) "channel" <> Some "email"
     /\ form_lookup (form rq) "channel" <> Some "sms")
    \/ Py.strip (form_get (form rq) "body" "") = "" ->
    send_message_route E contact_id rq w
      = (Render "message_form.html" (Some contact),
         flash "Please choose a valid channel and provide a message body."
               "danger" w).
Proof.
  intros E contact_id rq w contact user Hpost Huser Hc Hbad.
  rewrite (send_message_post E _ _ _ _ _ Hpost Huser Hc).
  unfold send_message_view. rewrite Hc, Hpost.
  destruct (form_lookup (form rq) "channel") as [channel|]; [|reflexivity].
  replace (negb (Py.mem channel ["email"; "sms"])
           || negb (Py.truthy (Py.strip (form_get (form rq) "body" ""))))
    with true; [reflexivity|].
  symmetry. destruct Hbad as [[He Hs]|Hb].
  - replace (Py.mem channel ["email"; "sms"]) with false; [reflexivity|].
    symmetry. unfold Py.mem. cbn [existsb].
    replace (channel =? "email")%string with false
      by (symmetry; apply String.eqb_neq; congruence).
    replace (channel =? "sms")%string with false
      by (symmetry; apply String.eqb_neq; congruence).
    reflexivity.
  - rewrite Hb. cbn. apply orb_true_r.
Qed.

(** A test send ([send_test=1]) records nothing: whatever the channel, the
    fields and the outcome of the sender, the database and the armed timers
    are as they were. *)
Theorem test_send_records_nothing :
  forall (E : Env) (contact_id : Z) (rq : Request) (w : World),
    form_lookup (form rq) "send_test" = Some "1" ->
    db (snd (send_message_route E contact_id rq w)) = db w /\
    timers (snd (send_message_route E contact_id rq w)) = timers w.
Proof.
  intros E contact_id rq w Htest.
  unfold send_message_route, login_required.
  destruct (g_user rq); [|split; reflexivity].
  unfold send_message_view.
  destruct (get_contact (db w) contact_id) as [contact|]; [|split; reflexivity].
  destruct (method rq); [split; reflexivity|].
  rewrite Htest. change ("1" =? "1")%string with true. cbv iota.
  destruct (form_lookup (form rq) "channel") as [channel|];
    [|split; reflexivity].
  destruct (negb _ || negb _); [split; reflexivity|].
  destruct (channel =? "email")%string.
  - destruct (negb _); [split; reflexivity|].
    unfold call_send_email. destruct (send_email _ _ _ _ _) as [out [[]|e]];
      split; reflexivity.
  - unfold call_send_sms. destruct (send_sms _ _ _ _ _) as [out [[]|e]];
      split; reflexivity.
Qed.

(** An immediate email (a subject, a body, no test flag, no [start_at]):
    [send_email] is called once with the email of the contact; a Message
    with the subject, the body and the time of the request is logged when
    it returns [True], and the database is left as it was when it returns
    [False].  No timer is armed either way. *)
Theorem immediate_email_is_logged_iff_sent :
  forall (E : Env) (contact_id : Z) (rq : Request) (w : World)
         (contact : Contact.t pyfloat) (user : User.t)
         (out : list string) (sent : bool),
    method rq = POST ->
    g_user rq = Some user ->
    get_contact (db w) contact_id = Some contact ->
    form_lookup (form rq) "channel" = Some "email" ->
    form_lookup (form rq) "send_test" <> Some "1" ->
    form_get (form rq) "start_at" "" = "" ->
    Py.strip (form_get (form rq) "subject" "") <> "" ->
    Py.strip (form_get (form rq) "body" "") <> "" ->
    send_email (environ E) (stdout E) (smtp E (List.length (calls w)))
               (Contact.email contact)
               (Py.strip (form_get (form rq) "subject" ""))
               (Py.strip (form_get (form rq) "body" "")) = (out, Returned sent) ->
    fst (send_message_route E contact_id rq w)
      = Redirect (Url_view_contact contact_id) /\
    calls (snd (send_message_route E contact_id rq w))
      = (calls w ++ [EmailCall (req_time rq) (Contact.email contact)
                       (Py.strip (form_get (form rq) "subject" ""))
                       (Py.strip (form_get (form rq) "body" ""))])%list /\
    timers (snd (send_message_route E contact_id rq w)) = timers w /\
    db (snd (send_message_route E contact_id rq w))
      = (if sent then
           insert_message
             (Message.mk (next_id (map Message.id (messages (db w))))
                         contact_id "email"
                         (Some (Py.strip (form_get (form rq) "subject" "")))
                         (Py.strip (form_get (form rq) "body" ""))
                         (req_time rq))
             (db w)
         else db w).
Proof.
  intros E contact_id rq w contact user out sent Hpost Huser Hc Hch Htest
         Hstart Hsubj Hbody Hsend.
  pose proof (get_contact_id _ _ _ Hc) as Hid.
  rewrite (send_message_post E _ _ _ _ _ Hpost Huser Hc).
  unfold send_message_view. rewrite Hc, Hpost, Hch, (not_a_test _ Htest), Hstart.
  apply truthy_true in Hsubj, Hbody. rewrite Hsubj, Hbody.
  change (Py.mem "email" ["email"; "sms"]) with true.
  change (Py.truthy "") with false.
  change ("email" =? "email")%string with true.
  cbn [negb orb andb]. unfold call_send_email. rewrite Hsend.
  unfold finish_send. rewrite Hid.
  destruct sent; repeat split.
Qed.

(** An SMS is never scheduled.  With channel [sms] and a body, the SMS
    sender is called at once whatever [start_at] holds; no ScheduledEmail
    is stored and no timer armed; a Message without subject is logged when
    the sender returns [True], and nothing is written when it returns
    [False]. *)
Theorem sms_is_sent_at_once :
  forall (E : Env) (contact_id : Z) (rq : Request) (w : World)
         (contact : Contact.t pyfloat) (user : User.t)
         (out : list string) (sent : bool),
    method rq = POST ->
    g_user rq = Some user ->
    get_contact (db w) contact_id = Some contact ->
    form_lookup (form rq) "channel" = Some "sms" ->
    form_lookup (form rq) "send_test" <> Some "1" ->
    Py.strip (form_get (form rq) "body" "") <> "" ->
    send_sms (environ E) (stdout E) (twilio_installed E)
             (twilio E (List.length (calls w)))
             (phone_or_empty contact)
             (Py.strip (form_get (form rq) "body" "")) = (out, Returned sent) ->
    fst (send_message_route E contact_id rq w)
      = Redirect (Url_view_contact contact_id) /\
    timers (snd (send_message_route E contact_id rq w)) = timers w /\
    db (snd (send_message_route E contact_id rq w))
      = (if sent then
           insert_message
             (Message.mk (next_id (map Message.id (messages (db w))))
                         contact_id "sms" None
                         (Py.strip (form_get (form rq) "body" ""))
                         (req_time rq))
             (db w)
         else db w).
Proof.
  intros E contact_id rq w contact user out sent Hpost Huser Hc Hch Htest
         Hbody Hsend.
  pose proof (get_contact_id _ _ _ Hc) as Hid.
  rewrite (send_message_post E _ _ _ _ _ Hpost Huser Hc).
  unfold send_message_view. rewrite Hc, Hpost, Hch, (not_a_test _ Htest).
  apply truthy_true in Hbody. rewrite Hbody.
  change (Py.mem "sms" ["email"; "sms"]) with true.
  change ("sms" =? "email")%string with false.
  cbn [negb orb]. rewrite andb_false_r.
  unfold call_send_sms. rewrite Hsend.
  unfold finish_send. rewrite Hid.
  destruct sent; repeat split.
Qed.

(** A scheduling request (channel [email], a body, no test flag, a
    [start_at] field that is not empty) whose [start_at] is not a date, or
    whose [end_at] is given and is not a date, is answered with the form
    and one [danger] message: no ScheduledEmail is stored, no timer armed,
    nothing sent. *)
Theorem scheduling_rejects_bad_dates :
  forall (E : Env) (contact_id : Z) (rq : Request) (w : World)
         (contact : Contact.t pyfloat) (user : User.t),
    method rq = POST ->
    g_user rq = Some user ->
    get_contact (db w) contact_id = Some contact ->
    form_lookup (form rq) "channel" = Some "email" ->
    form_lookup (form rq) "send_test" <> Some "1" ->
    Py.strip (form_get (form rq) "body" "") <> "" ->
    form_get (form rq) "start_at" "" <> "" ->
    fromisoformat (form_get (form rq) "start_at" "") = None
    \/ (form_get (form rq) "end_at" "" <> ""
        /\ fromisoformat (form_get (form rq) "end_at" "") = None) ->
    fst (send_message_route E contact_id rq w)
      = Render "message_form.html" (Some contact) /\
    exists message,
      snd (send_message_route E contact_id rq w) = flash message "danger" w.
Proof.
  intros E contact_id rq w contact user Hpost Huser Hc Hch Htest Hbody Hstart
         Hbad.
  rewrite (send_message_post E _ _ _ _ _ Hpost Huser Hc).
  unfold send_message_view. rewrite Hc, Hpost, Hch, (not_a_test _ Htest).
  apply truthy_true in Hbody, Hstart. rewrite Hbody, Hstart.
  change (Py.mem "email" ["email"; "sms"]) with true.
  change ("email" =? "email")%string with true.
  cbn [negb orb andb].
  destruct (fromisoformat (form_get (form rq) "start_at" "")) as [t|] eqn:Ht.
  - destruct Hbad as [H|[Hend Hbad]]; [discriminate|].
    apply truthy_true in Hend. rewrite Hend, Hbad. cbn [option_map].
    split; [reflexivity|]. eexists; reflexivity.
  - split; [reflexivity|]. eexists; reflexivity.
Qed.

(** A scheduling request with dates that parse: one ScheduledEmail is
    stored for the contact, not yet sent, recurring exactly when the
    [recurring] field is [on]; one timer is started for it, with the
    delay from the request to [start_at], or none when [start_at] is
    already past; no sender is called during the request. *)
Theorem scheduling_stores_entry_and_arms_timer :
  forall (E : Env) (contact_id : Z) (rq : Request) (w : World)
         (contact : Contact.t pyfloat) (user : User.t)
         (start_at : Z) (end_at : option Z),
    method rq = POST ->
    g_user rq = Some user ->
    get_contact (db w) contact_id = Some contact ->
    form_lookup (form rq) "channel" = Some "email" ->
    form_lookup (form rq) "send_test" <> Some "1" ->
    Py.strip (form_get (form rq) "body" "") <> "" ->
    form_get (form rq) "start_at" "" <> "" ->
    fromisoformat (form_get (form rq) "start_at" "") = Some start_at ->
    match end_at with
    | Some e => form_get (form rq) "end_at" "" <> "" /\
                fromisoformat (form_get (form rq) "end_at" "") = Some e
    | None => form_get (form rq) "end_at" "" = ""
    end ->
    let sid := next_id (map ScheduledEmail.id (scheduled_emails (db w))) in
    fst (send_message_route E contact_id rq w)
      = Redirect (Url_view_contact contact_id) /\
    db (snd (send_message_route E contact_id rq w))
      = insert_scheduled
          (ScheduledEmail.mk sid contact_id
             (Py.strip (form_get (form rq) "subject" ""))
             (Py.strip (form_get (form rq) "body" ""))
             start_at end_at
             (form_get (form rq) "recurring" "" =? "on")%string None)
          (db w) /\
    timers (snd (send_message_route E contact_id rq w))
      = (timers w ++ [mkTimer (Z.max start_at (req_time rq)) sid
                              (Z.max (start_at - req_time rq) 0)])%list /\
    calls (snd (send_message_route E contact_id rq w)) = calls w.
Proof.
  intros E contact_id rq w contact user start_at end_at Hpost Huser Hc Hch
         Htest Hbody Hstart Ht Hend sid.
  pose proof (get_contact_id _ _ _ Hc) as Hid.
  rewrite (send_message_post E _ _ _ _ _ Hpost Huser Hc).
  unfold send_message_view. rewrite Hc, Hpost, Hch, (not_a_test _ Htest).
  apply truthy_true in Hbody, Hstart. rewrite Hbody, Hstart, Ht.
  change (Py.mem "email" ["email"; "sms"]) with true.
  change ("email" =? "email")%string with true.
  cbn [negb orb andb].
  assert (He : (if Py.truthy (form_get (form rq) "end_at" "")
                then option_map Some
                       (fromisoformat (form_get (form rq) "end_at" ""))
                else Some None) = Some end_at).
  { destruct end_at as [e|].
    - destruct Hend as [Hne He]. apply truthy_true in Hne.
      rewrite Hne, He. reflexivity.
    - rewrite Hend. reflexivity. }
  rewrite He. fold sid. rewrite Hid.
  split; [reflexivity|]. split; [reflexivity|]. split; [|reflexivity].
  cbn [snd flash timers]. rewrite schedule_email_job_armed. reflexivity.
Qed.

(** ** The scheduler over the whole life of an entry *)

Lemma fire_then_stop :
  forall E now sid w s c,
    get_scheduled (db w) sid = Some s ->
    get_contact (db w) (ScheduledEmail.contact_id s) = Some c ->
    port_ok (environ E) = true ->
    prints_all (stdout E) ->
    (ScheduledEmail.recurring s = false \/
     exists e, ScheduledEmail.end_at s = Some e /\
               e < ScheduledEmail.start_at s + one_day) ->
    exists out,
      send_and_reschedule E now sid w =
      set_db (put_scheduled (ScheduledEmail.set_sent_at (Some now) s) (db w))
        (record_call (EmailCall now (Contact.email c)
                        (ScheduledEmail.subject s) (ScheduledEmail.body s))
                     out w).
Proof.
  intros E now sid w s c Hs Hc Hport Hprint Hstop.
  destruct (fire_contact_present E now sid w s c Hs Hc Hport Hprint)
    as [out Hf].
  exists out. rewrite Hf. unfold reschedule.
  cbn [ScheduledEmail.recurring ScheduledEmail.set_sent_at
       ScheduledEmail.end_at ScheduledEmail.start_at].
  destruct Hstop as [Hr|(e & He & Hlt)].
  - rewrite Hr. reflexivity.
  - rewrite He. apply Z.leb_gt in Hlt. rewrite Hlt.
    destruct (ScheduledEmail.recurring s); reflexivity.
Qed.

(** An entry that is not recurring is sent once and never again.
    Scheduled at [now] with no other timer armed, for a contact that
    exists, in an environment in which [send_email] returns ([SMTP_PORT]
    unset or an integer literal, a standard output that takes every text)
    and a timer can wait until [start_at]: the one call of [send_email] is
    made at [start_at], or at once when [start_at] is already past;
    [sent_at] holds that time, the other columns are untouched and no
    timer is left afterwards, whatever [end_at] is. *)
Theorem one_shot_entry_is_sent_once :
  forall (E : Env) (w : World) (scheduled : ScheduledEmail.t)
         (contact : Contact.t pyfloat) (now : Z) (n : nat),
    get_scheduled (db w) (ScheduledEmail.id scheduled) = Some scheduled ->
    get_contact (db w) (ScheduledEmail.contact_id scheduled) = Some contact ->
    timers w = [] ->
    port_ok (environ E) = true ->
    prints_all (stdout E) ->
    ScheduledEmail.start_at scheduled - now <= timeout_max E ->
    0 <= timeout_max E ->
    ScheduledEmail.recurring scheduled = false ->
    let at_ := Z.max (ScheduledEmail.start_at scheduled) now in
    let w' := run_timers E (S n) (schedule_email_job now scheduled w) in
    calls w'
      = (calls w ++ [EmailCall at_ (Contact.email contact)
                       (ScheduledEmail.subject scheduled)
                       (ScheduledEmail.body scheduled)])%list /\
    (exists s',
        get_scheduled (db w') (ScheduledEmail.id scheduled) = Some s' /\
        ScheduledEmail.sent_at s' = Some at_ /\
        ScheduledEmail.start_at s' = ScheduledEmail.start_at scheduled /\
        ScheduledEmail.end_at s' = ScheduledEmail.end_at scheduled /\
        ScheduledEmail.recurring s' = false) /\
    timers w' = [] /\
    uncaught w' = uncaught w.
Proof.
  intros E w scheduled contact now n Hs Hc Ht Hport Hprint Hwait Hmax Hrec
         at_ w'.
  set (t0 := mkTimer at_ (ScheduledEmail.id scheduled)
                     (Z.max (ScheduledEmail.start_at scheduled - now) 0)).
  assert (H0 : schedule_email_job now scheduled w = set_timers [t0] w).
  { rewrite schedule_email_job_armed, Ht. reflexivity. }
  destruct (fire_then_stop E at_ (ScheduledEmail.id scheduled)
              (set_timers [] w) scheduled contact Hs Hc Hport Hprint
              (or_introl Hrec)) as [out Hf].
  assert (H1 : w' =
    set_db (put_scheduled (ScheduledEmail.set_sent_at (Some at_) scheduled)
                          (db w))
      (record_call (EmailCall at_ (Contact.email contact)
                      (ScheduledEmail.subject scheduled)
                      (ScheduledEmail.body scheduled)) out (set_timers [] w))).
  { unfold w'. rewrite H0.
    rewrite (run_timers_single E n _ t0) by (try reflexivity; cbn [delay t0]; lia).
    cbn [due job t0].
    change (set_timers [] (set_timers [t0] w)) with (set_timers [] w).
    rewrite Hf. apply run_timers_idle. reflexivity. }
  rewrite H1. split; [reflexivity|]. split; [|split; reflexivity].
  exists (ScheduledEmail.set_sent_at (Some at_) scheduled).
  split; [cbn [db set_db]; eapply get_scheduled_put; eauto|].
  cbn [ScheduledEmail.sent_at ScheduledEmail.start_at ScheduledEmail.end_at
       ScheduledEmail.recurring ScheduledEmail.set_sent_at].
  auto.
Qed.

(** The runs of the callback of a recurring entry with an end, from a
    world in which its timer is the only one left. *)
Lemma recurring_runs :
  forall (E : Env) (sid now0 e : Z) (c : Contact.t pyfloat) (k : nat)
         (w : World) (s : ScheduledEmail.t) (t : Timer) (n : nat),
    get_scheduled (db w) sid = Some s ->
    get_contact (db w) (ScheduledEmail.contact_id s) = Some c ->
    port_ok (environ E) = true ->
    prints_all (stdout E) ->
    one_day <= timeout_max E ->
    ScheduledEmail.recurring s = true ->
    ScheduledEmail.end_at s = Some e ->
    timers w = [t] ->
    due t = Z.max (ScheduledEmail.start_at s) now0 ->
    job t = sid ->
    delay t <= timeout_max E ->
    ((0 < k)%nat -> ScheduledEmail.start_at s + Z.of_nat k * one_day <= e) ->
    e < ScheduledEmail.start_at s + (Z.of_nat k + 1) * one_day ->
    let w' := run_timers E (S k + n) w in
    calls w'
      = (calls w
         ++ map (fun t => EmailCall (Z.max t now0) (Contact.email c)
                            (ScheduledEmail.subject s) (ScheduledEmail.body s))
                (daily (S k) (ScheduledEmail.start_at s)))%list /\
    (exists s',
        get_scheduled (db w') sid = Some s' /\
        ScheduledEmail.start_at s'
          = ScheduledEmail.start_at s + Z.of_nat k * one_day /\
        ScheduledEmail.sent_at s'
          = Some (Z.max (ScheduledEmail.start_at s + Z.of_nat k * one_day) now0))
    /\ timers w' = [] /\ uncaught w' = uncaught w.
Proof.
  intros E sid now0 e c k. induction k as [|k IH];
    intros w s t n Hs Hc Hport Hprint Hday Hrec Hend Ht Hdue Hjob Hdelay
           Hlow Hhigh w';
    pose proof (get_scheduled_id _ _ _ Hs) as Hid;
    set (T0 := Z.max (ScheduledEmail.start_at s) now0) in *.
  - (* the window closes after the first run *)
    destruct (fire_then_stop E T0 sid (set_timers [] w) s c Hs Hc Hport Hprint)
      as [out Hf].
    { right. exists e. split; [exact Hend|]. unfold one_day in *. lia. }
    assert (H1 : w' =
      set_db (put_scheduled (ScheduledEmail.set_sent_at (Some T0) s) (db w))
        (record_call (EmailCall T0 (Contact.email c) (ScheduledEmail.subject s)
                        (ScheduledEmail.body s)) out (set_timers [] w))).
    { unfold w'. cbn [Nat.add]. rewrite (run_timers_single E n w _ Ht Hdelay).
      rewrite Hdue, Hjob, Hf. apply run_timers_idle. reflexivity. }
    rewrite H1. split; [reflexivity|]. split; [|split; reflexivity].
    eexists. split.
    + cbn [db set_db]. eapply get_scheduled_put; eauto.
    + cbn [ScheduledEmail.start_at ScheduledEmail.sent_at
           ScheduledEmail.set_sent_at]. split; [lia|].
      f_equal. unfold T0. f_equal. lia.
  - (* the window is open: the entry moves one day on and runs again *)
    set (s1 := ScheduledEmail.set_sent_at (Some T0) s).
    set (s2 := ScheduledEmail.set_start_at
                 (ScheduledEmail.start_at s + one_day) s1).
    destruct (fire_contact_present E T0 sid (set_timers [] w) s c Hs Hc Hport
                Hprint) as [out Hf].
    fold s1 in Hf.
    assert (Hopen : ScheduledEmail.start_at s + one_day <= e).
    { assert (0 < S k)%nat as Hpos by lia. specialize (Hlow Hpos).
      unfold one_day in *. lia. }
    rewrite reschedule_window_open in Hf;
      [|exact Hrec|cbn; rewrite Hend; exact Hopen].
    change (ScheduledEmail.start_at s1) with (ScheduledEmail.start_at s) in Hf.
    change (ScheduledEmail.id s1) with (ScheduledEmail.id s) in Hf.
    fold s2 in Hf.
    set (w1 := send_and_reschedule E T0 sid (set_timers [] w)) in *.
    set (t1 := mkTimer (T0 + Z.max (ScheduledEmail.start_at s + one_day - T0) 0)
                       (ScheduledEmail.id s)
                       (Z.max (ScheduledEmail.start_at s + one_day - T0) 0)).
    assert (Hs2 : get_scheduled (db w1) sid = Some s2).
    { rewrite Hf. cbn [db arm set_timers set_db].
      eapply get_scheduled_put; [|exact Hid].
      eapply get_scheduled_put; eauto. }
    assert (Hc2 : get_contact (db w1) (ScheduledEmail.contact_id s2) = Some c).
    { rewrite Hf. exact Hc. }
    assert (Ht2 : timers w1 = [t1]).
    { rewrite Hf. reflexivity. }
    assert (Hcalls : calls w1
                     = (calls w ++ [EmailCall T0 (Contact.email c)
                                      (ScheduledEmail.subject s)
                                      (ScheduledEmail.body s)])%list).
    { rewrite Hf. reflexivity. }
    assert (Hun : uncaught w1 = uncaught w).
    { rewrite Hf. reflexivity. }
    assert (Hstart2 : ScheduledEmail.start_at s2
                      = ScheduledEmail.start_at s + one_day) by reflexivity.
    destruct (IH w1 s2 t1 n Hs2 Hc2 Hport Hprint Hday Hrec Hend Ht2)
      as (Hc' & Hr' & Ht' & Hu').
    { cbn [due t1]. rewrite Hstart2. unfold T0, one_day. lia. }
    { cbn [job t1]. exact Hid. }
    { cbn [delay t1]. unfold T0, one_day in *. lia. }
    { intros Hpos. rewrite Hstart2.
      assert (0 < S k)%nat as Hpos' by lia. specialize (Hlow Hpos').
      unfold one_day in *. lia. }
    { rewrite Hstart2. unfold one_day in *. lia. }
    assert (Hw' : w' = run_timers E (S k + n) w1).
    { unfold w'. change (S (S k) + n)%nat with (S (S k + n)).
      rewrite (run_timers_single E (S k + n) w _ Ht Hdelay).
      rewrite Hdue, Hjob. reflexivity. }
    rewrite Hw'. split; [|split; [|split]].
    + rewrite Hc', Hcalls, <- app_assoc. reflexivity.
    + destruct Hr' as (s' & Hs' & Hst' & Hsent').
      exists s'. split; [exact Hs'|]. rewrite Hst', Hsent', Hstart2.
      split; [unfold one_day; lia|]. f_equal. f_equal. unfold one_day. lia.
    + exact Ht'.
    + rewrite Hu'. exact Hun.
Qed.

(** The days [daily] lists, counted in microseconds. *)
Lemma daily_days :
  forall (A : Type) (g : Z -> A) n t,
    map g (daily n t)
    = map (fun i => g (t + Z.of_nat i * 86400000000)) (seq 0 n).
Proof.
  intros A g n. induction n as [|n IH]; intro t; [reflexivity|].
  cbn [daily map seq]. rewrite IH, <- seq_shift, map_map.
  f_equal; [f_equal; lia|].
  apply map_ext. intro i. f_equal. unfold one_day. lia.
Qed.

(** The whole life of a recurring entry with an end.  Scheduled at [now]
    with no other timer armed, for a contact that exists, in an
    environment in which [send_email] returns and a timer can wait until
    [start_at] and for a day (86400000000 microseconds), an entry with
    [start_at + k days <= end_at < start_at + (k+1) days] is sent exactly
    [k+1] times, for the days [start_at], [start_at + 1 day], ..., each run
    as soon as it is due (so that runs already due when the entry is
    scheduled late follow one another at [now]); then no timer is left,
    [start_at] is [k] days on and [sent_at] is the time of the last run.
    An [end_at] before [start_at + 1 day], even one before [start_at],
    gives one send. *)
Theorem recurring_entry_is_sent_once_a_day_until_end :
  forall (E : Env) (w : World) (scheduled : ScheduledEmail.t)
         (contact : Contact.t pyfloat) (now e : Z) (k n : nat),
    get_scheduled (db w) (ScheduledEmail.id scheduled) = Some scheduled ->
    get_contact (db w) (ScheduledEmail.contact_id scheduled) = Some contact ->
    timers w = [] ->
    port_ok (environ E) = true ->
    prints_all (stdout E) ->
    ScheduledEmail.start_at scheduled - now <= timeout_max E ->
    86400000000 <= timeout_max E ->
    ScheduledEmail.recurring scheduled = true ->
    ScheduledEmail.end_at scheduled = Some e ->
    ((0 < k)%nat ->
     ScheduledEmail.start_at scheduled + Z.of_nat k * 86400000000 <= e) ->
    e < ScheduledEmail.start_at scheduled + (Z.of_nat k + 1) * 86400000000 ->
    let w' := run_timers E (S k + n) (schedule_email_job now scheduled w) in
    calls w'
      = (calls w
         ++ map (fun i =>
                   EmailCall
                     (Z.max (ScheduledEmail.start_at scheduled
                             + Z.of_nat i * 86400000000) now)
                     (Contact.email contact)
                     (ScheduledEmail.subject scheduled)
                     (ScheduledEmail.body scheduled))
                (seq 0 (S k)))%list /\
    (exists s',
        get_scheduled (db w') (ScheduledEmail.id scheduled) = Some s' /\
        ScheduledEmail.start_at s'
          = ScheduledEmail.start_at scheduled + Z.of_nat k * 86400000000 /\
        ScheduledEmail.sent_at s'
          = Some (Z.max (ScheduledEmail.start_at scheduled
                         + Z.of_nat k * 86400000000) now)) /\
    timers w' = [] /\
    uncaught w' = uncaught w.
Proof.
  intros E w scheduled contact now e k n Hs Hc Ht Hport Hprint Hwait Hday
         Hrec Hend Hlow Hhigh w'.
  set (t0 := mkTimer (Z.max (ScheduledEmail.start_at scheduled) now)
                     (ScheduledEmail.id scheduled)
                     (Z.max (ScheduledEmail.start_at scheduled - now) 0)).
  assert (H0 : schedule_email_job now scheduled w = set_timers [t0] w).
  { rewrite schedule_email_job_armed, Ht. reflexivity. }
  unfold w'. rewrite H0.
  destruct (recurring_runs E (ScheduledEmail.id scheduled) now e contact k
              (set_timers [t0] w) scheduled t0 n Hs Hc Hport Hprint Hday Hrec
              Hend eq_refl eq_refl eq_refl)
    as (Hcalls & Hrow & Htimers & Hun).
  - cbn [delay t0]. lia.
  - exact Hlow.
  - exact Hhigh.
  - split; [|split; [|split]].
    + rewrite Hcalls. f_equal.
      apply (daily_days _
               (fun t => EmailCall (Z.max t now) (Contact.email contact)
                           (ScheduledEmail.subject scheduled)
                           (ScheduledEmail.body scheduled))).
    + exact Hrow.
    + exact Htimers.
    + exact Hun.
Qed.

(** ** Requests that write nothing *)

(** A request without a logged-in user to a protected route is answered
    with the redirect to the login page and changes nothing at all
    ([delete_contact] answers 405 to a GET before that). *)
Theorem anonymous_requests_are_redirected :
  forall (E : Env) (contact_id : Z) (rq : Request) (w : World),
    g_user rq = None ->
    create_contact rq w = (Redirect Url_login, w) /\
    edit_contact contact_id rq w = (Redirect Url_login, w) /\
    send_message_route E contact_id rq w = (Redirect Url_login, w) /\
    create_user rq w = (Redirect Url_login, w) /\
    (method rq = POST ->
     delete_contact contact_id rq w = (Redirect Url_login, w)).
Proof.
  intros E contact_id rq w Hanon.
  unfold create_contact, edit_contact, send_message_route, create_user,
    delete_contact, login_required.
  rewrite Hanon. repeat split. intros ->. reflexivity.
Qed.

(** A GET request writes nothing: whoever sends it, the database, the
    armed timers, the sender calls and the summary files are as they
    were. *)
Theorem get_requests_write_nothing :
  forall (E : Env) (contact_id : Z) (session : Session) (rq : Request)
         (w : World),
    method rq = GET ->
    let unchanged (w' : World) :=
      db w' = db w /\ timers w' = timers w /\ calls w' = calls w /\
      summaries w' = summaries w in
    unchanged (snd (create_contact rq w)) /\
    unchanged (snd (edit_contact contact_id rq w)) /\
    unchanged (snd (delete_contact contact_id rq w)) /\
    unchanged (snd (send_message_route E contact_id rq w)) /\
    unchanged (snd (create_user rq w)) /\
    unchanged (snd (fst (login session rq w))) /\
    snd (login session rq w) = session.
Proof.
  intros E contact_id session rq w Hget unchanged.
  assert (Hgate : forall roles (view : View),
             (forall w0, unchanged w0 -> unchanged (snd (view rq w0))) ->
             unchanged (snd (login_required (role_required roles view) rq w))).
  { intros roles view Hview.
    destruct (gate_blocks roles view rq w) as [H|[H|H]]; rewrite H.
    - apply Hview. repeat split.
    - repeat split.
    - repeat split. }
  split; [|split; [|split; [|split; [|split; [|split]]]]].
  - apply Hgate. intros w0 Hw0. unfold create_contact_view.
    rewrite Hget. exact Hw0.
  - apply Hgate. intros w0 Hw0. unfold edit_contact_view.
    destruct (get_contact (db w0) contact_id); [|exact Hw0].
    rewrite Hget. exact Hw0.
  - unfold delete_contact. rewrite Hget. repeat split.
  - unfold send_message_route, login_required.
    destruct (g_user rq); [|repeat split].
    unfold send_message_view.
    destruct (get_contact (db w) contact_id); [|repeat split].
    rewrite Hget. repeat split.
  - apply Hgate. intros w0 Hw0. unfold create_user_view.
    rewrite Hget. exact Hw0.
  - unfold login. rewrite Hget. repeat split.
  - unfold login. rewrite Hget. reflexivity.
Qed.

(** ** The senders and their configuration *)

(** With a required setting missing, a sender never reaches its
    transport: the result does not depend on it, and it is [False]
    whenever the two lines it prints can be written.  The same holds for
    [send_sms] when the twilio package is not installed. *)
Theorem senders_need_configuration :
  forall (environ : Environ) (stdout : Stdout)
         (smtp smtp' : Transport SmtpSession)
         (twilio_installed : bool) (twilio twilio' : Transport TwilioCall)
         (to_ subject body : string),
    (port_ok environ = true ->
     smtp_configured environ = false ->
     send_email environ stdout smtp to_ subject body
       = send_email environ stdout smtp' to_ subject body /\
     (prints_all stdout ->
      snd (send_email environ stdout smtp to_ subject body) = Returned false)) /\
    (twilio_configured environ = false \/ twilio_installed = false ->
     send_sms environ stdout twilio_installed twilio to_ body
       = send_sms environ stdout twilio_installed twilio' to_ body /\
     (prints_all stdout ->
      snd (send_sms environ stdout twilio_installed twilio to_ body)
        = Returned false)).
Proof.
  intros environ stdout smtp smtp' twilio_installed twilio twilio'
         to_ subject body.
  split.
  - intros Hport Hconf. unfold port_ok in Hport.
    unfold smtp_configured in Hconf. unfold send_email.
    rewrite negb3_configured, Hconf. cbn [negb].
    destruct (environ "SMTP_PORT") as [p|].
    + destruct (Py.int p); [|discriminate]. split; [reflexivity|].
      intro Hprint. rewrite !print_written by apply Hprint. reflexivity.
    + split; [reflexivity|].
      intro Hprint. rewrite !print_written by apply Hprint. reflexivity.
  - intros Hmiss. unfold send_sms. rewrite negb3_configured.
    fold (twilio_configured environ).
    destruct (twilio_configured environ); cbn [negb].
    + destruct Hmiss as [H|H]; [discriminate|]. rewrite H. cbn [negb].
      split; [reflexivity|].
      intro Hprint. rewrite !print_written by apply Hprint. reflexivity.
    + split; [reflexivity|].
      intro Hprint. rewrite !print_written by apply Hprint. reflexivity.
Qed.

(** The SMTP session [send_email] opens when it is configured: one
    session, the same whatever the server answers, to the configured host
    on port [SMTP_PORT] (587 when unset), logged in as [SMTP_USERNAME],
    who is also the sender of the message.  When the server takes the
    message the result is [True] and nothing is printed; when it raises,
    the text of the exception is printed and the result is [False], unless
    that line cannot be written, in which case the exception of [print]
    leaves [send_email].  The session uses SSL exactly when
    [SMTP_USE_SSL] is [1], [true] or [yes] in any case or the port is
    465, and STARTTLS exactly when it does not use SSL and [SMTP_USE_TLS]
    is none of [0], [false], [no]: never both. *)
Theorem send_email_session :
  forall (environ : Environ) (stdout : Stdout) (to_ subject body : string),
    port_ok environ = true ->
    smtp_configured environ = true ->
    exists session,
      (forall smtp : Transport SmtpSession,
          send_email environ stdout smtp to_ subject body
          = match smtp session with
            | None => ([], Returned true)
            | Some e =>
                match stdout ("Email sending failed: " ++ e) with
                | None => (["Email sending failed: " ++ e], Returned false)
                | Some x => ([], Raised x)
                end
            end) /\
      environ "SMTP_SERVER" = Some (smtp_host session) /\
      environ "SMTP_USERNAME" = Some (smtp_login_user session) /\
      environ "SMTP_PASSWORD" = Some (smtp_login_password session) /\
      mail_from session = smtp_login_user session /\
      mail_to session = to_ /\ mail_subject session = subject /\
      mail_body session = body /\
      (environ "SMTP_PORT" = None -> smtp_port session = 587) /\
      (forall p n, environ "SMTP_PORT" = Some p -> Py.int p = Some n ->
                   smtp_port session = n) /\
      smtp_ssl session
        = (Py.mem (Py.lower (getenv environ "SMTP_USE_SSL" ""))
                  ["1"; "true"; "yes"]
           || (smtp_port session =? 465)) /\
      smtp_starttls session
        = (negb (Py.mem (Py.lower (getenv environ "SMTP_USE_TLS" "true"))
                        ["0"; "false"; "no"])
           && negb (smtp_ssl session)) /\
      smtp_ssl session && smtp_starttls session = false.
Proof.
  intros environ stdout to_ subject body Hport Hconf.
  unfold port_ok in Hport. unfold smtp_configured in Hconf.
  unfold send_email. rewrite negb3_configured, Hconf. cbn [negb].
  apply andb_prop in Hconf. destruct Hconf as [Hconf Hpw].
  apply andb_prop in Hconf. destruct Hconf as [Hsrv Husr].
  destruct (environ "SMTP_SERVER") as [srv|] eqn:Es; [|discriminate].
  destruct (environ "SMTP_USERNAME") as [usr|] eqn:Eu; [|discriminate].
  destruct (environ "SMTP_PASSWORD") as [pw|] eqn:Ep; [|discriminate].
  unfold getenv. rewrite Es, Eu, Ep.
  assert (Hp : exists n, match environ "SMTP_PORT" with
                         | Some s => Py.int s
                         | None => Some 587
                         end = Some n /\
                         (environ "SMTP_PORT" = None -> n = 587) /\
                         (forall p m, environ "SMTP_PORT" = Some p ->
                                      Py.int p = Some m -> n = m)).
  { destruct (environ "SMTP_PORT") as [p|].
    - destruct (Py.int p) as [n|] eqn:Hn; [|discriminate].
      exists n. split; [reflexivity|]. split; [discriminate|].
      intros p' m Hp' Hm. inversion Hp'; subst. congruence.
    - exists 587. split; [reflexivity|]. split; [reflexivity|discriminate]. }
  destruct Hp as (n & Hn & Hdef & Hset). rewrite Hn.
  eexists. split.
  { intro smtp. unfold print. cbn [fst snd]. reflexivity. }
  cbn [smtp_host smtp_login_user smtp_login_password mail_from mail_to
       mail_subject mail_body smtp_port smtp_ssl smtp_starttls].
  repeat (split; [reflexivity|]).
  split; [exact Hdef|]. split; [exact Hset|].
  split; [reflexivity|]. split; [reflexivity|].
  destruct (Py.mem _ ["1"; "true"; "yes"] || (n =? 465));
    [rewrite andb_false_r|]; reflexivity.
Qed.

(** ** Users, log-in and start-up *)

Lemma insert_user_returned :
  forall (u : User.t) (d d' : Database pyfloat),
    insert_user u d = Returned d' ->
    d' = mkDatabase pyfloat (contacts d) (messages d) (users d ++ [u])
                    (scheduled_emails d) /\
    ~ In (User.username u) (map User.username (users d)).
Proof.
  intros u d d' H. unfold insert_user in H.
  destruct (existsb _ (users d)) eqn:He; [discriminate|].
  inversion H. split; [reflexivity|].
  intro Hin. apply in_map_iff in Hin. destruct Hin as (r & Hr & Hin).
  pose proof (existsb_false_forall _ _ _ He r Hin) as Hf. cbv beta in Hf.
  rewrite Hr, String.eqb_refl in Hf. discriminate.
Qed.

Lemma mem_In : forall x xs, Py.mem x xs = true -> In x xs.
Proof.
  intros x xs H. unfold Py.mem in H. apply existsb_exists in H.
  destruct H as (y & Hin & Heq). apply String.eqb_eq in Heq. subst. exact Hin.
Qed.

Lemma create_user_db :
  forall rq w,
    db (snd (create_user rq w)) = db w \/
    exists u,
      insert_user u (db w) = Returned (db (snd (create_user rq w))) /\
      In (User.role u) known_roles.
Proof.
  intros rq w. unfold create_user.
  destruct (gate_blocks ["master"] create_user_view rq w)
    as [H|[H|H]]; rewrite H; [|left; reflexivity|left; reflexivity].
  unfold create_user_view.
  destruct (method rq); [left; reflexivity|].
  destruct (negb _ || negb _); [left; reflexivity|].
  destruct (user_by_username _ _); [left; reflexivity|].
  destruct (Py.mem _ known_roles) eqn:Hrole; cbn [negb]; [|left; reflexivity].
  match goal with |- context [insert_user ?c (db w)] => set (u := c) end.
  destruct (insert_user u (db w)) as [d|e] eqn:Hi; [|left; reflexivity].
  right. exists u. split; [exact Hi|]. apply mem_In. exact Hrole.
Qed.

Lemma create_app_db :
  forall now (d : Database pyfloat),
    create_app now d = Returned d \/
    users d = [] /\
    create_app now d
      = Returned (mkDatabase pyfloat (contacts d) (messages d)
                    [User.mk 1 "admin" (generate_password_hash "admin123")
                             "master" now]
                    (scheduled_emails d)).
Proof.
  intros now d. unfold create_app, insert_user.
  destruct (users d) eqn:Hu; [|left; reflexivity].
  right. split; reflexivity.
Qed.

(** Usernames stay unique and roles stay among the four known ones:
    neither [create_user], whatever the request, nor the start-up of the
    application breaks either; and the start-up never raises. *)
Theorem users_stay_well_formed :
  forall (rq : Request) (w : World) (now : Z),
    unique_usernames (db w) ->
    roles_known (db w) ->
    (unique_usernames (db (snd (create_user rq w))) /\
     roles_known (db (snd (create_user rq w)))) /\
    (exists d, create_app now (db w) = Returned d /\
               unique_usernames d /\ roles_known d).
Proof.
  intros rq w now Hu Hr. unfold unique_usernames, roles_known in *. split.
  - destruct (create_user_db rq w) as [H|(u & Hi & Hrole)];
      [rewrite H; split; assumption|].
    apply insert_user_returned in Hi. destruct Hi as [-> Hfree].
    cbn [users]. split.
    + rewrite map_app. apply NoDup_snoc; assumption.
    + apply Forall_app. split; [exact Hr|]. constructor; [exact Hrole|constructor].
  - destruct (create_app_db now (db w)) as [H|[Hnone H]]; rewrite H;
      eexists; (split; [reflexivity|]).
    + split; assumption.
    + cbn [users]. split.
      * constructor; [intros []|constructor].
      * constructor; [left; reflexivity|constructor].
Qed.

(** Starting the application twice is starting it once: the second
    start-up finds a user and leaves the database as it is. *)
Theorem create_app_is_idempotent :
  forall (now now' : Z) (d d1 : Database pyfloat),
    create_app now d = Returned d1 ->
    create_app now' d1 = Returned d1.
Proof.
  intros now now' d d1 H. unfold create_app in H.
  destruct (users d) eqn:Hu.
  - unfold insert_user in H. rewrite Hu in H. cbn in H.
    inversion H. reflexivity.
  - inversion H. subst d1. unfold create_app. rewrite Hu. reflexivity.
Qed.

Lemma create_user_by_master :
  forall rq w user,
    g_user rq = Some user ->
    Py.lower (User.role user) = "master" ->
    create_user rq w = create_user_view rq w.
Proof.
  intros rq w user Huser Hrole. unfold create_user.
  apply (gate_passes ["master"] _ _ _ user Huser).
  rewrite Hrole. reflexivity.
Qed.

(** What [create_user] refuses, for a master user: a blank username or
    password, a username that is taken, and a role that is none of the
    four (compared stripped and in lower case).  Each time the form is
    rendered again with one message and nothing else changes. *)
Theorem create_user_refuses_bad_input :
  forall (rq : Request) (w : World) (user : User.t),
    method rq = POST ->
    g_user rq = Some user ->
    Py.lower (User.role user) = "master" ->
    let username := Py.strip (form_get (form rq) "username" "") in
    let password := Py.strip (form_get (form rq) "password" "") in
    let role := Py.lower (Py.strip (form_get (form rq) "role" "engineer")) in
    (username = "" \/ password = "" ->
     create_user rq w
       = (Render "user_form.html" None,
          flash "Username and password are required." "danger" w)) /\
    (username <> "" -> password <> "" ->
     (exists other, In other (users (db w)) /\ User.username other = username) ->
     create_user rq w
       = (Render "user_form.html" None,
          flash "A user with that username already exists." "warning" w)) /\
    (username <> "" -> password <> "" ->
     (forall other, In other (users (db w)) -> User.username other <> username) ->
     ~ In role known_roles ->
     create_user rq w
       = (Render "user_form.html" None,
          flash "Invalid role selected." "danger" w)).
Proof.
  intros rq w user Hpost Huser Hmaster username password role.
  rewrite (create_user_by_master rq w user Huser Hmaster).
  unfold create_user_view. rewrite Hpost. fold username password role.
  split; [|split].
  - intros Hblank.
    replace (negb (Py.truthy username) || negb (Py.truthy password)) with true;
      [reflexivity|].
    symmetry. destruct Hblank as [H|H]; rewrite H; cbn;
      rewrite ?orb_true_r; reflexivity.
  - intros Hu Hp (other & Hin & Hname).
    apply truthy_true in Hu, Hp. rewrite Hu, Hp. cbn [negb orb].
    destruct (user_by_username (db w) username) as [u|] eqn:Hfind;
      [reflexivity|].
    unfold user_by_username in Hfind.
    pose proof (find_none _ _ Hfind other Hin) as Hn. cbv beta in Hn.
    rewrite Hname, String.eqb_refl in Hn. discriminate.
  - intros Hu Hp Hfree Hrole.
    apply truthy_true in Hu, Hp. rewrite Hu, Hp. cbn [negb orb].
    destruct (user_by_username (db w) username) as [u|] eqn:Hfind.
    { unfold user_by_username in Hfind. apply find_some in Hfind.
      destruct Hfind as [Hin Heq]. apply String.eqb_eq in Heq.
      exfalso. exact (Hfree u Hin Heq). }
    destruct (Py.mem role known_roles) eqn:Hmem; [|reflexivity].
    apply mem_In in Hmem. contradiction.
Qed.

Lemma find_snoc :
  forall (A : Type) (p : A -> bool) l x,
    find p l = None -> p x = true -> find p (l ++ [x]) = Some x.
Proof.
  intros A p l x Hn Hx. induction l as [|a l IH]; simpl in *.
  - rewrite Hx. reflexivity.
  - destruct (p a); [discriminate|]. auto.
Qed.

(** [create_user] when it accepts the form. *)
Lemma create_user_accepted :
  forall (rq : Request) (w : World) (user : User.t),
    method rq = POST ->
    g_user rq = Some user ->
    Py.lower (User.role user) = "master" ->
    let username := Py.strip (form_get (form rq) "username" "") in
    let password := Py.strip (form_get (form rq) "password" "") in
    let role := Py.lower (Py.strip (form_get (form rq) "role" "engineer")) in
    username <> "" -> password <> "" ->
    (forall other, In other (users (db w)) -> User.username other <> username) ->
    In role known_roles ->
    exists new_user,
      create_user rq w
        = (Redirect Url_list_users,
           flash "User created successfully." "success"
             (set_db (mkDatabase pyfloat (contacts (db w)) (messages (db w))
                        (users (db w) ++ [new_user]) (scheduled_emails (db w)))
                     w)) /\
      User.id new_user = next_id (map User.id (users (db w))) /\
      User.username new_user = username /\
      User.role new_user = role /\
      User.created_at new_user = req_time rq /\
      check_password new_user password = true /\
      (form_lookup (form rq) "role" = None -> User.role new_user = "engineer").
Proof.
  intros rq w user Hpost Huser Hmaster username password role Hu Hp Hfree Hrole.
  rewrite (create_user_by_master rq w user Huser Hmaster).
  unfold create_user_view. rewrite Hpost. fold username password role.
  apply truthy_true in Hu, Hp. rewrite Hu, Hp. cbn [negb orb].
  assert (Hfind : user_by_username (db w) username = None).
  { destruct (user_by_username (db w) username) as [u|] eqn:Hfind;
      [|reflexivity].
    unfold user_by_username in Hfind. apply find_some in Hfind.
    destruct Hfind as [Hin Heq]. apply String.eqb_eq in Heq.
    exfalso. exact (Hfree u Hin Heq). }
  rewrite Hfind.
  replace (Py.mem role known_roles) with true.
  2:{ symmetry. unfold Py.mem. apply existsb_exists. exists role.
      split; [exact Hrole | apply String.eqb_refl]. }
  cbn [negb]. unfold insert_user. cbn [User.username].
  unfold user_by_username in Hfind. rewrite (find_none_existsb _ _ _ Hfind).
  eexists. split; [reflexivity|].
  cbn [User.id User.username User.role User.created_at].
  repeat (split; [reflexivity|]). split.
  - unfold check_password. cbn [User.password_hash]. apply check_generated.
  - intro Hnone. unfold role, form_get. rewrite Hnone. reflexivity.
Qed.

(** A master user creates a user: with a username and a password that
    are not blank, a username nobody has and one of the four roles, one
    User is appended, with the next primary key, the stripped username,
    the role stripped and in lower case ([engineer] when the field is
    missing) and a hash that the stripped password checks against; the
    other tables are as they were. *)
Theorem create_user_appends_one_user :
  forall (rq : Request) (w : World) (user : User.t),
    method rq = POST ->
    g_user rq = Some user ->
    Py.lower (User.role user) = "master" ->
    let username := Py.strip (form_get (form rq) "username" "") in
    let password := Py.strip (form_get (form rq) "password" "") in
    let role := Py.lower (Py.strip (form_get (form rq) "role" "engineer")) in
    username <> "" -> password <> "" ->
    (forall other, In other (users (db w)) -> User.username other <> username) ->
    In role known_roles ->
    exists new_user,
      create_user rq w
        = (Redirect Url_list_users,
           flash "User created successfully." "success"
             (set_db (mkDatabase pyfloat (contacts (db w)) (messages (db w))
                        (users (db w) ++ [new_user]) (scheduled_emails (db w)))
                     w)) /\
      User.id new_user = next_id (map User.id (users (db w))) /\
      User.username new_user = username /\
      User.role new_user = role /\
      User.created_at new_user = req_time rq /\
      check_password new_user password = true /\
      (form_lookup (form rq) "role" = None -> User.role new_user = "engineer").
Proof.
  intros rq w user Hpost Huser Hmaster username password role Hu Hp Hfree Hrole.
  exact (create_user_accepted rq w user Hpost Huser Hmaster Hu Hp Hfree Hrole).
Qed.

(** [login] on a POST. *)
Lemma login_post :
  forall (session : Session) (rq : Request) (w : World),
    method rq = POST ->
    let username := Py.strip (form_get (form rq) "username" "") in
    let password := Py.strip (form_get (form rq) "password" "") in
    (forall user,
        user_by_username (db w) username = Some user ->
        check_password user password = true ->
        login session rq w
          = (Redirect Url_index, flash "Logged in successfully." "success" w,
             Some (User.id user))) /\
    ((forall user,
         user_by_username (db w) username = Some user ->
         check_password user password = false) ->
     login session rq w
       = (Render "login.html" None,
          flash "Invalid username or password." "danger" w, session)) /\
    db (snd (fst (login session rq w))) = db w.
Proof.
  intros session rq w Hpost username password.
  unfold login. rewrite Hpost. fold username password.
  split; [|split].
  - intros user Hfind Hcheck. rewrite Hfind, Hcheck. reflexivity.
  - intros Hbad.
    destruct (user_by_username (db w) username) as [user|]; [|reflexivity].
    rewrite (Hbad user eq_refl). reflexivity.
  - destruct (user_by_username (db w) username) as [user|]; [|reflexivity].
    destruct (check_password user password); reflexivity.
Qed.

(** Log-in accepts exactly good credentials.  A POST to [/login] whose
    stripped username is that of a user and whose stripped password
    checks against the hash of that user puts the id of the user in the
    session; any other POST leaves the session as it was and answers
    with the login page.  Neither touches the database. *)
Theorem login_accepts_exactly_good_credentials :
  forall (session : Session) (rq : Request) (w : World),
    method rq = POST ->
    let username := Py.strip (form_get (form rq) "username" "") in
    let password := Py.strip (form_get (form rq) "password" "") in
    (forall user,
        user_by_username (db w) username = Some user ->
        check_password user password = true ->
        login session rq w
          = (Redirect Url_index, flash "Logged in successfully." "success" w,
             Some (User.id user))) /\
    ((forall user,
         user_by_username (db w) username = Some user ->
         check_password user password = false) ->
     login session rq w
       = (Render "login.html" None,
          flash "Invalid username or password." "danger" w, session)) /\
    db (snd (fst (login session rq w))) = db w.
Proof.
  intros session rq w Hpost username password.
  exact (login_post session rq w Hpost).
Qed.

(** A user that a master has just created can log in: a POST to [/login]
    with the username and the password of the creation form puts the id
    of the new user in the session. *)
Theorem new_user_can_log_in :
  forall (rq rq' : Request) (w : World) (user : User.t) (session : Session),
    method rq = POST ->
    g_user rq = Some user ->
    Py.lower (User.role user) = "master" ->
    Py.strip (form_get (form rq) "username" "") <> "" ->
    Py.strip (form_get (form rq) "password" "") <> "" ->
    (forall other, In other (users (db w)) ->
       User.username other <> Py.strip (form_get (form rq) "username" "")) ->
    In (Py.lower (Py.strip (form_get (form rq) "role" "engineer"))) known_roles ->
    method rq' = POST ->
    form_get (form rq') "username" "" = form_get (form rq) "username" "" ->
    form_get (form rq') "password" "" = form_get (form rq) "password" "" ->
    login session rq' (snd (create_user rq w))
      = (Redirect Url_index,
         flash "Logged in successfully." "success" (snd (create_user rq w)),
         Some (next_id (map User.id (users (db w))))).
Proof.
  intros rq rq' w user session Hpost Huser Hmaster Hu Hp Hfree Hrole Hpost'
         Hname Hpass.
  destruct (create_user_accepted rq w user Hpost Huser Hmaster Hu Hp
              Hfree Hrole)
    as (new_user & Hcreate & Hid & Huname & _ & _ & Hcheck & _).
  rewrite Hcreate. cbn [snd].
  destruct (login_post session rq'
              (flash "User created successfully." "success"
                 (set_db (mkDatabase pyfloat (contacts (db w)) (messages (db w))
                            (users (db w) ++ [new_user])
                            (scheduled_emails (db w))) w)) Hpost')
    as [Hgood _].
  rewrite <- Hid. apply Hgood.
  - rewrite Hname. unfold user_by_username. cbn [db flash set_db users].
    apply find_snoc.
    + destruct (find _ (users (db w))) as [u|] eqn:Hfind; [|reflexivity].
      apply find_some in Hfind. destruct Hfind as [Hin Heq].
      apply String.eqb_eq in Heq. exfalso. exact (Hfree u Hin Heq).
    + rewrite Huname. apply String.eqb_refl.
  - rewrite Hpass. exact Hcheck.
Qed.

(** After the first start-up the default credentials work: on a database
    that had no user, a POST to [/login] with [admin] and [admin123] logs
    in as the user with id 1. *)
Theorem default_admin_can_log_in :
  forall (now : Z) (d : Database pyfloat) (rq : Request) (w : World)
         (session : Session),
    users d = [] ->
    create_app now d = Returned (db w) ->
    method rq = POST ->
    Py.strip (form_get (form rq) "username" "") = "admin" ->
    Py.strip (form_get (form rq) "password" "") = "admin123" ->
    login session rq w
      = (Redirect Url_index, flash "Logged in successfully." "success" w,
         Some 1).
Proof.
  intros now d rq w session Hnone Hboot Hpost Hname Hpass.
  destruct (create_app_db now d) as [H|[_ H]].
  - rewrite H in Hboot. inversion Hboot as [Hd].
    unfold create_app in H. rewrite Hnone in H. unfold insert_user in H.
    rewrite Hnone in H. cbn in H. inversion H as [Hd'].
    rewrite <- Hd' in Hnone at 1. discriminate.
  - rewrite H in Hboot. inversion Hboot as [Hd].
    unfold login. rewrite Hpost, Hname, Hpass.
    unfold user_by_username. rewrite <- Hd. cbn.
    unfold check_password. cbn. rewrite check_generated. reflexivity.
Qed.

Lemma find_by_unique_id :
  forall (l : list User.t) u,
    NoDup (map User.id l) -> In u l ->
    find (fun r => User.id r =? User.id u) l = Some u.
Proof.
  intros l u. induction l as [|a l IH]; simpl; intros Hnd Hin; [contradiction|].
  inversion Hnd as [|? ? Hnot Hnd']; subst.
  destruct Hin as [->|Hin].
  - rewrite Z.eqb_refl. reflexivity.
  - destruct (User.id a =? User.id u) eqn:Ha.
    + apply Z.eqb_eq in Ha. exfalso. apply Hnot. rewrite Ha.
      apply in_map. exact Hin.
    + apply IH; assumption.
Qed.

(** The session identifies the user who logged in, until log-out.  When
    user ids are unique, the request that follows a successful log-in
    carries that user as [g.user], whatever the session held before; a
    log-out empties the session, and the request that follows carries no
    user. *)
Theorem session_follows_login_and_logout :
  forall (session : Session) (rq rq' : Request) (w : World) (user : User.t)
         (now : Z) (m : Method) (f : list (string * string)),
    NoDup (map User.id (users (db w))) ->
    method rq = POST ->
    user_by_username (db w) (Py.strip (form_get (form rq) "username" ""))
      = Some user ->
    check_password user (Py.strip (form_get (form rq) "password" "")) = true ->
    let after_login := login session rq w in
    g_user (request_of (snd after_login) now m f (snd (fst after_login)))
      = Some user /\
    (g_user rq' = Some user ->
     let after_logout := logout (snd after_login) rq' (snd (fst after_login)) in
     snd after_logout = None /\
     g_user (request_of (snd after_logout) now m f (snd (fst after_logout)))
       = None).
Proof.
  intros session rq rq' w user now m f Hids Hpost Hfind Hcheck after_login.
  destruct (login_post session rq w Hpost) as [Hgood _].
  assert (Hl : after_login
               = (Redirect Url_index,
                  flash "Logged in successfully." "success" w,
                  Some (User.id user))) by (apply Hgood; assumption).
  rewrite Hl. cbn [fst snd]. split.
  - unfold request_of, load_logged_in_user. cbn [g_user db flash].
    apply find_by_unique_id; [exact Hids|].
    unfold user_by_username in Hfind. apply find_some in Hfind. tauto.
  - intros Huser. unfold logout. rewrite Huser. split; reflexivity.
Qed.

End Handlers.

(** ** The further properties on the concrete data *)

Section HandlerRuns.

#[local] Existing Instance Reference.runtime.

Import Scenario Cases.

Ltac distinct :=
  repeat (constructor; [cbn; intuition discriminate|]); constructor.

Ltac differ := cbn; discriminate.

Lemma contact_routes_keep_emails_unique_run :
  unique_emails (db (snd (create_contact (post admin carol_form) world))) /\
  unique_emails (db (snd (edit_contact 2 (post admin carol_form) world))) /\
  unique_emails (db (snd (delete_contact 2 (post admin carol_form) world))).
Proof.
  apply (contact_routes_keep_emails_unique 2 (post admin carol_form) world);
    unfold unique_emails, unique_contact_ids; cbn; distinct.
Defined.

Lemma contact_routes_keep_ids_unique_run :
  unique_contact_ids (db (snd (create_contact (post admin carol_form) world))) /\
  unique_contact_ids (db (snd (edit_contact 2 (post admin carol_form) world))) /\
  unique_contact_ids (db (snd (delete_contact 2 (post admin carol_form) world))).
Proof.
  apply (contact_routes_keep_ids_unique 2 (post admin carol_form) world);
    unfold unique_contact_ids; cbn; distinct.
Defined.

Lemma contact_routes_keep_emails_stripped_run :
  emails_stripped (db (snd (create_contact (post admin carol_form) world))) /\
  emails_stripped (db (snd (edit_contact 2 (post admin carol_form) world))) /\
  emails_stripped (db (snd (delete_contact 2 (post admin carol_form) world))).
Proof.
  apply (contact_routes_keep_emails_stripped 2 (post admin carol_form) world).
  unfold emails_stripped. cbn. repeat constructor.
Defined.

Lemma create_contact_requires_names_and_email_run :
  create_contact (post admin [("first_name", "  "); ("last_name", "Cole");
                              ("email", "carol@example.com")]) world
    = (Render "contact_form.html" None,
       flash "First name, last name and email are required." "danger" world).
Proof.
  apply (create_contact_requires_names_and_email _ world admin);
    try reflexivity.
  left. reflexivity.
Defined.

Lemma create_contact_appends_one_contact_run :
  exists contact,
    db (snd (create_contact (post admin carol_form) world))
      = mkDatabase pyfloat [alice; bob; contact] [] [admin; engineer] [] /\
    Contact.id contact = 3 /\
    Contact.email contact = "carol@example.com" /\
    Contact.potential_spend contact = Some zero /\
    Contact.rating contact = 0.
Proof.
  assert (Hnan : no_nan (form (post admin carol_form)))
    by (unfold carol_form; by_fields).
  assert (Hfit : rating_fits (form (post admin carol_form)))
    by (unfold carol_form; by_fields).
  assert (Hfree : forall c : Contact.t pyfloat,
            In c (contacts (db world)) ->
            Contact.email c
            <> Py.strip (form_get (form (post admin carol_form)) "email" "")).
  { intros c [<-|[<-|[]]]; differ. }
  destruct (create_contact_appends_one_contact (post admin carol_form) world
              admin eq_refl eq_refl eq_refl ltac:(differ) ltac:(differ)
              ltac:(differ) Hfree Hnan Hfit)
    as (contact & _ & Hdb & _ & Hid & _ & _ & Hem & _ & Hpot & _ & Hrat).
  exists contact. split; [exact Hdb|]. split; [exact Hid|].
  split; [exact Hem|]. split; [exact (Hpot "lots" eq_refl eq_refl)|].
  exact (Hrat eq_refl).
Defined.

Lemma edit_contact_overwrites_text_fields_run :
  let rq := post admin [("last_name", "Baker"); ("email", "bob@example.com")] in
  exists contact',
    get_contact (db (snd (edit_contact 2 rq world))) 2 = Some contact' /\
    Contact.first_name contact' = "" /\
    Contact.last_name contact' = "Baker" /\
    get_contact (db (snd (edit_contact 2 rq world))) 1 = Some alice.
Proof.
  intro rq.
  assert (Hnan : no_nan (form rq)) by (subst rq; by_fields).
  assert (Hfit : rating_fits (form rq)) by (subst rq; by_fields).
  assert (Hfree : forall other : Contact.t pyfloat,
            In other (contacts (db world)) -> Contact.id other <> 2 ->
            Contact.email other <> Py.strip (form_get (form rq) "email" "")).
  { intros other [<-|[<-|[]]] Hid; cbn in *; [discriminate|contradiction]. }
  destruct (edit_contact_overwrites_text_fields 2 rq world bob admin
              eq_refl eq_refl eq_refl eq_refl Hfree eq_refl Hnan Hfit)
    as (contact' & _ & Hget & _ & _ & _ & Hlast & _ & _ & Hfirst & Hothers).
  exists contact'. split; [exact Hget|]. split; [exact (Hfirst eq_refl)|].
  split; [exact Hlast|]. rewrite Hothers; [reflexivity|discriminate].
Defined.

Lemma delete_contact_keeps_schedules_run :
  let w' := snd (delete_contact 1 (post admin []) (with_scheduled reminder)) in
  get_contact (db w') 1 = None /\
  get_contact (db w') 2 = Some bob /\
  scheduled_emails (db w') = [reminder] /\
  calls (send_and_reschedule offline T 1 w') = [].
Proof.
  intro w'.
  destruct (delete_contact_keeps_schedules 1 (post admin [])
              (with_scheduled reminder) alice admin
              eq_refl eq_refl eq_refl eq_refl)
    as (_ & Hgone & Hothers & Hsched & _ & Hfire).
  - intros m [].
  - split; [exact Hgone|]. split; [|split; [exact Hsched|]].
    + unfold w'. rewrite Hothers; [reflexivity|discriminate].
    + exact (Hfire offline T 1 reminder eq_refl eq_refl).
Defined.

Lemma send_message_requires_channel_and_body_run :
  send_message_route online 1
    (post engineer [("channel", "fax"); ("body", "Hello")]) world
    = (Render "message_form.html" (Some alice),
       flash "Please choose a valid channel and provide a message body."
             "danger" world).
Proof.
  apply (send_message_requires_channel_and_body online 1 _ world alice
           engineer); try reflexivity.
  left. split; discriminate.
Defined.

Lemma test_send_records_nothing_run :
  let rq := post engineer [("channel", "email"); ("subject", "Hello");
                           ("body", "Hi"); ("send_test", "1")] in
  db (snd (send_message_route online 1 rq world)) = database /\
  timers (snd (send_message_route online 1 rq world)) = [].
Proof.
  intro rq.
  exact (test_send_records_nothing online 1 rq world eq_refl).
Defined.

Lemma immediate_email_is_logged_iff_sent_run :
  let rq := post engineer [("channel", "email"); ("subject", "Hello");
                           ("body", "Hi")] in
  db (snd (send_message_route online 1 rq world))
    = insert_message (Message.mk 1 1 "email" (Some "Hello") "Hi" 1000) database
  /\ db (snd (send_message_route offline 1 rq world)) = database.
Proof.
  intro rq. split.
  - exact (proj2 (proj2 (proj2
      (immediate_email_is_logged_iff_sent online 1 rq world alice engineer
         [] true eq_refl eq_refl eq_refl eq_refl
         ltac:(differ) eq_refl ltac:(differ) ltac:(differ) eq_refl)))).
  - exact (proj2 (proj2 (proj2
      (immediate_email_is_logged_iff_sent offline 1 rq world alice engineer
         ["Email sending failed: Connection refused"] false
         eq_refl eq_refl eq_refl eq_refl
         ltac:(differ) eq_refl ltac:(differ) ltac:(differ) eq_refl)))).
Defined.

Lemma sms_is_sent_at_once_run :
  let rq := post engineer [("channel", "sms"); ("body", "Hi");
                           ("start_at", "2030-01-01T09:00")] in
  db (snd (send_message_route texting 1 rq world))
    = insert_message (Message.mk 1 1 "sms" None "Hi" 1000) database /\
  timers (snd (send_message_route texting 1 rq world)) = [].
Proof.
  intro rq.
  pose proof (sms_is_sent_at_once texting 1 rq world alice engineer [] true
                eq_refl eq_refl eq_refl eq_refl ltac:(differ) ltac:(differ)
                eq_refl) as (_ & Htimers & Hdb).
  split; [exact Hdb | exact Htimers].
Defined.

Lemma scheduling_rejects_bad_dates_run :
  let rq := post engineer [("channel", "email"); ("subject", "Hello");
                           ("body", "Hi"); ("start_at", "tomorrow")] in
  fst (send_message_route online 1 rq world)
    = Render "message_form.html" (Some alice).
Proof.
  intro rq.
  exact (proj1
    (scheduling_rejects_bad_dates online 1 rq world alice engineer
       eq_refl eq_refl eq_refl eq_refl ltac:(differ) ltac:(differ)
       ltac:(differ) (or_introl eq_refl))).
Defined.

Lemma scheduling_stores_entry_and_arms_timer_run :
  let rq := post engineer [("channel", "email"); ("subject", "Hello");
                           ("body", "Hi"); ("start_at", "2030-01-01T09:00");
                           ("recurring", "on")] in
  scheduled_emails (db (snd (send_message_route online 1 rq world)))
    = [ScheduledEmail.mk 1 1 "Hello" "Hi" T None true None] /\
  timers (snd (send_message_route online 1 rq world))
    = [mkTimer T 1 (T - 1000)].
Proof.
  intro rq.
  pose proof (scheduling_stores_entry_and_arms_timer online 1 rq world alice
                engineer T None eq_refl eq_refl eq_refl eq_refl
                ltac:(differ) ltac:(differ) ltac:(differ) eq_refl eq_refl)
    as (_ & Hdb & Htimers & _).
  split; [rewrite Hdb; reflexivity | exact Htimers].
Defined.

Lemma one_shot_entry_is_sent_once_run :
  let w' := run_timers offline 4
              (schedule_email_job 0 notice (with_scheduled notice)) in
  calls w' = [EmailCall T "bob@example.com" "Notice" "Office closed"] /\
  (exists s',
      get_scheduled (db w') 1 = Some s' /\
      ScheduledEmail.sent_at s' = Some T /\
      ScheduledEmail.start_at s' = T) /\
  timers w' = [].
Proof.
  assert (Hwait : ScheduledEmail.start_at notice - 0 <= timeout_max offline)
    by (vm_compute; discriminate).
  assert (Hmax : 0 <= timeout_max offline) by (vm_compute; discriminate).
  destruct (one_shot_entry_is_sent_once offline (with_scheduled notice) notice
              bob 0 3 eq_refl eq_refl eq_refl eq_refl utf8_prints_all
              Hwait Hmax eq_refl)
    as (Hcalls & (s' & Hs & Hsent & Hstart & _) & Htimers & _).
  split; [exact Hcalls|]. split; [|exact Htimers].
  exists s'. auto.
Defined.

Lemma recurring_entry_is_sent_once_a_day_until_end_run :
  let w' := run_timers offline 4
              (schedule_email_job 0 digest (with_scheduled digest)) in
  calls w'
    = [EmailCall T "alice@example.com" "Digest" "News";
       EmailCall (T + hours 24) "alice@example.com" "Digest" "News";
       EmailCall (T + hours 48) "alice@example.com" "Digest" "News"] /\
  (exists s',
      get_scheduled (db w') 1 = Some s' /\
      ScheduledEmail.start_at s' = T + hours 48 /\
      ScheduledEmail.sent_at s' = Some (T + hours 48)) /\
  timers w' = [].
Proof.
  assert (Hwait : ScheduledEmail.start_at digest - 0 <= timeout_max offline)
    by (vm_compute; discriminate).
  assert (Hday : 86400000000 <= timeout_max offline)
    by (vm_compute; discriminate).
  assert (H1 : (0 < 2)%nat ->
               ScheduledEmail.start_at digest + Z.of_nat 2 * 86400000000
               <= T + hours 60)
    by (intros _; unfold digest, T, hours; cbn; lia).
  assert (H2 : T + hours 60
               < ScheduledEmail.start_at digest
                 + (Z.of_nat 2 + 1) * 86400000000)
    by (unfold digest, T, hours; cbn; lia).
  destruct (recurring_entry_is_sent_once_a_day_until_end offline
              (with_scheduled digest) digest alice 0 (T + hours 60) 2 1
              eq_refl eq_refl eq_refl eq_refl utf8_prints_all Hwait Hday
              eq_refl eq_refl H1 H2)
    as (Hcalls & (s' & Hs & Hstart & Hsent) & Htimers & _).
  split; [exact Hcalls|]. split; [|exact Htimers].
  exists s'. split; [exact Hs|]. split; [exact Hstart | exact Hsent].
Defined.

Lemma anonymous_requests_are_redirected_run :
  create_contact (anonymous carol_form) world = (Redirect Url_login, world) /\
  delete_contact 1 (anonymous carol_form) world = (Redirect Url_login, world).
Proof.
  pose proof (anonymous_requests_are_redirected online 1
                (anonymous carol_form) world eq_refl)
    as (Hcreate & _ & _ & _ & Hdelete).
  split; [exact Hcreate | exact (Hdelete eq_refl)].
Defined.

Lemma get_requests_write_nothing_run :
  db (snd (edit_contact 1 (get admin) world)) = database /\
  db (snd (delete_contact 1 (get admin) world)) = database /\
  snd (login (Some 2) (get admin) world) = Some 2.
Proof.
  pose proof (get_requests_write_nothing online 1 (Some 2) (get admin) world
                eq_refl)
    as (_ & (Hedit & _) & (Hdelete & _) & _ & _ & _ & Hsession).
  split; [exact Hedit|]. split; [exact Hdelete | exact Hsession].
Defined.

Lemma send_email_session_run :
  exists session,
    (forall smtp : Transport SmtpSession,
        smtp session = None ->
        send_email over_ssl utf8 smtp "bob@example.com" "Hello" "Hi"
        = ([], Returned true)) /\
    smtp_port session = 587 /\
    smtp_ssl session = true /\ smtp_starttls session = false.
Proof.
  destruct (send_email_session over_ssl utf8 "bob@example.com" "Hello" "Hi"
              eq_refl eq_refl)
    as (session & Hsend & _ & _ & _ & _ & _ & _ & _ & Hport & _ & Hssl & Htls
        & _).
  exists session. split.
  { intros smtp Hok. rewrite Hsend, Hok. reflexivity. }
  split; [exact (Hport eq_refl)|].
  assert (Htrue : smtp_ssl session = true) by (rewrite Hssl; reflexivity).
  split; [exact Htrue|]. rewrite Htls, Htrue. apply andb_false_r.
Defined.

Lemma users_stay_well_formed_run :
  let w := set_db (mkDatabase pyfloat [] [] [admin] []) world in
  unique_usernames (db (snd (create_user (post admin new_user_form) w))) /\
  roles_known (db (snd (create_user (post admin new_user_form) w))).
Proof.
  intro w.
  apply (users_stay_well_formed (post admin new_user_form) w 0).
  - unfold unique_usernames. cbn. distinct.
  - unfold roles_known. cbn.
    repeat (constructor; [cbn; tauto|]). constructor.
Defined.

Lemma create_app_is_idempotent_run :
  exists d1,
    create_app 0 (mkDatabase pyfloat [] [] [] []) = Returned d1 /\
    create_app 5 d1 = Returned d1.
Proof.
  eexists. split; [reflexivity|].
  exact (create_app_is_idempotent 0 5 (mkDatabase pyfloat [] [] [] []) _
           eq_refl).
Defined.

Lemma create_user_refuses_bad_input_run :
  create_user (post admin [("username", "dana"); ("password", "pa55word");
                           ("role", "Guest")]) world
    = (Render "user_form.html" None,
       flash "Invalid role selected." "danger" world).
Proof.
  pose proof (create_user_refuses_bad_input
                (post admin [("username", "dana"); ("password", "pa55word");
                             ("role", "Guest")]) world admin
                eq_refl eq_refl eq_refl) as (_ & _ & Hrole).
  apply Hrole; try differ.
  - intros other [<-|[<-|[]]]; differ.
  - cbn. intuition discriminate.
Defined.

Lemma create_user_appends_one_user_run :
  exists new_user,
    users (db (snd (create_user (post admin new_user_form) world)))
      = [admin; engineer; new_user] /\
    User.id new_user = 3 /\
    User.username new_user = "dana" /\
    User.role new_user = "billing" /\
    check_password new_user "pa55word" = true.
Proof.
  destruct (create_user_appends_one_user (post admin new_user_form) world
              admin eq_refl eq_refl eq_refl)
    as (new_user & Hrun & Hid & Hname & Hrole & _ & Hcheck & _).
  - differ.
  - differ.
  - intros other [<-|[<-|[]]]; differ.
  - cbn. tauto.
  - exists new_user. rewrite Hrun.
    split; [reflexivity|]. split; [exact Hid|]. split; [exact Hname|].
    split; [exact Hrole | exact Hcheck].
Defined.

Lemma login_accepts_exactly_good_credentials_run :
  let good := anonymous [("username", " admin "); ("password", "admin123")] in
  let bad := anonymous [("username", "admin"); ("password", "letmein")] in
  snd (login None good world) = Some 1 /\ snd (login None bad world) = None.
Proof.
  intros good bad. split.
  - pose proof (login_accepts_exactly_good_credentials None good world
                  eq_refl) as (Hgood & _).
    rewrite (Hgood admin eq_refl eq_refl). reflexivity.
  - pose proof (login_accepts_exactly_good_credentials None bad world
                  eq_refl) as (_ & Hbad & _).
    rewrite Hbad; [reflexivity|].
    intros user Huser. injection Huser as <-. reflexivity.
Defined.

Lemma new_user_can_log_in_run :
  snd (login None
         (anonymous [("username", " dana "); ("password", "pa55word")])
         (snd (create_user (post admin new_user_form) world)))
    = Some 3.
Proof.
  rewrite (new_user_can_log_in (post admin new_user_form)
             (anonymous [("username", " dana "); ("password", "pa55word")])
             world admin None eq_refl eq_refl eq_refl
             ltac:(differ) ltac:(differ)).
  - reflexivity.
  - intros other [<-|[<-|[]]]; differ.
  - cbn. tauto.
  - reflexivity.
  - reflexivity.
  - reflexivity.
Defined.

Lemma default_admin_can_log_in_run :
  let empty := mkDatabase pyfloat [] [] [] [] in
  let started := match create_app 0 empty with
                 | Returned d => d
                 | Raised _ => empty
                 end in
  create_app 0 empty = Returned started /\
  snd (login None
         (anonymous [("username", "admin"); ("password", "admin123")])
         (set_db started world))
    = Some 1.
Proof.
  intros empty started. split; [reflexivity|].
  rewrite (default_admin_can_log_in 0 empty
             (anonymous [("username", "admin"); ("password", "admin123")])
             (set_db started world) None
             eq_refl eq_refl eq_refl eq_refl eq_refl).
  reflexivity.
Defined.

Lemma session_follows_login_and_logout_run :
  let rq := anonymous [("username", "admin"); ("password", "admin123")] in
  let after_login := login (Some 2) rq world in
  g_user (request_of (snd after_login) 2000 GET [] (snd (fst after_login)))
    = Some admin /\
  snd (logout (snd after_login) (get admin) (snd (fst after_login))) = None.
Proof.
  intros rq after_login.
  assert (Hids : NoDup (map User.id (users (db world)))) by (cbn; distinct).
  pose proof (session_follows_login_and_logout (Some 2) rq (get admin) world
                admin 2000 GET [] Hids eq_refl eq_refl eq_refl)
    as (Hin & Hout).
  split; [exact Hin | exact (proj1 (Hout eq_refl))].
Defined.

End HandlerRuns.
